(** * The security quality gate of the pipeline

    A shallow embedding of [.github/scripts/quality-gate.py]: the script
    that collects the SAST, SCA and DAST vulnerability counts, sums them by
    severity, compares the sums with the zero-tolerance thresholds, writes
    [quality-gate-summary.json] and exits with 0 (passed) or 1 (failed).

    Modelling choices, all visible in the definitions below:
    - Python values are the type [pyval]; the numbers of a JSON document are
      integers ([Z]).  Floating-point numbers ([1.5], [1e3], [NaN],
      [Infinity]) are no values of the model: [json_loads] reads no text
      that holds one.  That [json_loads] reads no document from a text
      therefore does not mean that [json.load] refuses it; the texts that
      [json.load] does refuse are told by [json_check], which follows the
      whole grammar, floating-point numbers included, and builds no value.
    - Text is made of the code points below 256: a [string] is a sequence
      of such characters, and the digits and spaces beyond them that
      Python's [int] and [str.strip] also know are not modelled.  A string
      of a JSON document with an escape [\u] of a code point from 256 on
      is read by [json_check] and not by [json_loads].
    - Integers are unbounded, and converting them is limited as Python
      3.11 and later do by default ([max_str_digits], 4300 digits): [int]
      of a text with more digits, an integer literal of a JSON document
      with more digits, and formatting an integer of more digits raise
      [ValueError].
    - The depth of a JSON document is not limited: the recursion limit of
      the interpreter is not modelled.
    - Exceptions are explicit ([result]); the run threads a [state] holding
      the files and the trace of what was opened and printed.
    - Of what is printed on standard output, the warnings are events of
      the trace.  The two tables (lines 162-188) are formatted by [main],
      because formatting a number can raise; their lines are the value of
      [tables] and are not kept in the trace.  The banner and the verdict
      block (lines 102-105, 240-273) are not modelled.  Writing to
      standard output itself never fails. *)

From Stdlib Require Import ZArith List Ascii String Bool Lia.
From Stdlib Require Import DecimalString DecimalPos DecimalZ.
From stdpp Require Import gmap strings.

Local Open Scope Z_scope.

(** ** Python values and exceptions *)

(** What [json.load] can return, numbers being integers.  A [dict] keeps
    the members of the JSON object in the order they were written. *)
#[local] Unset Elimination Schemes.
Inductive pyval : Type :=
| PNone
| PBool (b : bool)
| PInt (n : Z)
| PStr (s : string)
| PList (l : list pyval)
| PDict (d : list (string * pyval)).
#[local] Set Elimination Schemes.

(** The exception classes the script can meet.  [FileNotFoundError] is an
    [OSError]; [JSONDecodeError] and [UnicodeDecodeError] are [ValueError]s;
    all of them are [Exception]s. *)
Inductive exn : Type :=
| FileNotFoundError
| OSError
| UnicodeDecodeError
| JSONDecodeError
| ValueError
| TypeError
| AttributeError.

Definition is_ValueError (e : exn) : bool :=
  match e with
  | ValueError | JSONDecodeError | UnicodeDecodeError => true
  | _ => false
  end.

Inductive result (A : Type) : Type :=
| Ok (a : A)
| Raise (e : exn).
Arguments Ok {A} a.
Arguments Raise {A} e.

Definition rbind {A B : Type} (r : result A) (k : A -> result B) : result B :=
  match r with
  | Ok a => k a
  | Raise e => Raise e
  end.

(** ** Strings: [str.strip], [int(str)] and [str(int)] *)

(** The characters for which [str.isspace] holds: tab, line feed,
    vertical tab, form feed, carriage return (9-13), the four separators
    0x1c-0x1f, the space, the next-line character 0x85 and the no-break
    space 0xa0. *)
Definition py_isspace (c : ascii) : bool :=
  let n := nat_of_ascii c in
  ((9 <=? n) && (n <=? 13) || (28 <=? n) && (n <=? 32)
   || (n =? 133) || (n =? 160))%nat.

Fixpoint lstrip (s : string) : string :=
  match s with
  | String c s' => if py_isspace c then lstrip s' else s
  | EmptyString => EmptyString
  end.

(** [rstrip]: a space is dropped when everything after it was dropped. *)
Fixpoint rstrip (s : string) : string :=
  match s with
  | String c s' =>
      match rstrip s' with
      | EmptyString => if py_isspace c then EmptyString else String c EmptyString
      | t => String c t
      end
  | EmptyString => EmptyString
  end.

Definition py_strip (s : string) : string := rstrip (lstrip s).

Definition digit_of_ascii (c : ascii) : option Z :=
  let n := nat_of_ascii c in
  if ((48 <=? n) && (n <=? 57))%nat then Some (Z.of_nat n - 48) else None.

(** The digits of a decimal literal of [int()]: at least one digit, and
    single underscores allowed between two digits.  [acc] is the value read
    so far and [prev] tells whether the previous character was a digit. *)
Fixpoint int_digits (s : string) (acc : Z) (prev : bool) : option Z :=
  match s with
  | EmptyString => if prev then Some acc else None
  | String c s' =>
      match digit_of_ascii c with
      | Some d => int_digits s' (10 * acc + d) true
      | None =>
          if (Ascii.eqb c "_" && prev)%bool then int_digits s' acc false
          else None
      end
  end.

(** The spaces that [int] skips around a number: tab to carriage return
    (9-13) and the space, and of the characters above 127 those that are
    spaces, 0x85 and 0xa0.  The separators 0x1c-0x1f, which [str.strip]
    removes, are not among them. *)
Definition int_isspace (c : ascii) : bool :=
  let n := nat_of_ascii c in
  ((9 <=? n) && (n <=? 13) || (n =? 32) || (n =? 133) || (n =? 160))%nat.

Fixpoint int_lstrip (s : string) : string :=
  match s with
  | String c s' => if int_isspace c then int_lstrip s' else s
  | EmptyString => EmptyString
  end.

Fixpoint int_rstrip (s : string) : string :=
  match s with
  | String c s' =>
      match int_rstrip s' with
      | EmptyString => if int_isspace c then EmptyString else String c EmptyString
      | t => String c t
      end
  | EmptyString => EmptyString
  end.

(** The limit that [int], [str] and the format specifications put on the
    number of digits of a decimal conversion, as Python 3.11 and later
    set it by default ([sys.int_info.default_max_str_digits]); beyond it
    they raise a [ValueError]. *)
Definition max_str_digits : nat := 4300.
Arguments max_str_digits : simpl never.

(** The digits of a literal, its underscores apart. *)
Fixpoint count_digits (s : string) : nat :=
  match s with
  | EmptyString => O
  | String c s' =>
      match digit_of_ascii c with
      | Some _ => S (count_digits s')
      | None => count_digits s'
      end
  end.

(** [int(s)] for a string: surrounding spaces are dropped, then an optional
    sign, then the digits, no more of them than the limit.  Anything else
    is a [ValueError]. *)
Definition int_of_str (s : string) : result Z :=
  let t := int_rstrip (int_lstrip s) in
  let '(neg, ds) :=
    match t with
    | String "-" r => (true, r)
    | String "+" r => (false, r)
    | _ => (false, t)
    end in
  match int_digits ds 0 false with
  | Some n =>
      if (count_digits ds <=? max_str_digits)%nat
      then Ok (if neg then - n else n)
      else Raise ValueError
  | None => Raise ValueError
  end.

(** [int(v)] for a value of a JSON document. *)
Definition py_int (v : pyval) : result Z :=
  match v with
  | PInt n => Ok n
  | PBool b => Ok (if b then 1 else 0)
  | PStr s => int_of_str s
  | PNone | PList _ | PDict _ => Raise TypeError
  end.

(** The decimal digits of an integer, with a minus sign when negative. *)
Definition str_of_int (n : Z) : string := NilZero.string_of_int (Z.to_int n).

(** Has [n] no more digits than the limit?  The sign does not count. *)
Definition fits (n : Z) : bool :=
  (String.length (str_of_int (Z.abs n)) <=? max_str_digits)%nat.

(** [str(n)] for an integer, as [format] and an f-string call it. *)
Definition py_str (n : Z) : result string :=
  if fits n then Ok (str_of_int n) else Raise ValueError.

(** ** [json.dumps] with [indent=2]

    The encoder of Python's [json] module as [json.dump(summary, f,
    indent=2)] uses it: [ensure_ascii] is on, members are separated by a
    comma and a line break, a key from its value by a colon and a space,
    and every nesting level indents by two spaces.  The integers of the
    summary that [main] writes are within the limit of [str], since the
    tables have formatted them before. *)

(** The double quote (34) and the backslash (92). *)
Definition dquote : ascii := ascii_of_nat 34.
Definition backslash : ascii := ascii_of_nat 92.

Definition hex_char (n : nat) : ascii :=
  ascii_of_nat (if (n <? 10)%nat then 48 + n else 87 + n).

(** One character of a string literal: the quote and the backslash are
    escaped, the usual control characters have their short escape (b, f,
    n, r, t), the printable ASCII characters (space to tilde) stand for
    themselves and everything else becomes a u00xx escape. *)
Definition escape_char (c : ascii) : string :=
  let n := nat_of_ascii c in
  if (n =? 34)%nat then String backslash (String dquote EmptyString)
  else if (n =? 92)%nat then String backslash (String backslash EmptyString)
  else if (n =? 8)%nat then String backslash (String "b" EmptyString)
  else if (n =? 12)%nat then String backslash (String "f" EmptyString)
  else if (n =? 10)%nat then String backslash (String "n" EmptyString)
  else if (n =? 13)%nat then String backslash (String "r" EmptyString)
  else if (n =? 9)%nat then String backslash (String "t" EmptyString)
  else if ((32 <=? n) && (n <=? 126))%nat then String c EmptyString
  else String backslash (String "u" (String "0" (String "0"
         (String (hex_char (n / 16)) (String (hex_char (n mod 16)) EmptyString))))).

Fixpoint escape (s : string) : string :=
  match s with
  | EmptyString => EmptyString
  | String c s' => escape_char c +:+ escape s'
  end.

Definition quote (s : string) : string :=
  String dquote (escape s +:+ String dquote EmptyString).

Fixpoint spaces (n : nat) : string :=
  match n with
  | O => EmptyString
  | S n' => String " " (spaces n')
  end.

Definition newline_indent (level : nat) : string :=
  String "010" (spaces (2 * level)).

Fixpoint json_dumps (level : nat) (v : pyval) : string :=
  match v with
  | PNone => "null"
  | PBool true => "true"
  | PBool false => "false"
  | PInt n => str_of_int n
  | PStr s => quote s
  | PList [] => "[]"
  | PList (x :: xs) =>
      "[" +:+ newline_indent (S level) +:+ json_dumps (S level) x +:+
      (fix items (l : list pyval) : string :=
         match l with
         | [] => newline_indent level +:+ "]"
         | y :: l' =>
             "," +:+ newline_indent (S level) +:+ json_dumps (S level) y +:+ items l'
         end) xs
  | PDict [] => "{}"
  | PDict ((k, x) :: kvs) =>
      "{" +:+ newline_indent (S level) +:+ quote k +:+ ": " +:+ json_dumps (S level) x +:+
      (fix members (l : list (string * pyval)) : string :=
         match l with
         | [] => newline_indent level +:+ "}"
         | (k', y) :: l' =>
             "," +:+ newline_indent (S level) +:+ quote k' +:+ ": " +:+
             json_dumps (S level) y +:+ members l'
         end) kvs
  end.

(** ** [json.loads]

    The decoder of Python's [json] module, for documents whose numbers are
    integers.  [None] stands for a [JSONDecodeError]. *)

Definition json_isspace (c : ascii) : bool :=
  let n := nat_of_ascii c in
  ((n =? 32) || (n =? 9) || (n =? 10) || (n =? 13))%nat.

Fixpoint skip_ws (s : string) : string :=
  match s with
  | String c s' => if json_isspace c then skip_ws s' else s
  | EmptyString => EmptyString
  end.

Definition hex_value (c : ascii) : option nat :=
  let n := nat_of_ascii c in
  if ((48 <=? n) && (n <=? 57))%nat then Some (n - 48)%nat
  else if ((97 <=? n) && (n <=? 102))%nat then Some (n - 87)%nat
  else if ((65 <=? n) && (n <=? 70))%nat then Some (n - 55)%nat
  else None.

(** The character of a uXXXX escape, when it lies below 256. *)
Definition unicode_escape (h1 h2 h3 h4 : ascii) : option ascii :=
  match hex_value h1, hex_value h2, hex_value h3, hex_value h4 with
  | Some a, Some b, Some c, Some d =>
      if ((a =? 0) && (b =? 0))%nat then Some (ascii_of_nat (16 * c + d)) else None
  | _, _, _, _ => None
  end.

(** The character a backslash followed by [c] stands for: the quote, the
    backslash and the slash stand for themselves, and b, f, n, r, t for
    the control characters 8, 12, 10, 13, 9. *)
Definition simple_escape (c : ascii) : option ascii :=
  let n := nat_of_ascii c in
  if ((n =? 34) || (n =? 92) || (n =? 47))%nat then Some c
  else if (n =? 98)%nat then Some (ascii_of_nat 8)
  else if (n =? 102)%nat then Some (ascii_of_nat 12)
  else if (n =? 110)%nat then Some (ascii_of_nat 10)
  else if (n =? 114)%nat then Some (ascii_of_nat 13)
  else if (n =? 116)%nat then Some (ascii_of_nat 9)
  else None.

(** The string literal whose opening quote has just been read: its content
    and what follows the closing quote.  A raw control character (below
    0x20) is refused, as the decoder is strict. *)
Fixpoint scan_string (s : string) : option (string * string) :=
  match s with
  | EmptyString => None
  | String c r =>
      if Ascii.eqb c dquote then Some (EmptyString, r)
      else if Ascii.eqb c backslash then
        match r with
        | String "u" (String h1 (String h2 (String h3 (String h4 r')))) =>
            match unicode_escape h1 h2 h3 h4, scan_string r' with
            | Some c', Some (t, rest) => Some (String c' t, rest)
            | _, _ => None
            end
        | String e r' =>
            match simple_escape e, scan_string r' with
            | Some c', Some (t, rest) => Some (String c' t, rest)
            | _, _ => None
            end
        | EmptyString => None
        end
      else if (nat_of_ascii c <? 32)%nat then None
      else
        match scan_string r with
        | Some (t, rest) => Some (String c t, rest)
        | None => None
        end
  end.

(** A string literal at the head of [s]: [None] when [s] does not open
    with a quote, [Some None] when the literal is malformed. *)
Definition string_literal (s : string) : option (option (string * string)) :=
  match s with
  | String c r => if Ascii.eqb c dquote then Some (scan_string r) else None
  | EmptyString => None
  end.

Definition digit_cons (c : ascii) : option (Decimal.uint -> Decimal.uint) :=
  match c with
  | "0" => Some Decimal.D0 | "1" => Some Decimal.D1 | "2" => Some Decimal.D2
  | "3" => Some Decimal.D3 | "4" => Some Decimal.D4 | "5" => Some Decimal.D5
  | "6" => Some Decimal.D6 | "7" => Some Decimal.D7 | "8" => Some Decimal.D8
  | "9" => Some Decimal.D9
  | _ => None
  end%char.

(** The longest run of decimal digits at the head of [s], and the rest. *)
Fixpoint scan_digits (s : string) : Decimal.uint * string :=
  match s with
  | String c r =>
      match digit_cons c with
      | Some d => let '(ds, rest) := scan_digits r in (d ds, rest)
      | None => (Decimal.Nil, s)
      end
  | EmptyString => (Decimal.Nil, EmptyString)
  end.

(** Does a fraction or an exponent follow?  Then the literal is (at best)
    a floating-point number, which this model does not hold. *)
Definition float_follows (s : string) : bool :=
  match s with
  | String c _ => (Ascii.eqb c "." || Ascii.eqb c "e" || Ascii.eqb c "E")%bool
  | EmptyString => false
  end.

(** An integer literal, an optional minus sign followed by 0 or by a run
    of digits that does not start with 0: a leading zero is a number of
    its own.  The decoder converts the literal with [int], which refuses
    more digits than the limit. *)
Definition scan_number (s : string) : option (Z * string) :=
  let '(neg, t) :=
    match s with
    | String "-" r => (true, r)
    | _ => (false, s)
    end in
  let '(ds, rest) :=
    match t with
    | String "0" r => (Decimal.D0 Decimal.Nil, r)
    | _ => scan_digits t
    end in
  match ds with
  | Decimal.Nil => None
  | _ =>
      if float_follows rest then None
      else if (Decimal.nb_digits ds <=? max_str_digits)%nat
      then Some (if neg then - Z.of_uint ds else Z.of_uint ds, rest)
      else None
  end.

(** [s] without its first character, when that character is [c]. *)
Definition expect (c : ascii) (s : string) : option string :=
  match s with
  | String c' r => if Ascii.eqb c' c then Some r else None
  | EmptyString => None
  end.

(** [s] without the word [w], when [s] starts with it. *)
Fixpoint literal (w s : string) : option string :=
  match w with
  | EmptyString => Some s
  | String c w' =>
      match expect c s with
      | Some r => literal w' r
      | None => None
      end
  end.

(** The scanner: [parse_value] reads one value at the head of [s] (no space
    before it), [parse_elements] the elements of a non-empty array and
    [parse_members] the members of a non-empty object, up to and including
    the closing bracket.  [fuel] bounds the number of nested calls. *)
Fixpoint parse_value (fuel : nat) (s : string) : option (pyval * string) :=
  match fuel with
  | O => None
  | S fuel' =>
      match string_literal s, expect "{" s, expect "[" s with
      | Some (Some (t, rest)), _, _ => Some (PStr t, rest)
      | Some None, _, _ => None
      | None, Some r, _ =>
          let r' := skip_ws r in
          match expect "}" r' with
          | Some rest => Some (PDict [], rest)
          | None =>
              match parse_members fuel' r' with
              | Some (kvs, rest) => Some (PDict kvs, rest)
              | None => None
              end
          end
      | None, None, Some r =>
          let r' := skip_ws r in
          match expect "]" r' with
          | Some rest => Some (PList [], rest)
          | None =>
              match parse_elements fuel' r' with
              | Some (vs, rest) => Some (PList vs, rest)
              | None => None
              end
          end
      | None, None, None =>
          match literal "null" s, literal "true" s, literal "false" s with
          | Some rest, _, _ => Some (PNone, rest)
          | None, Some rest, _ => Some (PBool true, rest)
          | None, None, Some rest => Some (PBool false, rest)
          | None, None, None =>
              match scan_number s with
              | Some (n, rest) => Some (PInt n, rest)
              | None => None
              end
          end
      end
  end
with parse_elements (fuel : nat) (s : string) : option (list pyval * string) :=
  match fuel with
  | O => None
  | S fuel' =>
      match parse_value fuel' s with
      | None => None
      | Some (v, r) =>
          let r' := skip_ws r in
          match expect "]" r', expect "," r' with
          | Some rest, _ => Some ([v], rest)
          | None, Some r'' =>
              match parse_elements fuel' (skip_ws r'') with
              | Some (vs, rest) => Some (v :: vs, rest)
              | None => None
              end
          | None, None => None
          end
      end
  end
with parse_members (fuel : nat) (s : string)
  : option (list (string * pyval) * string) :=
  match fuel with
  | O => None
  | S fuel' =>
      match string_literal s with
      | Some (Some (k, r1)) =>
          match expect ":" (skip_ws r1) with
          | Some r2 =>
              match parse_value fuel' (skip_ws r2) with
              | None => None
              | Some (v, r3) =>
                  let r' := skip_ws r3 in
                  match expect "}" r', expect "," r' with
                  | Some rest, _ => Some ([(k, v)], rest)
                  | None, Some r4 =>
                      match parse_members fuel' (skip_ws r4) with
                      | Some (kvs, rest) => Some ((k, v) :: kvs, rest)
                      | None => None
                      end
                  | None, None => None
                  end
              end
          | None => None
          end
      | _ => None
      end
  end.

(** [json.loads(s)]: one value, with spaces allowed around it and nothing
    else after it.  Twice the length of the text (and two) is fuel enough
    for any text: more fuel gives the same result ([json_loads_fuel]). *)
Definition json_loads (s : string) : option pyval :=
  match parse_value (2 * String.length s + 2) (skip_ws s) with
  | Some (v, rest) =>
      match skip_ws rest with
      | EmptyString => Some v
      | _ => None
      end
  | None => None
  end.

(** ** What [json.load] refuses

    The values above hold only part of what Python's decoder reads: no
    number with a fraction or an exponent, no [NaN] and no [Infinity], no
    escape above 0xff.  The scanner below goes through a text as the
    decoder does and builds no value, but it knows all that the decoder
    accepts.  It tells a text that [json.load] refuses, and with which
    exception, from a text that only the values above cannot hold. *)

Inductive verdict : Type :=
| Accepted (rest : string)
| Refused (e : exn).

(** What follows the string literal whose opening quote has just been
    read.  Any four hexadecimal digits make an escape. *)
Fixpoint check_string (s : string) : option string :=
  match s with
  | EmptyString => None
  | String c r =>
      if Ascii.eqb c dquote then Some r
      else if Ascii.eqb c backslash then
        match r with
        | String "u" (String h1 (String h2 (String h3 (String h4 r')))) =>
            match hex_value h1, hex_value h2, hex_value h3, hex_value h4 with
            | Some _, Some _, Some _, Some _ => check_string r'
            | _, _, _, _ => None
            end
        | String e r' =>
            match simple_escape e with
            | Some _ => check_string r'
            | None => None
            end
        | EmptyString => None
        end
      else if (nat_of_ascii c <? 32)%nat then None
      else check_string r
  end.

(** What follows a run of at least one digit. *)
Definition check_digits (s : string) : option string :=
  match scan_digits s with
  | (Decimal.Nil, _) => None
  | (_, rest) => Some rest
  end.

(** What follows the fraction of a number, a point and digits, and what
    follows its exponent, the letter e, a sign or none, and digits. *)
Definition check_fraction (s : string) : option string :=
  match s with
  | String c r => if Ascii.eqb c "." then check_digits r else None
  | EmptyString => None
  end.

Definition check_exponent (s : string) : option string :=
  match s with
  | String c r =>
      if (Ascii.eqb c "e" || Ascii.eqb c "E")%bool then
        match r with
        | String c' r' =>
            if (Ascii.eqb c' "+" || Ascii.eqb c' "-")%bool then check_digits r'
            else check_digits r
        | EmptyString => None
        end
      else None
  | EmptyString => None
  end.

(** A number at the head of [s]: [None] when there is none.  A number with
    a fraction or an exponent is a [float], whatever its length; one
    without is converted by [int], which refuses more digits than the
    limit with a [ValueError]. *)
Definition check_number (s : string) : option verdict :=
  let '(neg, t) :=
    match s with
    | String "-" r => (true, r)
    | _ => (false, s)
    end in
  let '(ds, rest) :=
    match t with
    | String "0" r => (Decimal.D0 Decimal.Nil, r)
    | _ => scan_digits t
    end in
  match ds with
  | Decimal.Nil => None
  | _ =>
      let '(fraction, rest1) :=
        match check_fraction rest with
        | Some r => (true, r)
        | None => (false, rest)
        end in
      let '(exponent, rest2) :=
        match check_exponent rest1 with
        | Some r => (true, r)
        | None => (false, rest1)
        end in
      if (fraction || exponent)%bool then Some (Accepted rest2)
      else if (Decimal.nb_digits ds <=? max_str_digits)%nat
      then Some (Accepted rest2)
      else Some (Refused ValueError)
  end.

(** [s] without the first of [words] that it starts with. *)
Fixpoint any_literal (words : list string) (s : string) : option string :=
  match words with
  | [] => None
  | w :: words' =>
      match literal w s with
      | Some rest => Some rest
      | None => any_literal words' s
      end
  end.

Fixpoint check_value (fuel : nat) (s : string) : verdict :=
  match fuel with
  | O => Refused JSONDecodeError
  | S fuel' =>
      match expect dquote s, expect "{" s, expect "[" s with
      | Some r, _, _ =>
          match check_string r with
          | Some rest => Accepted rest
          | None => Refused JSONDecodeError
          end
      | None, Some r, _ =>
          let r' := skip_ws r in
          match expect "}" r' with
          | Some rest => Accepted rest
          | None => check_members fuel' r'
          end
      | None, None, Some r =>
          let r' := skip_ws r in
          match expect "]" r' with
          | Some rest => Accepted rest
          | None => check_elements fuel' r'
          end
      | None, None, None =>
          match any_literal ["null"; "true"; "false"; "NaN"; "Infinity";
                             "-Infinity"]%string s with
          | Some rest => Accepted rest
          | None =>
              match check_number s with
              | Some v => v
              | None => Refused JSONDecodeError
              end
          end
      end
  end
with check_elements (fuel : nat) (s : string) : verdict :=
  match fuel with
  | O => Refused JSONDecodeError
  | S fuel' =>
      match check_value fuel' s with
      | Refused e => Refused e
      | Accepted r =>
          let r' := skip_ws r in
          match expect "]" r', expect "," r' with
          | Some rest, _ => Accepted rest
          | None, Some r'' => check_elements fuel' (skip_ws r'')
          | None, None => Refused JSONDecodeError
          end
      end
  end
with check_members (fuel : nat) (s : string) : verdict :=
  match fuel with
  | O => Refused JSONDecodeError
  | S fuel' =>
      match expect dquote s with
      | Some r0 =>
          match check_string r0 with
          | Some r1 =>
              match expect ":" (skip_ws r1) with
              | Some r2 =>
                  match check_value fuel' (skip_ws r2) with
                  | Refused e => Refused e
                  | Accepted r3 =>
                      let r' := skip_ws r3 in
                      match expect "}" r', expect "," r' with
                      | Some rest, _ => Accepted rest
                      | None, Some r4 => check_members fuel' (skip_ws r4)
                      | None, None => Refused JSONDecodeError
                      end
                  end
              | None => Refused JSONDecodeError
              end
          | None => Refused JSONDecodeError
          end
      | None => Refused JSONDecodeError
      end
  end.

(** The verdict on a whole text: one value, spaces around it, and nothing
    after it. *)
Definition json_check (fuel : nat) (s : string) : verdict :=
  match check_value fuel (skip_ws s) with
  | Accepted rest =>
      match skip_ws rest with
      | EmptyString => Accepted EmptyString
      | _ => Refused JSONDecodeError
      end
  | Refused e => Refused e
  end.

(** The exception that [json.load] raises on a text it refuses: a
    [JSONDecodeError], or the [ValueError] of [int] when the first thing
    wrong is an integer with too many digits. *)
Definition json_error (s : string) : exn :=
  match json_check (2 * String.length s + 2) s with
  | Refused e => e
  | Accepted _ => JSONDecodeError
  end.

(** JSON text is written below with an apostrophe where the document has a
    double quote. *)
Fixpoint json_text (s : string) : string :=
  match s with
  | EmptyString => EmptyString
  | String c s' => String (if Ascii.eqb c "'" then dquote else c) (json_text s')
  end.

(** ** Operations on Python values *)

(** The value of [key] in the members of an object; of two members with the
    same key the later one counts, as in the [dict] that [json.load]
    builds. *)
Fixpoint dict_lookup (key : string) (d : list (string * pyval)) : option pyval :=
  match d with
  | [] => None
  | (k, v) :: d' =>
      match dict_lookup key d' with
      | Some v' => Some v'
      | None => if String.eqb k key then Some v else None
      end
  end.

(** [v.get(key, default)]: only a [dict] has a [get] method. *)
Definition py_get (v : pyval) (key : string) (default : pyval) : result pyval :=
  match v with
  | PDict d =>
      match dict_lookup key d with
      | Some x => Ok x
      | None => Ok default
      end
  | _ => Raise AttributeError
  end.

(** The keys of a [dict], each once, in the order of first appearance. *)
Fixpoint dict_keys (d : list (string * pyval)) (seen : list string) : list string :=
  match d with
  | [] => []
  | (k, _) :: d' =>
      if existsb (String.eqb k) seen then dict_keys d' seen
      else k :: dict_keys d' (k :: seen)
  end.

Fixpoint chars (s : string) : list pyval :=
  match s with
  | EmptyString => []
  | String c s' => PStr (String c EmptyString) :: chars s'
  end.

(** What [for x in v] goes through: the items of a list, the keys of a
    [dict], the characters of a string; the other values are not
    iterable. *)
Definition py_iter (v : pyval) : result (list pyval) :=
  match v with
  | PList l => Ok l
  | PDict d => Ok (map PStr (dict_keys d []))
  | PStr s => Ok (chars s)
  | PNone | PBool _ | PInt _ => Raise TypeError
  end.

(** [v == s] for a string literal [s]. *)
Definition py_eq_str (v : pyval) (s : string) : bool :=
  match v with
  | PStr t => String.eqb t s
  | _ => false
  end.

(** [a + v] for an integer [a]: [v] must be a number, and [True] counts
    for 1. *)
Definition py_int_add (a : Z) (v : pyval) : result Z :=
  match v with
  | PInt n => Ok (a + n)
  | PBool b => Ok (a + (if b then 1 else 0))
  | PNone | PStr _ | PList _ | PDict _ => Raise TypeError
  end.

(** [v + a] for an integer [a]. *)
Definition py_add_int (v : pyval) (a : Z) : result Z :=
  match v with
  | PInt n => Ok (n + a)
  | PBool b => Ok ((if b then 1 else 0) + a)
  | PNone | PStr _ | PList _ | PDict _ => Raise TypeError
  end.

(** A loop [for x in items: acc = body acc x] that stops at the first
    exception. *)
Fixpoint for_each {A : Type} (body : A -> pyval -> result A)
    (items : list pyval) (acc : A) : result A :=
  match items with
  | [] => Ok acc
  | x :: rest => rbind (body acc x) (for_each body rest)
  end.

(** ** The files and the trace of a run *)

Inductive file : Type :=
| Text (content : string)  (* a text file and what it holds *)
| Undecodable              (* its bytes are not text: reading raises UnicodeDecodeError *)
| Unreadable.              (* a directory, a file that may not be opened: open raises OSError *)

Inductive tool : Type := Semgrep | NpmAudit | ZAP.

Inductive event : Type :=
| Opened (path : string)                          (* open(path, 'r') was called *)
| Warning_file_not_found (path : string)          (* line 20 *)
| Warning_invalid_content (path : string) (e : exn) (* line 23 *)
| Warning_error_reading (path : string) (e : exn) (* line 26 *)
| Could_not_parse (t : tool) (e : exn)            (* lines 42, 60, 96 *)
| Fatal_error (e : exn).                          (* line 282, on standard error *)

Record state : Type := State {
  files : gmap string file;
  trace : list event
}.

(** A computation that reads and changes the state and may raise. *)
Definition M (A : Type) : Type := state -> result A * state.

Definition ret {A : Type} (a : A) : M A := fun st => (Ok a, st).

Definition bind {A B : Type} (m : M A) (k : A -> M B) : M B :=
  fun st =>
    match m st with
    | (Ok a, st') => k a st'
    | (Raise e, st') => (Raise e, st')
    end.

Notation "'let*' x ':=' m 'in' k" := (bind m (fun x => k))
  (at level 10, x name, m at level 100, k at level 200).

Definition lift {A : Type} (r : result A) : M A := fun st => (r, st).

Definition log (e : event) : M unit :=
  fun st => (Ok tt, {| files := files st; trace := trace st ++ [e] |}).

(** [try: body / except Exception as e: handler e]. *)
Definition try_except {A : Type} (body : M A) (handler : exn -> M A) : M A :=
  fun st =>
    match body st with
    | (Ok a, st') => (Ok a, st')
    | (Raise e, st') => handler e st'
    end.

(** [os.path.exists(path)]. *)
Definition path_exists (path : string) : M bool :=
  fun st =>
    (Ok (match files st !! path with Some _ => true | None => false end), st).

(** What opening and reading a path gives, by what is found there. *)
Definition open_read (f : option file) : result string :=
  match f with
  | None => Raise FileNotFoundError
  | Some Unreadable => Raise OSError
  | Some Undecodable => Raise UnicodeDecodeError
  | Some (Text content) => Ok content
  end.

(** [with open(path, 'r') as f: f.read()]. *)
Definition read_text (path : string) : M string :=
  let* _ := log (Opened path) in
  fun st => (open_read (files st !! path), st).

(** [json.loads(content)], with its exception. *)
Definition json_decode (content : string) : result pyval :=
  match json_loads content with
  | Some v => Ok v
  | None => Raise (json_error content)
  end.

(** [with open(path, 'r') as f: json.load(f)]. *)
Definition json_load (path : string) : M pyval :=
  let* content := read_text path in
  lift (json_decode content).

(** [with open(path, 'w') as f: f.write(content)]: the file is created or
    overwritten, unless the path cannot be opened. *)
Definition write_text (path content : string) : M unit :=
  fun st =>
    match files st !! path with
    | Some Unreadable => (Raise OSError, st)
    | _ => (Ok tt, {| files := <[path := Text content]> (files st);
                      trace := trace st |})
    end.

(** ** The script *)

(** Line 18: [int(content) if content else default], [content] being the
    stripped text of the file. *)
Definition count_of (content : string) (default : Z) : result Z :=
  match content with
  | EmptyString => Ok default
  | _ => int_of_str content
  end.

(** [read_count(filepath, default=0)], lines 13-27. *)
Definition read_count (filepath : string) (default : Z) : M Z :=
  try_except
    (let* content := read_text filepath in
     let content := py_strip content in
     lift (count_of content default))
    (fun e =>
       match e with
       | FileNotFoundError =>
           let* _ := log (Warning_file_not_found filepath) in ret default
       | _ =>
           if is_ValueError e
           then let* _ := log (Warning_invalid_content filepath e) in ret default
           else let* _ := log (Warning_error_reading filepath e) in ret default
       end).

(** The four severity buckets. *)
Record counts (A : Type) : Type := Counts {
  critical : A;
  high : A;
  medium : A;
  low : A
}.
Arguments Counts {A} _ _ _ _.
Arguments critical {A} _.
Arguments high {A} _.
Arguments medium {A} _.
Arguments low {A} _.

Definition zero_counts : counts Z := Counts 0 0 0 0.

(** [r.get('extra', {}).get('severity') == sev]. *)
Definition severity_is (sev : string) (r : pyval) : result bool :=
  rbind (py_get r "extra" (PDict [])) (fun extra =>
  rbind (py_get extra "severity" PNone) (fun s =>
  Ok (py_eq_str s sev))).

(** [sum(1 for r in items if cond r)]. *)
Fixpoint count_if (cond : pyval -> result bool) (items : list pyval) : result Z :=
  match items with
  | [] => Ok 0
  | r :: rest =>
      rbind (cond r) (fun b =>
      rbind (count_if cond rest) (fun n =>
      Ok ((if b then 1 else 0) + n)))
  end.

(** Lines 35-40: what [parse_semgrep_results] makes of the document, the
    pair of ['critical'] and ['high']. *)
Definition semgrep_counts (data : pyval) : result (Z * Z) :=
  rbind (py_get data "results" (PList [])) (fun results =>
  rbind (rbind (py_iter results) (count_if (severity_is "ERROR"))) (fun critical =>
  rbind (rbind (py_iter results) (count_if (severity_is "WARNING"))) (fun high =>
  Ok (critical, high)))).

(** [parse_semgrep_results(filepath)], lines 30-43. *)
Definition parse_semgrep_results (filepath : string) : M (Z * Z) :=
  try_except
    (let* data := json_load filepath in
     lift (semgrep_counts data))
    (fun e => let* _ := log (Could_not_parse Semgrep e) in ret (0, 0)).

(** Lines 51-58: what [parse_npm_audit_results] makes of the document. *)
Definition npm_counts (data : pyval) : result (counts pyval) :=
  rbind (py_get data "metadata" (PDict [])) (fun m =>
  rbind (py_get m "vulnerabilities" (PDict [])) (fun metadata =>
  rbind (py_get metadata "critical" (PInt 0)) (fun c =>
  rbind (py_get metadata "high" (PInt 0)) (fun h =>
  rbind (py_get metadata "moderate" (PInt 0)) (fun md =>
  rbind (py_get metadata "low" (PInt 0)) (fun l =>
  Ok (Counts c h md l))))))).

(** [parse_npm_audit_results(filepath)], lines 46-61. *)
Definition parse_npm_audit_results (filepath : string) : M (counts pyval) :=
  try_except
    (let* data := json_load filepath in
     lift (npm_counts data))
    (fun e =>
       let* _ := log (Could_not_parse NpmAudit e) in
       ret (Counts (PInt 0) (PInt 0) (PInt 0) (PInt 0))).

(** The body of the inner loop of [parse_zap_results], lines 79-87. *)
Definition zap_alert (acc : counts Z) (alert : pyval) : result (counts Z) :=
  rbind (py_get alert "riskcode" (PInt 0)) (fun rc =>
  rbind (py_int rc) (fun risk_code =>
  Ok (if risk_code =? 3 then
        Counts (critical acc + 1) (high acc) (medium acc) (low acc)
      else if risk_code =? 2 then
        Counts (critical acc) (high acc + 1) (medium acc) (low acc)
      else if risk_code =? 1 then
        Counts (critical acc) (high acc) (medium acc + 1) (low acc)
      else if risk_code =? 0 then
        Counts (critical acc) (high acc) (medium acc) (low acc + 1)
      else acc))).

(** The body of the outer loop, lines 77-87. *)
Definition zap_site (acc : counts Z) (site : pyval) : result (counts Z) :=
  rbind (py_get site "alerts" (PList [])) (fun alerts =>
  rbind (py_iter alerts) (fun items =>
  for_each zap_alert items acc)).

(** Lines 69-94: what [parse_zap_results] makes of the document. *)
Definition zap_counts (data : pyval) : result (counts Z) :=
  rbind (py_get data "site" (PList [])) (fun sites =>
  rbind (py_iter sites) (fun items =>
  for_each zap_site items zero_counts)).

(** [parse_zap_results(filepath)], lines 64-97. *)
Definition parse_zap_results (filepath : string) : M (counts Z) :=
  try_except
    (let* data := json_load filepath in
     lift (zap_counts data))
    (fun e => let* _ := log (Could_not_parse ZAP e) in ret zero_counts).

(** The counters of [main], lines 108-117, as they stand after line 153.
    The SCA counters hold what the npm audit report holds, unconverted. *)
Record findings : Type := Findings {
  sast_critical : Z;
  sast_high : Z;
  sca_critical : pyval;
  sca_high : pyval;
  sca_medium : pyval;
  sca_low : pyval;
  dast_critical : Z;
  dast_high : Z;
  dast_medium : Z;
  dast_low : Z
}.

(** Lines 121-122: the SAST counts from the count files. *)
Definition sast_count_files : M (Z * Z) :=
  let* c := read_count "sast-results/sast-critical.txt" 0 in
  let* h := read_count "sast-results/sast-high.txt" 0 in
  ret (c, h).

(** Lines 120-127. *)
Definition collect_sast : M (Z * Z) :=
  let* txt := path_exists "sast-results/sast-critical.txt" in
  if txt then sast_count_files
  else
    let* json := path_exists "sast-results/semgrep-results.json" in
    if json then parse_semgrep_results "sast-results/semgrep-results.json"
    else ret (0, 0).

(** Lines 130-133: the SCA counts from the count files. *)
Definition sca_count_files : M (counts pyval) :=
  let* c := read_count "sca-results/sca-critical.txt" 0 in
  let* h := read_count "sca-results/sca-high.txt" 0 in
  let* m := read_count "sca-results/sca-medium.txt" 0 in
  let* l := read_count "sca-results/sca-low.txt" 0 in
  ret (Counts (PInt c) (PInt h) (PInt m) (PInt l)).

(** Lines 129-140. *)
Definition collect_sca : M (counts pyval) :=
  let* txt := path_exists "sca-results/sca-critical.txt" in
  if txt then sca_count_files
  else
    let* json := path_exists "sca-results/npm-audit-results.json" in
    if json then parse_npm_audit_results "sca-results/npm-audit-results.json"
    else ret (Counts (PInt 0) (PInt 0) (PInt 0) (PInt 0)).

(** Lines 143-146: the DAST counts from the count files. *)
Definition dast_count_files : M (counts Z) :=
  let* c := read_count "dast-results/dast-critical.txt" 0 in
  let* h := read_count "dast-results/dast-high.txt" 0 in
  let* m := read_count "dast-results/dast-medium.txt" 0 in
  let* l := read_count "dast-results/dast-low.txt" 0 in
  ret (Counts c h m l).

(** Lines 142-153. *)
Definition collect_dast : M (counts Z) :=
  let* txt := path_exists "dast-results/dast-critical.txt" in
  if txt then dast_count_files
  else
    let* json := path_exists "dast-results/zap-report.json" in
    if json then parse_zap_results "dast-results/zap-report.json"
    else ret zero_counts.

(** Lines 108-153: the three categories, in the order SAST, SCA, DAST. *)
Definition collect : M findings :=
  let* sast := collect_sast in
  let* sca := collect_sca in
  let* dast := collect_dast in
  ret {| sast_critical := fst sast; sast_high := snd sast;
         sca_critical := critical sca; sca_high := high sca;
         sca_medium := medium sca; sca_low := low sca;
         dast_critical := critical dast; dast_high := high dast;
         dast_medium := medium dast; dast_low := low dast |}.

(** Lines 156-159: the totals by severity. *)
Definition totals_of (f : findings) : result (counts Z) :=
  rbind (py_int_add (sast_critical f) (sca_critical f)) (fun c =>
  let total_critical := c + dast_critical f in
  rbind (py_int_add (sast_high f) (sca_high f)) (fun h =>
  let total_high := h + dast_high f in
  rbind (py_add_int (sca_medium f) (dast_medium f)) (fun total_medium =>
  rbind (py_add_int (sca_low f) (dast_low f)) (fun total_low =>
  Ok (Counts total_critical total_high total_medium total_low))))).

(** Lines 175-180. *)
Definition thresholds : counts Z := Counts 0 0 0 0.

(** The text of one failure, lines 194, 197, 200 and 203.  In [main] the
    tables have formatted the totals before these lines are reached, so
    the conversion of a total cannot raise here. *)
Definition failure_message (name : string) (total threshold : Z) : string :=
  name +:+ " vulnerabilities: " +:+ str_of_int total +:+
  " exceeds threshold of " +:+ str_of_int threshold.

(** Lines 191-203. *)
Definition check_thresholds (t : counts Z) : list string :=
  let failures := [] in
  let failures :=
    if critical t >? critical thresholds
    then failures ++ [failure_message "Critical" (critical t) (critical thresholds)]
    else failures in
  let failures :=
    if high t >? high thresholds
    then failures ++ [failure_message "High" (high t) (high thresholds)]
    else failures in
  let failures :=
    if medium t >? medium thresholds
    then failures ++ [failure_message "Medium" (medium t) (medium thresholds)]
    else failures in
  let failures :=
    if low t >? low thresholds
    then failures ++ [failure_message "Low" (low t) (low thresholds)]
    else failures in
  failures.

(** Lines 206-233: the summary, a [dict]. *)
Definition make_summary (f : findings) (t : counts Z) (failures : list string)
  : pyval :=
  PDict [
    ("total_critical", PInt (critical t));
    ("total_high", PInt (high t));
    ("total_medium", PInt (medium t));
    ("total_low", PInt (low t));
    ("total", PInt (critical t + high t + medium t + low t));
    ("sast", PDict [
       ("critical", PInt (sast_critical f));
       ("high", PInt (sast_high f));
       ("medium", PInt 0);
       ("low", PInt 0)]);
    ("sca", PDict [
       ("critical", sca_critical f);
       ("high", sca_high f);
       ("medium", sca_medium f);
       ("low", sca_low f)]);
    ("dast", PDict [
       ("critical", PInt (dast_critical f));
       ("high", PInt (dast_high f));
       ("medium", PInt (dast_medium f));
       ("low", PInt (dast_low f))]);
    ("thresholds", PDict [
       ("critical", PInt (critical thresholds));
       ("high", PInt (high thresholds));
       ("medium", PInt (medium thresholds));
       ("low", PInt (low thresholds))]);
    ("passed", PBool (length failures =? 0)%nat);
    ("failures", PList (map PStr failures))
  ].

Definition output_file : string := "quality-gate-summary.json".

(** ** The two tables of the report

    A line of standard output is held as the bytes of its UTF-8 encoding.
    The strings of a JSON document are held as code points, which [utf8]
    encodes. *)

(** A byte that continues a character (0x80-0xbf). *)
Definition is_continuation (c : ascii) : bool :=
  let n := nat_of_ascii c in ((128 <=? n) && (n <? 192))%nat.

(** [len(s)] for a line: the number of its characters. *)
Fixpoint py_len (s : string) : nat :=
  match s with
  | EmptyString => O
  | String c s' => if is_continuation c then py_len s' else S (py_len s')
  end.

Fixpoint utf8 (s : string) : string :=
  match s with
  | EmptyString => EmptyString
  | String c s' =>
      let n := nat_of_ascii c in
      if (n <? 128)%nat then String c (utf8 s')
      else String (ascii_of_nat (192 + n / 64))
             (String (ascii_of_nat (128 + n mod 64)) (utf8 s'))
  end.

(** The format specifications [<width] and [>width]: the text is padded
    with spaces to [width] characters, and never cut. *)
Definition ljust (width : nat) (s : string) : string :=
  s +:+ spaces (width - py_len s).

Definition rjust (width : nat) (s : string) : string :=
  spaces (width - py_len s) +:+ s.

(** [format(n, '>width')] for an integer: its digits, when they are no
    more than the limit. *)
Definition format_int (width : nat) (n : Z) : result string :=
  rbind (py_str n) (fun digits => Ok (rjust width digits)).

(** [format(v, '>width')] for a Python value: a [bool] is written as the
    integer it is; [None], a list and a [dict] do not take a format
    specification. *)
Definition py_format (width : nat) (v : pyval) : result string :=
  match v with
  | PInt n => format_int width n
  | PBool b => Ok (rjust width (if b then "1" else "0"))
  | PStr s => Ok (rjust width (utf8 s))
  | PNone | PList _ | PDict _ => Raise TypeError
  end.

(** [s * n]. *)
Fixpoint py_mul (s : string) (n : nat) : string :=
  match n with
  | O => EmptyString
  | S n' => s +:+ py_mul s n'
  end.

(** One row of the first table, lines 166-169, its fields formatted from
    left to right; the SAST cell of the rows for medium and low holds a
    dash. *)
Definition breakdown_row (label : string) (total : Z) (sast : option Z)
    (sca : pyval) (dast : Z) : result string :=
  rbind (format_int 8 total) (fun total_cell =>
  rbind (match sast with
         | Some n => format_int 8 n
         | None => Ok (rjust 8 "-")
         end) (fun sast_cell =>
  rbind (py_format 8 sca) (fun sca_cell =>
  rbind (format_int 8 dast) (fun dast_cell =>
  Ok (ljust 25 label +:+ " " +:+ total_cell +:+ " " +:+ sast_cell +:+ " " +:+
      sca_cell +:+ " " +:+ dast_cell))))).

(** Lines 162-172: the lines of the first table (those printed before an
    exception are not kept). *)
Definition breakdown (f : findings) (t : counts Z) : result (list string) :=
  rbind (breakdown_row "Critical (CVSS ≥9.0)" (critical t)
           (Some (sast_critical f)) (sca_critical f) (dast_critical f)) (fun r1 =>
  rbind (breakdown_row "High (CVSS 7.0-8.9)" (high t)
           (Some (sast_high f)) (sca_high f) (dast_high f)) (fun r2 =>
  rbind (breakdown_row "Medium (CVSS 4.0-6.9)" (medium t)
           None (sca_medium f) (dast_medium f)) (fun r3 =>
  rbind (breakdown_row "Low (CVSS <4.0)" (low t)
           None (sca_low f) (dast_low f)) (fun r4 =>
  rbind (format_int 8 (critical t + high t + medium t + low t)) (fun total_cell =>
  Ok [ "📊 VULNERABILITY SUMMARY BY SEVERITY (CVSS)";
       py_mul "-" 80;
       ljust 25 "Severity" +:+ " " +:+ rjust 8 "Total" +:+ " " +:+ rjust 8 "SAST"
         +:+ " " +:+ rjust 8 "SCA" +:+ " " +:+ rjust 8 "DAST";
       py_mul "-" 80;
       r1; r2; r3; r4;
       py_mul "-" 80;
       ljust 25 "TOTAL VULNERABILITIES" +:+ " " +:+ total_cell;
       EmptyString ]))))).

(** One row of the second table, lines 184-187. *)
Definition threshold_row (label : string) (total threshold : Z) : result string :=
  rbind (format_int 3 total) (fun total_cell =>
  rbind (format_int 3 threshold) (fun threshold_cell =>
  Ok (label +:+ total_cell +:+ " / " +:+ threshold_cell +:+ " allowed  " +:+
      (if total <=? threshold then "✅ PASS" else "❌ FAIL")))).

Definition threshold_rows (t : counts Z) : result (list string) :=
  rbind (threshold_row "Critical:  " (critical t) (critical thresholds)) (fun r1 =>
  rbind (threshold_row "High:      " (high t) (high thresholds)) (fun r2 =>
  rbind (threshold_row "Medium:    " (medium t) (medium thresholds)) (fun r3 =>
  rbind (threshold_row "Low:       " (low t) (low thresholds)) (fun r4 =>
  Ok [r1; r2; r3; r4])))).

(** Lines 182-188. *)
Definition threshold_table (t : counts Z) : result (list string) :=
  rbind (threshold_rows t) (fun rows =>
  Ok ([ "🎯 QUALITY GATE THRESHOLDS (STRICT - PRODUCTION READY)"; py_mul "-" 80 ]
      ++ rows ++ [ EmptyString ])).

(** Lines 161-188: the two tables, one after the other. *)
Definition tables (f : findings) (t : counts Z) : result (list string) :=
  rbind (breakdown f t) (fun first =>
  rbind (threshold_table t) (fun second =>
  Ok (first ++ second))).

(** [main()], lines 100-274: the value it returns.  The lines of the two
    tables are not kept, but formatting them can raise.  The failures and
    the summary hold no integer that the tables have not formatted. *)
Definition main : M Z :=
  let* f := collect in
  let* t := lift (totals_of f) in
  let* _ := lift (tables f t) in
  let failures := check_thresholds t in
  let summary := make_summary f t failures in
  let* _ := write_text output_file (json_dumps 0 summary) in
  match failures with
  | _ :: _ => ret 1
  | [] => ret 0
  end.

(** Lines 277-285: the exit status of the process.  [sys.exit] leaves with
    the value of [main]; any exception is reported and the status is 1. *)
Definition script (st : state) : Z * state :=
  match main st with
  | (Ok exit_code, st') => (exit_code, st')
  | (Raise e, st') => (1, snd (log (Fatal_error e) st'))
  end.

(** A run of the script in a directory holding [fs]. *)
Definition run (fs : gmap string file) : Z * state :=
  script {| files := fs; trace := [] |}.

(** ** Notions used to state the properties *)

(** What [json.load] gives for the file at [path] in the directory [fs]. *)
Definition load (fs : gmap string file) (path : string) : result pyval :=
  rbind (open_read (fs !! path)) json_decode.

(** [json.load] refuses the text: no fuel makes the scanner accept it. *)
Definition refused (content : string) : Prop :=
  forall fuel, exists e, json_check fuel content = Refused e.

(** The ways in which loading the report at [path] fails, each with its
    exception: there is no file, the file cannot be opened, its bytes are
    no text, or [json.load] refuses its text. *)
Inductive load_fails (fs : gmap string file) (path : string) : exn -> Prop :=
| report_missing :
    fs !! path = None -> load_fails fs path FileNotFoundError
| report_unreadable :
    fs !! path = Some Unreadable -> load_fails fs path OSError
| report_undecodable :
    fs !! path = Some Undecodable -> load_fails fs path UnicodeDecodeError
| report_refused content :
    fs !! path = Some (Text content) -> refused content ->
    load_fails fs path (json_error content).

(** The ways in which the parser of a report fails: the report cannot be
    loaded, or it is loaded and counting raises on the document. *)
Inductive parser_fails {A : Type} (counts_of : pyval -> result A)
    (fs : gmap string file) (path : string) : exn -> Prop :=
| fails_loading e :
    load_fails fs path e -> parser_fails counts_of fs path e
| fails_counting content doc e :
    fs !! path = Some (Text content) -> json_loads content = Some doc ->
    counts_of doc = Raise e ->
    parser_fails counts_of fs path e.

(** The three reports. *)
Definition report_paths : list string := [
  "sast-results/semgrep-results.json";
  "sca-results/npm-audit-results.json";
  "dast-results/zap-report.json" ]%string.

(** The reports of the directory are within what the values of this model
    hold: each report that is a text is either refused by [json.load] or
    read by [json_loads]. *)
Definition as_modelled (fs : gmap string file) : Prop :=
  forall path content,
    In path report_paths -> fs !! path = Some (Text content) ->
    refused content \/ is_Some (json_loads content).

(** A value whose integers have no more digits than the limit. *)
Fixpoint bounded (v : pyval) : bool :=
  match v with
  | PInt n => fits n
  | PList l => forallb bounded l
  | PDict d => forallb (fun kv => bounded (snd kv)) d
  | _ => true
  end.

(** Can an integer literal end before [rest]?  It can when [rest] starts
    with neither a digit nor a fraction or an exponent. *)
Definition ends_number (rest : string) : bool :=
  match rest with
  | EmptyString => true
  | String c _ =>
      match digit_cons c with
      | Some _ => false
      | None => negb (float_follows rest)
      end
  end.

(** What [json_dumps] writes after the first element of an array, and
    after the first member of an object. *)
Definition dump_items (level : nat) : list pyval -> string :=
  fix items (l : list pyval) : string :=
    match l with
    | [] => newline_indent level +:+ "]"
    | y :: l' =>
        "," +:+ newline_indent (S level) +:+ json_dumps (S level) y +:+ items l'
    end.

Definition dump_members (level : nat) : list (string * pyval) -> string :=
  fix members (l : list (string * pyval)) : string :=
    match l with
    | [] => newline_indent level +:+ "}"
    | (k', y) :: l' =>
        "," +:+ newline_indent (S level) +:+ quote k' +:+ ": " +:+
        json_dumps (S level) y +:+ members l'
    end.

(** The number of nested calls that reading a value back takes at most. *)
Fixpoint weight (v : pyval) : nat :=
  match v with
  | PList l =>
      S ((fix weights (l : list pyval) : nat :=
            match l with
            | [] => O
            | x :: l' => S (weight x + weights l')
            end) l)
  | PDict d =>
      S ((fix weights (d : list (string * pyval)) : nat :=
            match d with
            | [] => O
            | (_, x) :: d' => S (weight x + weights d')
            end) d)
  | _ => 1%nat
  end.

Definition weights (l : list pyval) : nat :=
  fold_right (fun x n => S (weight x + n)) O l.

Definition member_weights (d : list (string * pyval)) : nat :=
  fold_right (fun kv n => S (weight (snd kv) + n)) O d.

(** The first character of what [json_dumps] writes: no space and no
    closing bracket. *)
Definition opens_value (c : ascii) : Prop :=
  json_isspace c = false /\ Ascii.eqb c "]" = false /\ Ascii.eqb c "}" = false.

(** [parse_value] reads back what [json_dumps] wrote for [v], at any
    level, with fuel for the nesting and when the last number can end
    before [rest]. *)
Definition reads_back (v : pyval) : Prop :=
  forall level fuel rest,
    (weight v <= fuel)%nat -> ends_number rest = true ->
    parse_value fuel (json_dumps level v +:+ rest) = Some (v, rest).

(** What a run computes before it writes the summary: the counters after
    line 153 and the totals of lines 156-159. *)
Definition computed (st : state) : option (findings * counts Z) :=
  match collect st with
  | (Ok f, _) =>
      match totals_of f with
      | Ok t => Some (f, t)
      | Raise _ => None
      end
  | (Raise _, _) => None
  end.

(** The totals of a run that has printed its two tables. *)
Definition formatted_totals (f : findings) : result (counts Z) :=
  rbind (totals_of f) (fun t => rbind (tables f t) (fun _ => Ok t)).

(** The summary that the run holds in memory at line 233. *)
Definition summary_of (st : state) : option pyval :=
  match computed st with
  | Some (f, t) => Some (make_summary f t (check_thresholds t))
  | None => None
  end.

(** [v[k1][k2]...], when every step finds a [dict] with that key. *)
Fixpoint field (keys : list string) (v : pyval) : option pyval :=
  match keys with
  | [] => Some v
  | k :: keys' =>
      match v with
      | PDict d =>
          match dict_lookup k d with
          | Some x => field keys' x
          | None => None
          end
      | _ => None
      end
  end.

(** The integer a Python number stands for in a sum. *)
Definition int_value (v : pyval) : option Z :=
  match v with
  | PInt n => Some n
  | PBool b => Some (if b then 1 else 0)
  | _ => None
  end.

(** The count of a category and the total of a severity in a summary, as
    integers. *)
Definition count_at (summary : pyval) (category severity : string) : option Z :=
  match field [category; severity] summary with
  | Some v => int_value v
  | None => None
  end.

Definition total_at (summary : pyval) (severity : string) : option Z :=
  match field ["total_" +:+ severity] summary with
  | Some v => int_value v
  | None => None
  end.

(** In [summary], the total of [severity] is the sum of the counts of the
    three categories. *)
Definition sums_up (summary : pyval) (severity : string) : Prop :=
  exists a b c,
    count_at summary "sast" severity = Some a
    /\ count_at summary "sca" severity = Some b
    /\ count_at summary "dast" severity = Some c
    /\ total_at summary severity = Some (a + b + c).

(** The risk code that the [riskcode] field of an alert stands for: the
    field is an integer, a string that [int] reads as one, or a [bool],
    which [int] takes for 1 or 0. *)
Inductive riskcode_of : pyval -> Z -> Prop :=
| riskcode_numeric n : riskcode_of (PInt n) n
| riskcode_stringified s n : int_of_str s = Ok n -> riskcode_of (PStr s) n
| riskcode_boolean b : riskcode_of (PBool b) (if b then 1 else 0).

(** An alert with the risk code [code], a site whose alerts have the risk
    codes [codes], and a ZAP report whose sites have the risk codes
    [codes]. *)
Definition alert_with (code : Z) (alert : pyval) : Prop :=
  exists d v,
    alert = PDict d /\ dict_lookup "riskcode" d = Some v /\ riskcode_of v code.

Definition site_with (codes : list Z) (site : pyval) : Prop :=
  exists d alerts,
    site = PDict d /\ dict_lookup "alerts" d = Some (PList alerts)
    /\ Forall2 alert_with codes alerts.

Definition zap_document (codes : list (list Z)) (doc : pyval) : Prop :=
  exists d sites,
    doc = PDict d /\ dict_lookup "site" d = Some (PList sites)
    /\ Forall2 site_with codes sites.

(** How often the risk code [k] occurs in [codes]. *)
Definition occurrences (k : Z) (codes : list Z) : Z :=
  Z.of_nat (length (List.filter (Z.eqb k) codes)).

(** The counts that the risk codes [codes] stand for: 3 is critical, 2 is
    high, 1 is medium, 0 is low, and any other code counts nowhere. *)
Definition tally (codes : list Z) : counts Z :=
  Counts (occurrences 3 codes) (occurrences 2 codes)
         (occurrences 1 codes) (occurrences 0 codes).

Definition add_counts (a b : counts Z) : counts Z :=
  Counts (critical a + critical b) (high a + high b)
         (medium a + medium b) (low a + low b).

Definition non_negative (c : counts Z) : Prop :=
  0 <= critical c /\ 0 <= high c /\ 0 <= medium c /\ 0 <= low c.

(** One more low finding. *)
Definition one_low : counts Z := Counts 0 0 0 1.

(** The three ways a run can end: [main] returns and no threshold was
    exceeded, [main] returns and some threshold was exceeded, [main]
    raises. *)
Definition gate_passed (st : state) : Prop :=
  exists f t code st',
    computed st = Some (f, t) /\ check_thresholds t = []
    /\ main st = (Ok code, st').

Definition gate_failed (st : state) : Prop :=
  exists f t code st',
    computed st = Some (f, t) /\ check_thresholds t <> []
    /\ main st = (Ok code, st').

Definition fatal_error (st : state) : Prop :=
  exists e st', main st = (Raise e, st').

(** The summary file that a run leaves, parsed. *)
Definition written_summary (st : state) : option pyval :=
  match files st !! output_file with
  | Some (Text text) => json_loads text
  | _ => None
  end.

(** The four buckets in the order of lines 193-203, each with its name,
    its total and its threshold. *)
Definition buckets (t : counts Z) : list (string * Z * Z) :=
  [ ("Critical"%string, critical t, critical thresholds);
    ("High"%string, high t, high thresholds);
    ("Medium"%string, medium t, medium thresholds);
    ("Low"%string, low t, low thresholds) ].

Definition exceeds (b : string * Z * Z) : bool :=
  let '(_, total, threshold) := b in total >? threshold.

(** A computation that always returns, leaves the files as they are and
    adds to the trace only events for which [P] holds. *)
Definition runs {A : Type} (P : event -> Prop) (m : M A) : Prop :=
  forall fs tr, exists a evs,
    m (State fs tr) = (Ok a, State fs (tr ++ evs)) /\ Forall P evs.

(** The result and the trace of [m] do not depend on what is found at
    [path]: they are the same in two directories that differ at most
    there. *)
Definition ignores {A : Type} (path : string) (m : M A) : Prop :=
  forall (fs fs' : gmap string file) tr,
    (forall p, p <> path -> fs !! p = fs' !! p) ->
    fst (m (State fs tr)) = fst (m (State fs' tr))
    /\ trace (snd (m (State fs tr))) = trace (snd (m (State fs' tr))).

(** How a category finds its counts: when the file [txt] exists they come
    from the count files ([from_txt]), and the report [json] is neither
    opened nor looked at; when [txt] does not exist and [json] does, the
    report is parsed ([from_json]); when neither exists the counts are
    [zero] and nothing is opened. *)
Definition resolves {A : Type} (category : M A) (txt json : string)
    (from_txt from_json : M A) (zero : A) : Prop :=
  (forall fs tr, is_Some (fs !! txt) ->
     category (State fs tr) = from_txt (State fs tr))
  /\ runs (fun e => e <> Opened json) from_txt
  /\ ignores json from_txt
  /\ (forall fs tr, fs !! txt = None -> is_Some (fs !! json) ->
       category (State fs tr) = from_json (State fs tr))
  /\ (forall fs tr, fs !! txt = None -> fs !! json = None ->
       category (State fs tr) = (Ok zero, State fs tr)).

(** [m] recovers from an error at [path]: it returns [default], leaves the
    files as they are, and prints the warning [w] after it opened
    [path]. *)
Definition recovers {A : Type} (m : M A) (fs : gmap string file)
    (tr : list event) (path : string) (default : A) (w : event) : Prop :=
  m (State fs tr) = (Ok default, State fs (tr ++ [Opened path; w])).

(** The events of a trace that concern the file [path]. *)
Definition about (path : string) (e : event) : Prop :=
  match e with
  | Opened p | Warning_file_not_found p
  | Warning_invalid_content p _ | Warning_error_reading p _ => p = path
  | Could_not_parse _ _ | Fatal_error _ => False
  end.

(** The paths that a run looks for, in the order of lines 120-147. *)
Definition input_paths : list string := [
  "sast-results/sast-critical.txt"; "sast-results/sast-high.txt";
  "sast-results/semgrep-results.json";
  "sca-results/sca-critical.txt"; "sca-results/sca-high.txt";
  "sca-results/sca-medium.txt"; "sca-results/sca-low.txt";
  "sca-results/npm-audit-results.json";
  "dast-results/dast-critical.txt"; "dast-results/dast-high.txt";
  "dast-results/dast-medium.txt"; "dast-results/dast-low.txt";
  "dast-results/zap-report.json" ]%string.

(** Two directories hold the same at each of [paths]. *)
Definition agree (paths : list string) (fs fs' : gmap string file) : Prop :=
  forall p, In p paths -> fs !! p = fs' !! p.

(** An event that is not the opening of a path outside [paths]. *)
Definition within (paths : list string) (e : event) : Prop :=
  forall p, e = Opened p -> In p paths.

(** [m] looks at the files of [paths] only: it always returns and leaves
    the files as they are, it opens no other path, and in two directories
    that hold the same at these paths it returns the same and prints the
    same. *)
Definition looks_at {A : Type} (paths : list string) (m : M A) : Prop :=
  forall fs fs' tr tr', agree paths fs fs' ->
    exists a evs,
      m (State fs tr) = (Ok a, State fs (tr ++ evs))
      /\ m (State fs' tr') = (Ok a, State fs' (tr' ++ evs))
      /\ Forall (within paths) evs.

(** The severity that a Semgrep result carries: the [severity] of its
    [extra], and [None] when the result has no [extra] or its [extra] has
    no [severity]. *)
Inductive carries : pyval -> pyval -> Prop :=
| carries_severity d e s :
    dict_lookup "extra" d = Some (PDict e) ->
    dict_lookup "severity" e = Some s ->
    carries (PDict d) s
| carries_no_severity d e :
    dict_lookup "extra" d = Some (PDict e) ->
    dict_lookup "severity" e = None ->
    carries (PDict d) PNone
| carries_no_extra d :
    dict_lookup "extra" d = None ->
    carries (PDict d) PNone.

(** How many of [severities] are the string [label]. *)
Definition labelled (label : string) (severities : list pyval) : Z :=
  Z.of_nat (length (List.filter (fun s => py_eq_str s label) severities)).

(** A Semgrep result that has no [get] method, or whose [extra] has
    none. *)
Inductive malformed_result : pyval -> Prop :=
| result_is_no_object r :
    (forall d, r <> PDict d) -> malformed_result r
| extra_is_no_object d v :
    dict_lookup "extra" d = Some v -> (forall e, v <> PDict e) ->
    malformed_result (PDict d).

(** A ZAP alert whose risk code cannot be read: the alert is no object, or
    its [riskcode] is neither a number nor a string that [int] reads. *)
Inductive malformed_alert : pyval -> Prop :=
| alert_is_no_object a :
    (forall d, a <> PDict d) -> malformed_alert a
| riskcode_is_no_number d v :
    dict_lookup "riskcode" d = Some v ->
    (forall b, v <> PBool b) -> (forall n, ~ riskcode_of v n) ->
    malformed_alert (PDict d).

(** A ZAP report that holds such an alert, in the [alerts] of one of its
    sites. *)
Definition has_malformed_alert (doc : pyval) : Prop :=
  exists d sites s alerts alert,
    doc = PDict d /\ dict_lookup "site" d = Some (PList sites)
    /\ In (PDict s) sites /\ dict_lookup "alerts" s = Some (PList alerts)
    /\ In alert alerts /\ malformed_alert alert.

(** The member [key] of the [vulnerabilities] object of an npm audit
    report, 0 when there is none. *)
Definition member_or_zero (key : string) (v : list (string * pyval)) : pyval :=
  match dict_lookup key v with
  | Some x => x
  | None => PInt 0
  end.

(** A string of spaces only, as [str.strip] sees them. *)
Fixpoint all_space (s : string) : bool :=
  match s with
  | EmptyString => true
  | String c s' => py_isspace c && all_space s'
  end.

(** The report at [path] is missing or cannot be loaded. *)
Definition cannot_load (fs : gmap string file) (path : string) : Prop :=
  exists e, load_fails fs path e.

(** The numbers that the first table formats: the four totals, their sum
    and the ten counts. *)
Definition table_numbers (t : counts Z) (counts : list Z) : list Z :=
  [ critical t; high t; medium t; low t;
    critical t + high t + medium t + low t ] ++ counts.

(** The ten counts of a run as integers, when the SCA counts are
    numbers. *)
Definition all_counts (f : findings) : option (list Z) :=
  match int_value (sca_critical f), int_value (sca_high f),
        int_value (sca_medium f), int_value (sca_low f) with
  | Some c, Some h, Some m, Some l =>
      Some [ sast_critical f; sast_high f; c; h; m; l;
             dast_critical f; dast_high f; dast_medium f; dast_low f ]
  | _, _, _, _ => None
  end.

(** The line ends with [suffix]. *)
Definition ends_with (suffix line : string) : Prop :=
  exists body, line = body +:+ suffix.

(** * Properties *)

(** ** The monad *)

Lemma bind_ok {A B : Type} (m : M A) (k : A -> M B) st a st' :
  m st = (Ok a, st') -> bind m k st = k a st'.
Proof. intros H. unfold bind. now rewrite H. Qed.

Lemma bind_raise {A B : Type} (m : M A) (k : A -> M B) st e st' :
  m st = (Raise e, st') -> bind m k st = (Raise e, st').
Proof. intros H. unfold bind. now rewrite H. Qed.

(** ** Thresholds and failures *)

(** C7: the failures are the messages of the buckets whose total exceeds
    its threshold, one per such bucket, in the order critical, high,
    medium, low; each message is made of the name of the bucket, its total
    and its threshold. *)
Theorem failures_in_fixed_order (t : counts Z) :
  check_thresholds t =
    map (fun '(name, total, threshold) =>
           name +:+ " vulnerabilities: " +:+ str_of_int total +:+
           " exceeds threshold of " +:+ str_of_int threshold)
        (List.filter exceeds (buckets t))
  /\ length (check_thresholds t) = length (List.filter exceeds (buckets t)).
Proof.
  assert (E : check_thresholds t =
    map (fun '(name, total, threshold) =>
           name +:+ " vulnerabilities: " +:+ str_of_int total +:+
           " exceeds threshold of " +:+ str_of_int threshold)
        (List.filter exceeds (buckets t))).
  { unfold check_thresholds, buckets, failure_message.
    cbn [List.filter exceeds].
    destruct (critical t >? critical thresholds),
             (high t >? high thresholds),
             (medium t >? medium thresholds),
             (low t >? low thresholds); reflexivity. }
  split; [exact E|]. rewrite E. now rewrite length_map.
Qed.

(** ** Reading the input files *)

Lemma int_of_str_raise s e : int_of_str s = Raise e -> e = ValueError.
Proof.
  unfold int_of_str.
  destruct (match int_rstrip (int_lstrip s) with
            | String "-" r => (true, r)
            | String "+" r => (false, r)
            | _ => (false, int_rstrip (int_lstrip s))
            end) as [neg ds].
  destruct (int_digits ds 0 false); [|congruence].
  destruct (count_digits ds <=? max_str_digits)%nat; congruence.
Qed.

Lemma count_of_raise content d e : count_of content d = Raise e -> e = ValueError.
Proof. destruct content; [discriminate|]. apply int_of_str_raise. Qed.

(** What [read_count] returns and prints, by what is found at the path. *)
Lemma read_count_run p d fs tr :
  read_count p d (State fs tr) =
    match open_read (fs !! p) with
    | Ok content =>
        match count_of (py_strip content) d with
        | Ok n => (Ok n, State fs (tr ++ [Opened p]))
        | Raise e =>
            (Ok d, State fs (tr ++ [Opened p; Warning_invalid_content p ValueError]))
        end
    | Raise FileNotFoundError =>
        (Ok d, State fs (tr ++ [Opened p; Warning_file_not_found p]))
    | Raise e =>
        if is_ValueError e
        then (Ok d, State fs (tr ++ [Opened p; Warning_invalid_content p e]))
        else (Ok d, State fs (tr ++ [Opened p; Warning_error_reading p e]))
    end.
Proof.
  unfold read_count, try_except, read_text, bind, log, lift, ret. cbn.
  destruct (open_read (fs !! p)) as [content|e]; cbn.
  - destruct (count_of (py_strip content) d) as [n|e] eqn:E; [reflexivity|].
    apply count_of_raise in E. subst e. cbn. now rewrite <- app_assoc.
  - destruct e; cbn; now rewrite <- app_assoc.
Qed.

(** [read_count] always returns, leaves the files as they are, and opens
    and mentions no other path than its own. *)
Lemma read_count_total p d st :
  exists n evs,
    read_count p d st = (Ok n, State (files st) (trace st ++ evs))
    /\ Forall (about p) evs.
Proof.
  destruct st as [fs tr]. rewrite read_count_run. cbn [files trace].
  destruct (open_read (fs !! p)) as [content|e].
  - destruct (count_of (py_strip content) d); eexists _, _; split;
      try reflexivity; repeat constructor.
  - destruct e; cbn; eexists _, _; split; try reflexivity; repeat constructor.
Qed.

(** What a report parser returns and prints: [counts] is what it makes of
    the document, [zero] what it returns on failure. *)
Lemma parser_run {A : Type} (counts_of : pyval -> result A) (zero : A) t p fs tr :
  try_except (let* data := json_load p in lift (counts_of data))
             (fun e => let* _ := log (Could_not_parse t e) in ret zero)
             (State fs tr) =
    match rbind (load fs p) counts_of with
    | Ok c => (Ok c, State fs (tr ++ [Opened p]))
    | Raise e => (Ok zero, State fs (tr ++ [Opened p; Could_not_parse t e]))
    end.
Proof.
  unfold try_except, json_load, read_text, bind, log, lift, ret, load. cbn.
  destruct (open_read (fs !! p)) as [content|e]; cbn.
  - destruct (json_decode content) as [data|e]; cbn.
    + destruct (counts_of data); cbn; [reflexivity|now rewrite <- app_assoc].
    + now rewrite <- app_assoc.
  - now rewrite <- app_assoc.
Qed.

Lemma parse_semgrep_results_run p fs tr :
  parse_semgrep_results p (State fs tr) =
    match rbind (load fs p) semgrep_counts with
    | Ok c => (Ok c, State fs (tr ++ [Opened p]))
    | Raise e => (Ok (0, 0), State fs (tr ++ [Opened p; Could_not_parse Semgrep e]))
    end.
Proof. apply parser_run. Qed.

Lemma parse_npm_audit_results_run p fs tr :
  parse_npm_audit_results p (State fs tr) =
    match rbind (load fs p) npm_counts with
    | Ok c => (Ok c, State fs (tr ++ [Opened p]))
    | Raise e =>
        (Ok (Counts (PInt 0) (PInt 0) (PInt 0) (PInt 0)),
         State fs (tr ++ [Opened p; Could_not_parse NpmAudit e]))
    end.
Proof. apply parser_run. Qed.

Lemma parse_zap_results_run p fs tr :
  parse_zap_results p (State fs tr) =
    match rbind (load fs p) zap_counts with
    | Ok c => (Ok c, State fs (tr ++ [Opened p]))
    | Raise e => (Ok zero_counts, State fs (tr ++ [Opened p; Could_not_parse ZAP e]))
    end.
Proof. apply parser_run. Qed.

(** ** Input resolution *)

Lemma collect_sast_run fs tr :
  collect_sast (State fs tr) =
    match fs !! "sast-results/sast-critical.txt" with
    | Some _ => sast_count_files (State fs tr)
    | None =>
        match fs !! "sast-results/semgrep-results.json" with
        | Some _ => parse_semgrep_results "sast-results/semgrep-results.json" (State fs tr)
        | None => (Ok (0, 0), State fs tr)
        end
    end.
Proof.
  unfold collect_sast, path_exists, bind. cbn [files].
  destruct (fs !! "sast-results/sast-critical.txt"); [reflexivity|]. cbn [files].
  destruct (fs !! "sast-results/semgrep-results.json"); reflexivity.
Qed.

Lemma collect_sca_run fs tr :
  collect_sca (State fs tr) =
    match fs !! "sca-results/sca-critical.txt" with
    | Some _ => sca_count_files (State fs tr)
    | None =>
        match fs !! "sca-results/npm-audit-results.json" with
        | Some _ =>
            parse_npm_audit_results "sca-results/npm-audit-results.json" (State fs tr)
        | None => (Ok (Counts (PInt 0) (PInt 0) (PInt 0) (PInt 0)), State fs tr)
        end
    end.
Proof.
  unfold collect_sca, path_exists, bind. cbn [files].
  destruct (fs !! "sca-results/sca-critical.txt"); [reflexivity|]. cbn [files].
  destruct (fs !! "sca-results/npm-audit-results.json"); reflexivity.
Qed.

Lemma collect_dast_run fs tr :
  collect_dast (State fs tr) =
    match fs !! "dast-results/dast-critical.txt" with
    | Some _ => dast_count_files (State fs tr)
    | None =>
        match fs !! "dast-results/zap-report.json" with
        | Some _ => parse_zap_results "dast-results/zap-report.json" (State fs tr)
        | None => (Ok zero_counts, State fs tr)
        end
    end.
Proof.
  unfold collect_dast, path_exists, bind. cbn [files].
  destruct (fs !! "dast-results/dast-critical.txt"); [reflexivity|]. cbn [files].
  destruct (fs !! "dast-results/zap-report.json"); reflexivity.
Qed.

(** *** Computations that always return *)

Lemma runs_ret {A : Type} (P : event -> Prop) (a : A) : runs P (ret a).
Proof. intros fs tr. exists a, []. rewrite app_nil_r. now split. Qed.

Lemma runs_bind {A B : Type} (P : event -> Prop) (m : M A) (k : A -> M B) :
  runs P m -> (forall a, runs P (k a)) -> runs P (bind m k).
Proof.
  intros Hm Hk fs tr.
  destruct (Hm fs tr) as (a & evs & E & F).
  destruct (Hk a fs (tr ++ evs)) as (b & evs' & E' & F').
  exists b, (evs ++ evs'). unfold bind. rewrite E, E', app_assoc.
  split; [reflexivity|]. now apply Forall_app.
Qed.

Lemma runs_weaken {A : Type} (P Q : event -> Prop) (m : M A) :
  (forall e, P e -> Q e) -> runs P m -> runs Q m.
Proof.
  intros PQ Hm fs tr. destruct (Hm fs tr) as (a & evs & E & F).
  exists a, evs. split; [exact E|]. eapply Forall_impl; eauto.
Qed.

Lemma runs_read_count p d : runs (about p) (read_count p d).
Proof.
  intros fs tr. destruct (read_count_total p d (State fs tr)) as (n & evs & E & F).
  now exists n, evs.
Qed.

Lemma runs_parser {A : Type} (counts_of : pyval -> result A) (zero : A) t p :
  runs (fun _ => True)
    (try_except (let* data := json_load p in lift (counts_of data))
                (fun e => let* _ := log (Could_not_parse t e) in ret zero)).
Proof.
  intros fs tr. rewrite parser_run.
  destruct (rbind (load fs p) counts_of);
    eexists _, _; split; try reflexivity; repeat constructor.
Qed.

Lemma about_not_opened p q e : p <> q -> about p e -> e <> Opened q.
Proof. intros N A. destruct e; cbn in A; congruence. Qed.

Lemma runs_sast_count_files q :
  q <> "sast-results/sast-critical.txt"%string ->
  q <> "sast-results/sast-high.txt"%string ->
  runs (fun e => e <> Opened q) sast_count_files.
Proof.
  intros N1 N2. unfold sast_count_files.
  repeat (apply runs_bind; [|intros ?]); try apply runs_ret;
    (eapply runs_weaken; [|apply runs_read_count]);
    intros e; apply about_not_opened; congruence.
Qed.

Lemma runs_sca_count_files q :
  q <> "sca-results/sca-critical.txt"%string ->
  q <> "sca-results/sca-high.txt"%string ->
  q <> "sca-results/sca-medium.txt"%string ->
  q <> "sca-results/sca-low.txt"%string ->
  runs (fun e => e <> Opened q) sca_count_files.
Proof.
  intros N1 N2 N3 N4. unfold sca_count_files.
  repeat (apply runs_bind; [|intros ?]); try apply runs_ret;
    (eapply runs_weaken; [|apply runs_read_count]);
    intros e; apply about_not_opened; congruence.
Qed.

Lemma runs_dast_count_files q :
  q <> "dast-results/dast-critical.txt"%string ->
  q <> "dast-results/dast-high.txt"%string ->
  q <> "dast-results/dast-medium.txt"%string ->
  q <> "dast-results/dast-low.txt"%string ->
  runs (fun e => e <> Opened q) dast_count_files.
Proof.
  intros N1 N2 N3 N4. unfold dast_count_files.
  repeat (apply runs_bind; [|intros ?]); try apply runs_ret;
    (eapply runs_weaken; [|apply runs_read_count]);
    intros e; apply about_not_opened; congruence.
Qed.

(** *** Computations that do not look at a file *)

Lemma ignores_ret {A : Type} q (a : A) : ignores q (ret a).
Proof. intros fs fs' tr _. now split. Qed.

Lemma ignores_bind {A B : Type} (P : event -> Prop) q (m : M A) (k : A -> M B) :
  runs P m -> ignores q m -> (forall a, ignores q (k a)) -> ignores q (bind m k).
Proof.
  intros R Im Ik fs fs' tr Agree.
  destruct (R fs tr) as (a & evs & E & _).
  destruct (R fs' tr) as (a' & evs' & E' & _).
  destruct (Im fs fs' tr Agree) as [Ea Et].
  rewrite E, E' in Ea, Et. cbn in Ea, Et.
  injection Ea as <-.
  unfold bind. rewrite E, E', <- Et.
  now apply Ik.
Qed.

Lemma ignores_read_count q p d : p <> q -> ignores q (read_count p d).
Proof.
  intros N fs fs' tr Agree. rewrite !read_count_run, <- (Agree p N).
  destruct (open_read (fs !! p)) as [content|e].
  - destruct (count_of (py_strip content) d); now split.
  - destruct e; now split.
Qed.

Lemma ignores_sast_count_files q :
  q <> "sast-results/sast-critical.txt"%string ->
  q <> "sast-results/sast-high.txt"%string ->
  ignores q sast_count_files.
Proof.
  intros N1 N2. unfold sast_count_files.
  repeat (eapply ignores_bind; [apply runs_read_count| |intros ?]);
    try apply ignores_ret; apply ignores_read_count; congruence.
Qed.

Lemma ignores_sca_count_files q :
  q <> "sca-results/sca-critical.txt"%string ->
  q <> "sca-results/sca-high.txt"%string ->
  q <> "sca-results/sca-medium.txt"%string ->
  q <> "sca-results/sca-low.txt"%string ->
  ignores q sca_count_files.
Proof.
  intros N1 N2 N3 N4. unfold sca_count_files.
  repeat (eapply ignores_bind; [apply runs_read_count| |intros ?]);
    try apply ignores_ret; apply ignores_read_count; congruence.
Qed.

Lemma ignores_dast_count_files q :
  q <> "dast-results/dast-critical.txt"%string ->
  q <> "dast-results/dast-high.txt"%string ->
  q <> "dast-results/dast-medium.txt"%string ->
  q <> "dast-results/dast-low.txt"%string ->
  ignores q dast_count_files.
Proof.
  intros N1 N2 N3 N4. unfold dast_count_files.
  repeat (eapply ignores_bind; [apply runs_read_count| |intros ?]);
    try apply ignores_ret; apply ignores_read_count; congruence.
Qed.

(** C3, as amended: in each category the file of the critical count
    decides.  When it exists, the counts are those that [read_count] finds
    in the count files and the JSON report is neither opened nor looked at;
    when it does not exist and the report does, the report is parsed; when
    neither exists, the counts are zero. *)
Theorem critical_count_file_decides :
  resolves collect_sast
    "sast-results/sast-critical.txt" "sast-results/semgrep-results.json"
    sast_count_files
    (parse_semgrep_results "sast-results/semgrep-results.json")
    (0, 0)
  /\ resolves collect_sca
       "sca-results/sca-critical.txt" "sca-results/npm-audit-results.json"
       sca_count_files
       (parse_npm_audit_results "sca-results/npm-audit-results.json")
       (Counts (PInt 0) (PInt 0) (PInt 0) (PInt 0))
  /\ resolves collect_dast
       "dast-results/dast-critical.txt" "dast-results/zap-report.json"
       dast_count_files
       (parse_zap_results "dast-results/zap-report.json")
       zero_counts.
Proof.
  split; [|split]; (split; [|split; [|split; [|split]]]).
  - intros fs tr [x E]. now rewrite collect_sast_run, E.
  - now apply runs_sast_count_files.
  - now apply ignores_sast_count_files.
  - intros fs tr E [x E']. now rewrite collect_sast_run, E, E'.
  - intros fs tr E E'. now rewrite collect_sast_run, E, E'.
  - intros fs tr [x E]. now rewrite collect_sca_run, E.
  - now apply runs_sca_count_files.
  - now apply ignores_sca_count_files.
  - intros fs tr E [x E']. now rewrite collect_sca_run, E, E'.
  - intros fs tr E E'. now rewrite collect_sca_run, E, E'.
  - intros fs tr [x E]. now rewrite collect_dast_run, E.
  - now apply runs_dast_count_files.
  - now apply ignores_dast_count_files.
  - intros fs tr E [x E']. now rewrite collect_dast_run, E, E'.
  - intros fs tr E E'. now rewrite collect_dast_run, E, E'.
Qed.

(** C3 as it was stated does not hold: here a count file of the SCA
    category and the npm audit report both exist, and the counts are those
    of the report (high is 2, not 5), which was opened and parsed. *)
Lemma count_file_without_critical_is_ignored :
  let fs : gmap string file :=
    {[ "sca-results/sca-high.txt"%string := Text "5";
       "sca-results/npm-audit-results.json"%string :=
         Text (json_text "{'metadata': {'vulnerabilities': {'high': 2}}}") ]} in
  is_Some (fs !! "sca-results/sca-high.txt")
  /\ is_Some (fs !! "sca-results/npm-audit-results.json")
  /\ collect_sca (State fs []) =
       (Ok (Counts (PInt 0) (PInt 2) (PInt 0) (PInt 0)),
        State fs [Opened "sca-results/npm-audit-results.json"]).
Proof.
  cbv zeta. split; [|split].
  - vm_compute. eauto.
  - vm_compute. eauto.
  - vm_compute. reflexivity.
Qed.

(** ** The collection of the counts *)

Lemma runs_collect : runs (fun _ => True) collect.
Proof.
  unfold collect.
  apply runs_bind; [|intros sast; apply runs_bind;
                      [|intros sca; apply runs_bind; [|intros dast; apply runs_ret]]].
  - intros fs tr. rewrite collect_sast_run.
    destruct (fs !! "sast-results/sast-critical.txt").
    + eapply runs_weaken; [|apply (runs_sast_count_files "")]; easy.
    + destruct (fs !! "sast-results/semgrep-results.json").
      * apply runs_parser.
      * apply runs_ret.
  - intros fs tr. rewrite collect_sca_run.
    destruct (fs !! "sca-results/sca-critical.txt").
    + eapply runs_weaken; [|apply (runs_sca_count_files "")]; easy.
    + destruct (fs !! "sca-results/npm-audit-results.json").
      * apply runs_parser.
      * apply runs_ret.
  - intros fs tr. rewrite collect_dast_run.
    destruct (fs !! "dast-results/dast-critical.txt").
    + eapply runs_weaken; [|apply (runs_dast_count_files "")]; easy.
    + destruct (fs !! "dast-results/zap-report.json").
      * apply runs_parser.
      * apply runs_ret.
Qed.

(** ** Decimal numerals *)

Lemma int_digits_acc d acc :
  int_digits (NilEmpty.string_of_uint d) (Z.pos acc) true
  = Some (Z.pos (Pos.of_uint_acc d acc)).
Proof.
  revert acc. induction d; intros acc; cbn [NilEmpty.string_of_uint int_digits];
    [reflexivity|..];
    (change (digit_of_ascii _) with (Some 0)
     || change (digit_of_ascii _) with (Some 1)
     || change (digit_of_ascii _) with (Some 2)
     || change (digit_of_ascii _) with (Some 3)
     || change (digit_of_ascii _) with (Some 4)
     || change (digit_of_ascii _) with (Some 5)
     || change (digit_of_ascii _) with (Some 6)
     || change (digit_of_ascii _) with (Some 7)
     || change (digit_of_ascii _) with (Some 8)
     || change (digit_of_ascii _) with (Some 9));
    cbn [Pos.of_uint_acc]; rewrite <- IHd; f_equal; lia.
Qed.

Lemma int_digits_uint d :
  int_digits (NilEmpty.string_of_uint d) 0 true = Some (Z.of_uint d).
Proof.
  unfold Z.of_uint.
  induction d; cbn [NilEmpty.string_of_uint int_digits Pos.of_uint];
    [reflexivity|exact IHd|..];
    (change (digit_of_ascii _) with (Some 1)
     || change (digit_of_ascii _) with (Some 2)
     || change (digit_of_ascii _) with (Some 3)
     || change (digit_of_ascii _) with (Some 4)
     || change (digit_of_ascii _) with (Some 5)
     || change (digit_of_ascii _) with (Some 6)
     || change (digit_of_ascii _) with (Some 7)
     || change (digit_of_ascii _) with (Some 8)
     || change (digit_of_ascii _) with (Some 9));
    cbn [Z.of_N]; rewrite <- int_digits_acc; reflexivity.
Qed.

Lemma int_digits_start d :
  d <> Decimal.Nil ->
  int_digits (NilEmpty.string_of_uint d) 0 false
  = int_digits (NilEmpty.string_of_uint d) 0 true.
Proof. destruct d; [congruence|..]; reflexivity. Qed.

Lemma rstrip_digits d :
  rstrip (NilEmpty.string_of_uint d) = NilEmpty.string_of_uint d.
Proof.
  induction d; cbn [NilEmpty.string_of_uint rstrip]; [reflexivity|..];
    rewrite IHd; destruct (NilEmpty.string_of_uint d); reflexivity.
Qed.

Lemma lstrip_digits d :
  lstrip (NilEmpty.string_of_uint d) = NilEmpty.string_of_uint d.
Proof. destruct d; reflexivity. Qed.

Lemma int_rstrip_digits d :
  int_rstrip (NilEmpty.string_of_uint d) = NilEmpty.string_of_uint d.
Proof.
  induction d; cbn [NilEmpty.string_of_uint int_rstrip]; [reflexivity|..];
    rewrite IHd; destruct (NilEmpty.string_of_uint d); reflexivity.
Qed.

Lemma int_lstrip_digits d :
  int_lstrip (NilEmpty.string_of_uint d) = NilEmpty.string_of_uint d.
Proof. destruct d; reflexivity. Qed.

Lemma str_of_int_pos p :
  str_of_int (Z.pos p) = NilEmpty.string_of_uint (Pos.to_uint p).
Proof.
  unfold str_of_int. cbn [Z.to_int NilZero.string_of_int].
  unfold NilZero.string_of_uint.
  pose proof (DecimalPos.Unsigned.to_uint_nonnil p).
  destruct (Pos.to_uint p); congruence.
Qed.

Lemma str_of_int_neg p :
  str_of_int (Z.neg p) = String "-" (NilEmpty.string_of_uint (Pos.to_uint p)).
Proof.
  unfold str_of_int. cbn [Z.to_int NilZero.string_of_int].
  unfold NilZero.string_of_uint.
  pose proof (DecimalPos.Unsigned.to_uint_nonnil p).
  destruct (Pos.to_uint p); congruence.
Qed.

Lemma of_uint_to_uint p : Z.of_uint (Pos.to_uint p) = Z.pos p.
Proof. unfold Z.of_uint. now rewrite DecimalPos.Unsigned.of_to. Qed.

Lemma count_digits_uint d :
  count_digits (NilEmpty.string_of_uint d) = Decimal.nb_digits d.
Proof.
  induction d; cbn [NilEmpty.string_of_uint count_digits Decimal.nb_digits];
    [reflexivity|..];
    (change (digit_of_ascii _) with (Some 0)
     || change (digit_of_ascii _) with (Some 1)
     || change (digit_of_ascii _) with (Some 2)
     || change (digit_of_ascii _) with (Some 3)
     || change (digit_of_ascii _) with (Some 4)
     || change (digit_of_ascii _) with (Some 5)
     || change (digit_of_ascii _) with (Some 6)
     || change (digit_of_ascii _) with (Some 7)
     || change (digit_of_ascii _) with (Some 8)
     || change (digit_of_ascii _) with (Some 9));
    now rewrite IHd.
Qed.

Lemma length_string_of_uint d :
  String.length (NilEmpty.string_of_uint d) = Decimal.nb_digits d.
Proof.
  induction d; cbn [NilEmpty.string_of_uint String.length Decimal.nb_digits];
    congruence.
Qed.

Lemma fits_pos p :
  fits (Z.pos p) = (Decimal.nb_digits (Pos.to_uint p) <=? max_str_digits)%nat.
Proof.
  unfold fits. change (Z.abs (Z.pos p)) with (Z.pos p).
  now rewrite str_of_int_pos, length_string_of_uint.
Qed.

Lemma fits_neg p :
  fits (Z.neg p) = (Decimal.nb_digits (Pos.to_uint p) <=? max_str_digits)%nat.
Proof.
  unfold fits. change (Z.abs (Z.neg p)) with (Z.pos p).
  now rewrite str_of_int_pos, length_string_of_uint.
Qed.

(** [int] reads the digits of a number, when they are no more than the
    limit. *)
Lemma int_of_str_uint p :
  int_of_str (NilEmpty.string_of_uint (Pos.to_uint p))
  = (if fits (Z.pos p) then Ok (Z.pos p) else Raise ValueError)
  /\ int_of_str (String "-" (NilEmpty.string_of_uint (Pos.to_uint p)))
     = (if fits (Z.pos p) then Ok (Z.neg p) else Raise ValueError).
Proof.
  rewrite fits_pos, <- count_digits_uint.
  pose proof (DecimalPos.Unsigned.to_uint_nonnil p) as N.
  assert (E : int_digits (NilEmpty.string_of_uint (Pos.to_uint p)) 0 false
              = Some (Z.pos p)).
  { now rewrite int_digits_start, int_digits_uint, of_uint_to_uint. }
  split.
  - unfold int_of_str. rewrite int_lstrip_digits, int_rstrip_digits.
    destruct (Pos.to_uint p); try congruence;
      cbn [NilEmpty.string_of_uint] in E |- *; cbv beta iota zeta;
      now rewrite E.
  - unfold int_of_str.
    assert (L : int_lstrip (String "-" (NilEmpty.string_of_uint (Pos.to_uint p)))
                = String "-" (NilEmpty.string_of_uint (Pos.to_uint p)))
      by reflexivity.
    rewrite L. cbn [int_rstrip]. rewrite int_rstrip_digits.
    destruct (NilEmpty.string_of_uint (Pos.to_uint p)) eqn:S.
    + destruct (Pos.to_uint p); cbn in S; congruence.
    + change (int_isspace "-") with false. cbv beta iota zeta. now rewrite E.
Qed.

(** [int] reads back what [str] writes, within the limit on the digits,
    and refuses it beyond. *)
Lemma int_of_str_str_of_int n :
  int_of_str (str_of_int n) = if fits n then Ok n else Raise ValueError.
Proof.
  destruct n as [|p|p].
  - reflexivity.
  - rewrite str_of_int_pos. apply int_of_str_uint.
  - rewrite str_of_int_neg, fits_neg, <- fits_pos. apply int_of_str_uint.
Qed.

(** ** Writing JSON and reading it back *)

Lemma pyval_ind (P : pyval -> Prop) :
  P PNone ->
  (forall b, P (PBool b)) ->
  (forall n, P (PInt n)) ->
  (forall s, P (PStr s)) ->
  (forall l, Forall P l -> P (PList l)) ->
  (forall d, Forall (fun kv => P (snd kv)) d -> P (PDict d)) ->
  forall v, P v.
Proof.
  intros HN HB HI HS HL HD.
  fix IH 1. intros v. destruct v as [|b|n|s|l|d].
  - exact HN.
  - apply HB.
  - apply HI.
  - apply HS.
  - apply HL. induction l as [|x l IHl]; constructor; [apply IH|exact IHl].
  - apply HD. induction d as [|[k x] d IHd]; constructor; [apply IH|exact IHd].
Qed.

Lemma json_dumps_list level x xs :
  json_dumps level (PList (x :: xs)) =
    "[" +:+ newline_indent (S level) +:+ json_dumps (S level) x +:+
    dump_items level xs.
Proof. reflexivity. Qed.

Lemma json_dumps_dict level k x kvs :
  json_dumps level (PDict ((k, x) :: kvs)) =
    "{" +:+ newline_indent (S level) +:+ quote k +:+ ": " +:+
    json_dumps (S level) x +:+ dump_members level kvs.
Proof. reflexivity. Qed.

Lemma weight_list l : weight (PList l) = S (weights l).
Proof. reflexivity. Qed.

Lemma weight_dict d : weight (PDict d) = S (member_weights d).
Proof.
  cbn [weight]. f_equal.
  induction d as [|[k x] d IH]; [reflexivity|].
  unfold member_weights. cbn [fold_right snd]. f_equal. f_equal. exact IH.
Qed.

(** *** Appending strings *)

Lemma append_nil (t : string) : EmptyString +:+ t = t.
Proof. reflexivity. Qed.

Lemma append_cons c (s t : string) : String c s +:+ t = String c (s +:+ t).
Proof. reflexivity. Qed.

Lemma append_assoc (a b c : string) : (a +:+ b) +:+ c = a +:+ (b +:+ c).
Proof.
  induction a as [|x a IH]; [reflexivity|]. rewrite !append_cons. now rewrite IH.
Qed.

Lemma append_empty (a : string) : a +:+ EmptyString = a.
Proof.
  induction a as [|x a IH]; [reflexivity|]. rewrite append_cons. now rewrite IH.
Qed.

Lemma length_append (a b : string) :
  String.length (a +:+ b) = (String.length a + String.length b)%nat.
Proof.
  induction a as [|x a IH]; [reflexivity|]. rewrite append_cons. cbn. now rewrite IH.
Qed.

(** *** String literals *)

Lemma scan_escape_char c tail :
  scan_string (escape_char c +:+ tail) =
    match scan_string tail with
    | Some (t, rest) => Some (String c t, rest)
    | None => None
    end.
Proof. destruct c as [[] [] [] [] [] [] [] []]; reflexivity. Qed.

Lemma scan_string_escape s rest :
  scan_string (escape s +:+ String dquote rest) = Some (s, rest).
Proof.
  induction s as [|c s IH]; [reflexivity|].
  cbn [escape]. now rewrite append_assoc, scan_escape_char, IH.
Qed.

Lemma string_literal_quote s rest :
  string_literal (quote s +:+ rest) = Some (Some (s, rest)).
Proof.
  unfold quote. rewrite append_cons, append_assoc, append_cons, append_nil.
  cbn [string_literal]. change (Ascii.eqb dquote dquote) with true. cbn iota.
  now rewrite scan_string_escape.
Qed.

(** *** Integer literals *)

Lemma scan_digits_uint d rest :
  match rest with
  | String c _ => digit_cons c = None
  | EmptyString => True
  end ->
  scan_digits (NilEmpty.string_of_uint d +:+ rest) = (d, rest).
Proof.
  intros E.
  induction d; cbn [NilEmpty.string_of_uint]; rewrite ?append_cons, ?append_nil;
    cbn [scan_digits];
    [|change (digit_cons _) with (Some Decimal.D0)
     |change (digit_cons _) with (Some Decimal.D1)
     |change (digit_cons _) with (Some Decimal.D2)
     |change (digit_cons _) with (Some Decimal.D3)
     |change (digit_cons _) with (Some Decimal.D4)
     |change (digit_cons _) with (Some Decimal.D5)
     |change (digit_cons _) with (Some Decimal.D6)
     |change (digit_cons _) with (Some Decimal.D7)
     |change (digit_cons _) with (Some Decimal.D8)
     |change (digit_cons _) with (Some Decimal.D9)];
    try (cbn iota; now rewrite IHd).
  destruct rest as [|c r]; [reflexivity|]. cbn [scan_digits]. now rewrite E.
Qed.

Lemma ends_number_digit rest :
  ends_number rest = true ->
  match rest with
  | String c _ => digit_cons c = None
  | EmptyString => True
  end.
Proof.
  destruct rest as [|c r]; [easy|]. cbn. destruct (digit_cons c); easy.
Qed.

Lemma ends_number_float rest : ends_number rest = true -> float_follows rest = false.
Proof.
  destruct rest as [|c r]; [easy|]. unfold ends_number.
  destruct (digit_cons c); [easy|]. now destruct (float_follows _).
Qed.

(** A positive number is written without a leading zero. *)
Lemma to_uint_head p :
  match Pos.to_uint p with
  | Decimal.Nil | Decimal.D0 _ => False
  | _ => True
  end.
Proof.
  pose proof (DecimalPos.Unsigned.to_of (Pos.to_uint p)) as E.
  rewrite DecimalPos.Unsigned.of_to in E. cbn [N.to_uint] in E.
  pose proof (DecimalPos.Unsigned.to_uint_nonnil p) as N.
  pose proof (DecimalPos.Unsigned.to_uint_nonzero p) as Z.
  destruct (Pos.to_uint p) as [|d| | | | | | | | |]; try easy.
  rewrite DecimalFacts.unorm_D0 in E.
  assert (H : forall u, Decimal.unorm u = Decimal.D0 Decimal.Nil
                        \/ match Decimal.unorm u with
                           | Decimal.Nil | Decimal.D0 _ => False
                           | _ => True
                           end).
  { induction u; cbn; auto. }
  destruct (H d) as [H0|H0]; rewrite <- E in H0.
  - injection H0 as ->. congruence.
  - exact H0.
Qed.

Lemma scan_number_str n rest :
  fits n = true ->
  ends_number rest = true ->
  scan_number (str_of_int n +:+ rest) = Some (n, rest).
Proof.
  intros B E. pose proof (ends_number_digit _ E) as D.
  pose proof (ends_number_float _ E) as F.
  destruct n as [|p|p].
  - change (str_of_int 0) with (String "0" EmptyString).
    rewrite append_cons, append_nil. cbn. now rewrite F.
  - rewrite fits_pos in B. rewrite str_of_int_pos. unfold scan_number.
    pose proof (to_uint_head p) as H. pose proof (of_uint_to_uint p) as V.
    pose proof (scan_digits_uint (Pos.to_uint p) rest D) as S.
    destruct (Pos.to_uint p); try easy;
      cbn [NilEmpty.string_of_uint] in S |- *; rewrite append_cons in S |- *;
      rewrite S, F, V, B; reflexivity.
  - rewrite fits_neg in B. rewrite str_of_int_neg. unfold scan_number.
    rewrite append_cons.
    pose proof (to_uint_head p) as H. pose proof (of_uint_to_uint p) as V.
    pose proof (scan_digits_uint (Pos.to_uint p) rest D) as S.
    destruct (Pos.to_uint p); try easy;
      cbn [NilEmpty.string_of_uint] in S |- *; rewrite append_cons in S |- *;
      rewrite S, F, V, B; reflexivity.
Qed.

(** *** Values *)

Lemma skip_ws_newline_indent level s :
  skip_ws (newline_indent level +:+ s) = skip_ws s.
Proof.
  unfold newline_indent. rewrite append_cons. cbn [skip_ws].
  change (json_isspace "010") with true. cbn iota.
  induction (2 * level)%nat as [|n IH]; [reflexivity|].
  cbn [spaces]. rewrite append_cons. cbn [skip_ws].
  change (json_isspace " ") with true. exact IH.
Qed.

Lemma ends_number_newline_indent level s :
  ends_number (newline_indent level +:+ s) = true.
Proof. reflexivity. Qed.

Lemma json_dumps_head level v rest :
  exists c tail, json_dumps level v +:+ rest = String c tail /\ opens_value c.
Proof.
  destruct v as [| [] |n|s|[|x l]|[|[k x] d]];
    try (eexists _, _; split; [reflexivity|repeat split]).
  destruct n as [|p|p].
  - eexists _, _; split; [reflexivity|repeat split].
  - cbn [json_dumps]. rewrite str_of_int_pos.
    pose proof (to_uint_head p) as H.
    destruct (Pos.to_uint p); try easy;
      eexists _, _; (split; [reflexivity|repeat split]).
  - cbn [json_dumps]. rewrite str_of_int_neg.
    eexists _, _; split; [reflexivity|repeat split].
Qed.

Lemma skip_ws_head c tail : json_isspace c = false -> skip_ws (String c tail) = String c tail.
Proof. intros H. cbn [skip_ws]. now rewrite H. Qed.

Lemma skip_ws_dumps level v rest :
  skip_ws (json_dumps level v +:+ rest) = json_dumps level v +:+ rest.
Proof.
  destruct (json_dumps_head level v rest) as (c & tail & -> & H & _).
  now apply skip_ws_head.
Qed.

Lemma expect_bracket_dumps level v rest :
  expect "]" (json_dumps level v +:+ rest) = None.
Proof.
  destruct (json_dumps_head level v rest) as (c & tail & -> & _ & H & _).
  cbn [expect]. now rewrite H.
Qed.

(** One step of the scanner. *)
Lemma parse_value_array f r :
  parse_value (S f) (String "[" r) =
    match expect "]" (skip_ws r) with
    | Some rest => Some (PList [], rest)
    | None =>
        match parse_elements f (skip_ws r) with
        | Some (vs, rest) => Some (PList vs, rest)
        | None => None
        end
    end.
Proof. reflexivity. Qed.

Lemma parse_value_object f r :
  parse_value (S f) (String "{" r) =
    match expect "}" (skip_ws r) with
    | Some rest => Some (PDict [], rest)
    | None =>
        match parse_members f (skip_ws r) with
        | Some (kvs, rest) => Some (PDict kvs, rest)
        | None => None
        end
    end.
Proof. reflexivity. Qed.

Lemma parse_elements_step f s :
  parse_elements (S f) s =
    match parse_value f s with
    | None => None
    | Some (v, r) =>
        match expect "]" (skip_ws r), expect "," (skip_ws r) with
        | Some rest, _ => Some ([v], rest)
        | None, Some r'' =>
            match parse_elements f (skip_ws r'') with
            | Some (vs, rest) => Some (v :: vs, rest)
            | None => None
            end
        | None, None => None
        end
    end.
Proof. reflexivity. Qed.

Lemma parse_members_step f s :
  parse_members (S f) s =
    match string_literal s with
    | Some (Some (k, r1)) =>
        match expect ":" (skip_ws r1) with
        | Some r2 =>
            match parse_value f (skip_ws r2) with
            | None => None
            | Some (v, r3) =>
                match expect "}" (skip_ws r3), expect "," (skip_ws r3) with
                | Some rest, _ => Some ([(k, v)], rest)
                | None, Some r4 =>
                    match parse_members f (skip_ws r4) with
                    | Some (kvs, rest) => Some ((k, v) :: kvs, rest)
                    | None => None
                    end
                | None, None => None
                end
            end
        | None => None
        end
    | _ => None
    end.
Proof. reflexivity. Qed.

Lemma parse_value_string f s t rest :
  string_literal s = Some (Some (t, rest)) ->
  parse_value (S f) s = Some (PStr t, rest).
Proof. intros H. cbn [parse_value]. now rewrite H. Qed.

Lemma parse_value_number f s n rest :
  match s with
  | String c _ =>
      match digit_cons c with
      | Some _ => true
      | None => Ascii.eqb c "-"
      end
  | EmptyString => false
  end = true ->
  scan_number s = Some (n, rest) ->
  parse_value (S f) s = Some (PInt n, rest).
Proof.
  destruct s as [|c tail]; [easy|].
  destruct c as [[] [] [] [] [] [] [] []]; try discriminate;
    intros _ H; cbn [parse_value string_literal expect literal];
    cbn - [scan_number]; now rewrite H.
Qed.

Lemma str_of_int_head n rest :
  match str_of_int n +:+ rest with
  | String c _ =>
      match digit_cons c with
      | Some _ => true
      | None => Ascii.eqb c "-"
      end
  | EmptyString => false
  end = true.
Proof.
  destruct n as [|p|p]; [reflexivity| |].
  - rewrite str_of_int_pos. pose proof (to_uint_head p).
    destruct (Pos.to_uint p); easy.
  - now rewrite str_of_int_neg.
Qed.

Lemma weight_pos v : (1 <= weight v)%nat.
Proof. destruct v; cbn; lia. Qed.

Lemma ends_number_dump_items level xs rest :
  ends_number (dump_items level xs +:+ rest) = true.
Proof. destruct xs; reflexivity. Qed.

Lemma ends_number_dump_members level d rest :
  ends_number (dump_members level d +:+ rest) = true.
Proof. destruct d as [|[k x] d]; reflexivity. Qed.

Lemma parse_elements_dumps level xs :
  forall x fuel rest,
    Forall reads_back (x :: xs) ->
    (weights (x :: xs) <= fuel)%nat ->
    parse_elements fuel
      (json_dumps (S level) x +:+ dump_items level xs +:+ rest)
    = Some (x :: xs, rest).
Proof.
  induction xs as [|y xs IH]; intros x fuel rest F W;
    inversion F as [|? ? Hx F']; subst;
    (destruct fuel as [|f]; [cbn in W; lia|]);
    cbn [weights fold_right] in W;
    rewrite parse_elements_step, Hx;
    try lia; try apply ends_number_dump_items.
  - cbn [dump_items]. rewrite append_assoc, skip_ws_newline_indent.
    reflexivity.
  - cbn [dump_items]. rewrite !append_assoc, !append_cons, !append_nil.
    rewrite skip_ws_head by reflexivity. cbn [expect].
    change (Ascii.eqb "," "]") with false.
    change (Ascii.eqb "," ",") with true. cbn iota.
    rewrite skip_ws_newline_indent, skip_ws_dumps.
    rewrite IH; [reflexivity|exact F'|].
    fold (weights (y :: xs)) in W. cbn [weights fold_right] in W |- *. lia.
Qed.

Lemma skip_ws_quote k s : skip_ws (quote k +:+ s) = quote k +:+ s.
Proof. unfold quote. rewrite append_cons. now apply skip_ws_head. Qed.

Lemma parse_members_dumps level d :
  forall k x fuel rest,
    Forall (fun kv => reads_back (snd kv)) ((k, x) :: d) ->
    (member_weights ((k, x) :: d) <= fuel)%nat ->
    parse_members fuel
      (quote k +:+ ": " +:+ json_dumps (S level) x +:+ dump_members level d +:+ rest)
    = Some ((k, x) :: d, rest).
Proof.
  induction d as [|[k' y] d IH]; intros k x fuel rest F W;
    inversion F as [|? ? Hx F']; subst; cbn [snd] in Hx;
    (destruct fuel as [|f]; [cbn in W; lia|]);
    cbn [member_weights fold_right snd] in W;
    rewrite parse_members_step, string_literal_quote;
    rewrite !append_cons, !append_nil;
    rewrite (skip_ws_head ":") by reflexivity; cbn [expect];
    change (Ascii.eqb ":" ":") with true; cbn iota;
    cbn [skip_ws]; change (json_isspace " ") with true; cbn iota;
    rewrite skip_ws_dumps, Hx;
    try lia; try apply ends_number_dump_members.
  - cbn [dump_members]. rewrite append_assoc, skip_ws_newline_indent.
    reflexivity.
  - cbn [dump_members]. rewrite !append_assoc, !append_cons, !append_nil.
    rewrite skip_ws_head by reflexivity. cbn [expect].
    change (Ascii.eqb "," "}") with false.
    change (Ascii.eqb "," ",") with true. cbn iota.
    rewrite skip_ws_newline_indent, skip_ws_quote.
    pose proof (IH k' y f rest F') as IH'.
    rewrite ?append_cons, ?append_nil in IH'.
    rewrite IH'; [reflexivity|].
    cbn [member_weights fold_right snd] in W |- *. lia.
Qed.

(** Whatever [json_dumps] writes of a value whose integers are within the
    limit, [parse_value] reads back, given fuel for the nesting and an end
    to the last number. *)
Lemma parse_value_dumps v : bounded v = true -> reads_back v.
Proof.
  induction v as [|b|n|s|l IH|d IH] using pyval_ind;
    intros B level fuel rest W E;
    (destruct fuel as [|f];
     [match type of W with (weight ?v <= _)%nat => pose proof (weight_pos v) end;
      lia|]).
  - reflexivity.
  - destruct b; reflexivity.
  - apply parse_value_number; [apply str_of_int_head|now apply scan_number_str].
  - apply parse_value_string, string_literal_quote.
  - assert (R : Forall reads_back l).
    { cbn [bounded] in B. rewrite forallb_forall in B.
      rewrite List.Forall_forall in IH |- *. intros x I. apply (IH x I), (B x I). }
    destruct l as [|x xs]; [reflexivity|].
    rewrite json_dumps_list, !append_assoc, append_cons, append_nil.
    rewrite parse_value_array, skip_ws_newline_indent, skip_ws_dumps.
    rewrite expect_bracket_dumps, parse_elements_dumps; [reflexivity|exact R|].
    rewrite weight_list in W. lia.
  - assert (R : Forall (fun kv => reads_back (snd kv)) d).
    { cbn [bounded] in B. rewrite forallb_forall in B.
      rewrite List.Forall_forall in IH |- *. intros x I. apply (IH x I), (B x I). }
    destruct d as [|[k x] kvs]; [reflexivity|].
    rewrite json_dumps_dict, !append_assoc, append_cons, append_nil.
    rewrite parse_value_object, skip_ws_newline_indent, skip_ws_quote.
    assert (X : forall s, expect "}" (quote k +:+ s) = None) by reflexivity.
    rewrite X, parse_members_dumps; [reflexivity|exact R|].
    rewrite weight_dict in W. lia.
Qed.

Lemma weight_length level v : (weight v <= String.length (json_dumps level v))%nat.
Proof.
  revert level.
  induction v as [|b|n|s|l IH|d IH] using pyval_ind; intros level.
  - cbn. lia.
  - destruct b; cbn; lia.
  - cbn [weight json_dumps].
    destruct (json_dumps_head 0 (PInt n) EmptyString) as (c & tail & E & _).
    cbn [json_dumps] in E. rewrite append_empty in E. rewrite E. cbn. lia.
  - cbn [weight json_dumps]. unfold quote. cbn. lia.
  - destruct l as [|x xs]; [cbn; lia|].
    rewrite weight_list, json_dumps_list, !length_append.
    unfold newline_indent. cbn [String.length].
    inversion IH as [|? ? Hx IH']; subst.
    assert (T : (weights xs < String.length (dump_items level xs))%nat).
    { clear Hx IH. induction xs as [|y xs IHxs].
      - cbn [weights fold_right dump_items]. rewrite length_append.
        unfold newline_indent. cbn [String.length]. lia.
      - inversion IH' as [|? ? Hy IH'']; subst.
        cbn [weights fold_right dump_items]. rewrite !length_append.
        unfold newline_indent. cbn [String.length].
        specialize (IHxs IH''). specialize (Hy (S level)).
        fold (weights xs). lia. }
    specialize (Hx (S level)). cbn [weights fold_right]. fold (weights xs). lia.
  - destruct d as [|[k x] kvs]; [cbn; lia|].
    rewrite weight_dict, json_dumps_dict, !length_append.
    unfold newline_indent. cbn [String.length].
    inversion IH as [|? ? Hx IH']; subst. cbn [snd] in Hx.
    assert (T : (member_weights kvs < String.length (dump_members level kvs))%nat).
    { clear Hx IH. induction kvs as [|[k' y] kvs IHk].
      - cbn [member_weights fold_right dump_members]. rewrite length_append.
        unfold newline_indent. cbn [String.length]. lia.
      - inversion IH' as [|? ? Hy IH'']; subst. cbn [snd] in Hy.
        cbn [member_weights fold_right dump_members snd]. rewrite !length_append.
        unfold newline_indent. cbn [String.length].
        specialize (IHk IH''). specialize (Hy (S level)).
        fold (member_weights kvs). lia. }
    specialize (Hx (S level)). cbn [member_weights fold_right snd].
    fold (member_weights kvs). lia.
Qed.

(** [json.loads] gives back the value that [json.dumps] wrote, when its
    integers are within the limit. *)
Lemma json_loads_dumps v :
  bounded v = true -> json_loads (json_dumps 0 v) = Some v.
Proof.
  intros B. unfold json_loads.
  pose proof (skip_ws_dumps 0 v EmptyString) as S.
  pose proof (parse_value_dumps v B 0%nat
                (2 * String.length (json_dumps 0 v) + 2)%nat EmptyString) as P.
  rewrite append_empty in S, P. rewrite S, P; [reflexivity| |reflexivity].
  pose proof (weight_length 0 v). lia.
Qed.

(** ** Formatting the tables *)

(** When the totals can be computed, the four SCA counts are numbers and
    the totals are the sums of lines 156-159. *)
Lemma totals_of_ok f t :
  totals_of f = Ok t ->
  exists c h m l,
    int_value (sca_critical f) = Some c
    /\ int_value (sca_high f) = Some h
    /\ int_value (sca_medium f) = Some m
    /\ int_value (sca_low f) = Some l
    /\ t = Counts (sast_critical f + c + dast_critical f)
                  (sast_high f + h + dast_high f)
                  (m + dast_medium f)
                  (l + dast_low f).
Proof.
  unfold totals_of.
  destruct (sca_critical f) as [|b1|n1| | |]; try discriminate;
    destruct (sca_high f) as [|b2|n2| | |]; try discriminate;
    destruct (sca_medium f) as [|b3|n3| | |]; try discriminate;
    destruct (sca_low f) as [|b4|n4| | |]; try discriminate;
    cbn; intros [= <-]; eexists _, _, _, _; repeat split.
Qed.


Lemma format_int_ok width n cell : format_int width n = Ok cell -> fits n = true.
Proof. unfold format_int, py_str. now destruct (fits n). Qed.

Lemma format_int_fits width n :
  fits n = true -> format_int width n = Ok (rjust width (str_of_int n)).
Proof. unfold format_int, py_str. now intros ->. Qed.

Lemma format_int_raise width n e : format_int width n = Raise e -> e = ValueError.
Proof. unfold format_int, py_str. destruct (fits n); cbn; congruence. Qed.

Lemma py_format_ok width v cell : py_format width v = Ok cell -> bounded v = true.
Proof.
  destruct v; cbn [py_format bounded]; try discriminate;
    try (intros _; reflexivity).
  apply format_int_ok.
Qed.

Lemma breakdown_row_ok label total sast sca dast row :
  breakdown_row label total sast sca dast = Ok row ->
  fits total = true
  /\ match sast with Some n => fits n = true | None => True end
  /\ bounded sca = true /\ fits dast = true.
Proof.
  unfold breakdown_row.
  destruct (format_int 8 total) as [c1|] eqn:E1; [|discriminate].
  apply format_int_ok in E1. cbn [rbind].
  assert (S : forall c, match sast with
                        | Some n => format_int 8 n
                        | None => Ok (rjust 8 "-")
                        end = Ok c ->
                        match sast with Some n => fits n = true | None => True end).
  { destruct sast; [intros c; apply format_int_ok|easy]. }
  destruct (match sast with Some n => format_int 8 n | None => _ end) as [c2|];
    [|discriminate].
  specialize (S c2 eq_refl). cbn [rbind].
  destruct (py_format 8 sca) as [c3|] eqn:E3; [|discriminate].
  apply py_format_ok in E3. cbn [rbind].
  destruct (format_int 8 dast) as [c4|] eqn:E4; [|discriminate].
  apply format_int_ok in E4. now intros _.
Qed.

Lemma bounded_strings l : forallb bounded (map PStr l) = true.
Proof. induction l; [reflexivity|exact IHl]. Qed.

(** The summary holds no integer that the first table has not formatted. *)
Lemma breakdown_bounded f t lines failures :
  breakdown f t = Ok lines -> bounded (make_summary f t failures) = true.
Proof.
  unfold breakdown.
  destruct (breakdown_row _ (critical t) _ _ _) as [r1|] eqn:R1; [|discriminate].
  destruct (breakdown_row _ (high t) _ _ _) as [r2|] eqn:R2; [|discriminate].
  destruct (breakdown_row _ (medium t) _ _ _) as [r3|] eqn:R3; [|discriminate].
  destruct (breakdown_row _ (low t) _ _ _) as [r4|] eqn:R4; [|discriminate].
  cbn [rbind].
  destruct (format_int 8 _) as [c|] eqn:T; [|discriminate]. intros _.
  apply format_int_ok in T.
  apply breakdown_row_ok in R1, R2, R3, R4.
  destruct R1 as (A1 & B1 & C1 & D1), R2 as (A2 & B2 & C2 & D2),
    R3 as (A3 & _ & C3 & D3), R4 as (A4 & _ & C4 & D4).
  cbn [make_summary bounded forallb snd].
  rewrite A1, A2, A3, A4, T, B1, B2, C1, C2, C3, C4, D1, D2, D3, D4,
    bounded_strings.
  reflexivity.
Qed.

Lemma tables_bounded f t lines failures :
  tables f t = Ok lines -> bounded (make_summary f t failures) = true.
Proof.
  unfold tables. destruct (breakdown f t) as [first|] eqn:B; [|discriminate].
  intros _. now apply (breakdown_bounded f t first).
Qed.

(** Formatting raises nothing but the [ValueError] of the limit, and a
    [TypeError] on a count that is no number. *)
Lemma breakdown_row_raise label total sast sca dast e :
  breakdown_row label total sast sca dast = Raise e ->
  e = ValueError \/ (e = TypeError /\ int_value sca = None).
Proof.
  unfold breakdown_row.
  destruct (format_int 8 total) as [c1|e1] eqn:E1; cbn [rbind].
  2:{ intros [= <-]. left. now apply format_int_raise in E1. }
  destruct (match sast with Some n => format_int 8 n | None => _ end)
    as [c2|e2] eqn:E2; cbn [rbind].
  2:{ intros [= <-]. left. destruct sast; [|discriminate].
      now apply format_int_raise in E2. }
  destruct (py_format 8 sca) as [c3|e3] eqn:E3; cbn [rbind].
  2:{ intros [= <-]. destruct sca; cbn in E3 |- *; try discriminate;
        first [ left; now apply format_int_raise in E3
              | right; split; congruence ]. }
  destruct (format_int 8 dast) as [c4|e4] eqn:E4; cbn [rbind]; [discriminate|].
  intros [= <-]. left. now apply format_int_raise in E4.
Qed.

Lemma threshold_row_ok label total threshold :
  fits total = true -> fits threshold = true ->
  threshold_row label total threshold
  = Ok (label +:+ rjust 3 (str_of_int total) +:+ " / " +:+
        rjust 3 (str_of_int threshold) +:+ " allowed  " +:+
        (if total <=? threshold then "✅ PASS" else "❌ FAIL")).
Proof.
  intros A B. unfold threshold_row. now rewrite !format_int_fits.
Qed.

(** The second table formats the totals again: it is printed whenever the
    first is. *)
Lemma tables_run f t :
  totals_of f = Ok t ->
  tables f t =
    match breakdown f t with
    | Ok first =>
        match threshold_table t with
        | Ok second => Ok (first ++ second)
        | Raise e => Raise e
        end
    | Raise e => Raise e
    end
  /\ (forall first, breakdown f t = Ok first ->
      exists second, threshold_table t = Ok second)
  /\ (forall e, breakdown f t = Raise e -> e = ValueError).
Proof.
  intros T. split; [|split].
  - unfold tables. destruct (breakdown f t); [|reflexivity].
    cbn [rbind]. now destruct (threshold_table t).
  - intros first B. pose proof (breakdown_bounded f t first [] B) as S.
    cbn [make_summary bounded forallb snd] in S.
    repeat (apply andb_prop in S; destruct S as [? S]).
    unfold threshold_table, threshold_rows.
    cbn [thresholds critical high medium low].
    rewrite !threshold_row_ok by (assumption || reflexivity).
    cbn [rbind]. eauto.
  - intros e B.
    destruct (totals_of_ok f t T) as (c & h & m & l & Ec & Eh & Em & El & _).
    unfold breakdown in B.
    repeat match type of B with
           | rbind (breakdown_row ?a ?b ?c ?d ?x) _ = _ =>
               destruct (breakdown_row a b c d x) as [?r|?e] eqn:?R;
               cbn [rbind] in B;
               [|injection B as <-;
                 match goal with
                 | R : breakdown_row _ _ _ _ _ = Raise _ |- _ =>
                     apply breakdown_row_raise in R;
                     destruct R as [R|[_ R]]; [exact R|congruence]
                 end]
           end.
    destruct (format_int 8 _) as [?|?] eqn:F; [discriminate|].
    cbn [rbind] in B. injection B as <-. now apply format_int_raise in F.
Qed.

(** ** The run *)

(** What [main] does once the counts are collected. *)
Lemma main_run fs tr f evs :
  collect (State fs tr) = (Ok f, State fs (tr ++ evs)) ->
  main (State fs tr) =
    match totals_of f with
    | Raise e => (Raise e, State fs (tr ++ evs))
    | Ok t =>
        match tables f t with
        | Raise e => (Raise e, State fs (tr ++ evs))
        | Ok _ =>
            match fs !! output_file with
            | Some Unreadable => (Raise OSError, State fs (tr ++ evs))
            | _ =>
                (Ok (match check_thresholds t with [] => 0 | _ :: _ => 1 end),
                 State (<[output_file :=
                            Text (json_dumps 0
                                    (make_summary f t (check_thresholds t)))]> fs)
                       (tr ++ evs))
            end
        end
    end.
Proof.
  intros C. unfold main. rewrite (bind_ok _ _ _ _ _ C).
  unfold bind, lift, write_text. cbn [files trace].
  destruct (totals_of f) as [t|e]; [|reflexivity].
  destruct (tables f t); [|reflexivity].
  destruct (fs !! output_file) as [[]|]; destruct (check_thresholds t); reflexivity.
Qed.

Lemma collect_total fs tr :
  exists f evs, collect (State fs tr) = (Ok f, State fs (tr ++ evs)).
Proof. destruct (runs_collect fs tr) as (f & evs & E & _). eauto. Qed.

Lemma check_thresholds_empty t :
  check_thresholds t = []
  <-> critical t <= 0 /\ high t <= 0 /\ medium t <= 0 /\ low t <= 0.
Proof.
  unfold check_thresholds. cbn [thresholds critical high medium low].
  destruct (Z.gtb_spec (critical t) 0), (Z.gtb_spec (high t) 0),
    (Z.gtb_spec (medium t) 0), (Z.gtb_spec (low t) 0);
    cbn; split; intros X; try discriminate; try lia; reflexivity.
Qed.

(** C6: the exit status is 0 or 1.  It is 0 exactly when the gate passed
    (the run reached the verdict with no failure), and 1 exactly when the
    gate failed or the run was cut short by an exception. *)
Theorem exit_status st :
  (fst (script st) = 0 \/ fst (script st) = 1)
  /\ (fst (script st) = 0 <-> gate_passed st)
  /\ (fst (script st) = 1 <-> gate_failed st \/ fatal_error st).
Proof.
  destruct st as [fs tr].
  destruct (collect_total fs tr) as (f & evs & C).
  pose proof (main_run fs tr f evs C) as R.
  unfold script, gate_passed, gate_failed, fatal_error, computed.
  rewrite C. rewrite R. clear R.
  destruct (totals_of f) as [t|e]; [destruct (tables f t) as [lines|e]|].
  - destruct (fs !! output_file) as [[]|] eqn:O;
      destruct (check_thresholds t) eqn:K; cbn [fst];
      (split; [auto|split; split]);
      try discriminate;
      try (intros _; eauto 10; fail);
      try (intros _; left; eexists _, _, _, _; repeat split; congruence);
      try (intros (? & ? & ? & ? & ? & ? & ?); congruence);
      try (intros [(? & ? & ? & ? & ? & ? & ?)|(? & ? & ?)]; congruence).
  - cbn [fst]. split; [auto|split; split]; try discriminate.
    + intros (? & ? & ? & ? & ? & ? & ?). congruence.
    + intros _. right. eauto.
    + reflexivity.
  - cbn [fst]. split; [auto|split; split]; try discriminate.
    + intros (? & ? & ? & ? & ? & ? & ?). congruence.
    + intros _. right. eauto.
    + reflexivity.
Qed.

(** What a run that returns has computed and written. *)
Lemma main_returns st code st' :
  main st = (Ok code, st') ->
  exists f t,
    computed st = Some (f, t)
    /\ code = match check_thresholds t with [] => 0 | _ :: _ => 1 end
    /\ files st' !! output_file
       = Some (Text (json_dumps 0 (make_summary f t (check_thresholds t))))
    /\ bounded (make_summary f t (check_thresholds t)) = true.
Proof.
  destruct st as [fs tr]. intros R.
  destruct (collect_total fs tr) as (f & evs & C).
  rewrite (main_run fs tr f evs C) in R. unfold computed. rewrite C.
  destruct (totals_of f) as [t|e]; [|discriminate].
  destruct (tables f t) as [lines|e] eqn:B; [|discriminate].
  exists f, t. split; [reflexivity|].
  pose proof (tables_bounded f t lines (check_thresholds t) B).
  destruct (fs !! output_file) as [[]|]; try discriminate;
    injection R as <- <-; cbn [files]; now rewrite lookup_insert_eq.
Qed.

(** C9: the summary file, parsed again, gives the summary that the run
    computed, and so its four totals, its overall total and its [passed]
    value. *)
Theorem summary_round_trip st code st' :
  main st = (Ok code, st') ->
  exists f t,
    computed st = Some (f, t)
    /\ written_summary st' = Some (make_summary f t (check_thresholds t))
    /\ exists doc,
         written_summary st' = Some doc
         /\ field ["total_critical"] doc = Some (PInt (critical t))
         /\ field ["total_high"] doc = Some (PInt (high t))
         /\ field ["total_medium"] doc = Some (PInt (medium t))
         /\ field ["total_low"] doc = Some (PInt (low t))
         /\ field ["total"] doc
            = Some (PInt (critical t + high t + medium t + low t))
         /\ field ["passed"] doc
            = Some (PBool (length (check_thresholds t) =? 0)%nat).
Proof.
  intros R. destruct (main_returns st code st' R) as (f & t & C & _ & W & B).
  exists f, t. split; [exact C|].
  assert (E : written_summary st' = Some (make_summary f t (check_thresholds t))).
  { unfold written_summary. rewrite W. now apply json_loads_dumps. }
  split; [exact E|].
  exists (make_summary f t (check_thresholds t)).
  split; [exact E|]. repeat split; reflexivity.
Qed.

(** C9 on a directory with one count file. *)
Lemma summary_round_trip_witness :
  let st := State {[ "dast-results/dast-critical.txt"%string := Text "2" ]} [] in
  main st = (Ok 1, snd (main st))
  /\ exists f t,
       computed st = Some (f, t)
       /\ written_summary (snd (main st))
          = Some (make_summary f t (check_thresholds t)).
Proof.
  cbv zeta.
  assert (R : main (State {[ "dast-results/dast-critical.txt"%string := Text "2" ]} [])
              = (Ok 1, snd (main (State
                   {[ "dast-results/dast-critical.txt"%string := Text "2" ]} []))))
    by (vm_compute; reflexivity).
  split; [exact R|].
  destruct (summary_round_trip _ _ _ R) as (f & t & C & W & _).
  exists f, t. split; [exact C|exact W].
Defined.

(** ** Totals *)

(** C2: in the summary of every run, each total is the sum of the counts
    of the three categories for that severity, the SAST counts of medium
    and low being 0. *)
Theorem totals_are_sums st summary :
  summary_of st = Some summary ->
  sums_up summary "critical" /\ sums_up summary "high"
  /\ sums_up summary "medium" /\ sums_up summary "low"
  /\ field ["sast"; "medium"] summary = Some (PInt 0)
  /\ field ["sast"; "low"] summary = Some (PInt 0).
Proof.
  unfold summary_of, computed.
  destruct (collect st) as [[f|e] st1]; [|discriminate].
  destruct (totals_of f) as [t|e] eqn:T; [|discriminate].
  intros [= <-].
  destruct (totals_of_ok f t T) as (c & h & m & l & Ec & Eh & Em & El & ->).
  repeat split.
  - exists (sast_critical f), c, (dast_critical f).
    unfold count_at, total_at. cbn. rewrite Ec. repeat split.
  - exists (sast_high f), h, (dast_high f).
    unfold count_at, total_at. cbn. rewrite Eh. repeat split.
  - exists 0, m, (dast_medium f).
    unfold count_at, total_at. cbn. rewrite Em. repeat split.
  - exists 0, l, (dast_low f).
    unfold count_at, total_at. cbn. rewrite El. repeat split.
Qed.

(** C2 on a directory with SAST and DAST count files and an npm audit
    report. *)
Lemma totals_are_sums_witness :
  let st :=
    State {[ "sast-results/sast-critical.txt"%string := Text "2";
             "sast-results/sast-high.txt"%string := Text "1";
             "sca-results/npm-audit-results.json"%string :=
               Text (json_text
                 "{'metadata': {'vulnerabilities': {'critical': 3, 'moderate': 4}}}");
             "dast-results/dast-critical.txt"%string := Text "5" ]} [] in
  exists summary,
    summary_of st = Some summary
    /\ total_at summary "critical" = Some 10
    /\ total_at summary "medium" = Some 4
    /\ sums_up summary "critical" /\ sums_up summary "medium".
Proof.
  cbv zeta. eexists. split; [vm_compute; reflexivity|].
  split; [reflexivity|]. split; [reflexivity|].
  match goal with
  | |- sums_up ?s _ /\ _ =>
      destruct (totals_are_sums
                  (State {[ "sast-results/sast-critical.txt"%string := Text "2";
                            "sast-results/sast-high.txt"%string := Text "1";
                            "sca-results/npm-audit-results.json"%string :=
                              Text (json_text
                                "{'metadata': {'vulnerabilities': {'critical': 3, 'moderate': 4}}}");
                            "dast-results/dast-critical.txt"%string := Text "5" ]} [])
                  s) as (Hc & _ & Hm & _)
  end.
  - vm_compute. reflexivity.
  - split; assumption.
Defined.

(** ** The gate *)

Lemma failure_message_head c name total threshold :
  failure_message (String c name) total threshold =
    String c (failure_message name total threshold).
Proof. reflexivity. Qed.

(** C1, as amended, for counts that are integers, as all counts of this
    model are: the gate passes exactly when no total exceeds its
    threshold, which for integers is when every total is at most 0.  The
    [passed] field is true exactly when the list of failures is empty, and
    a bucket is in that list exactly when its total is strictly above its
    threshold.  When no total is negative, the gate passes exactly when
    every total is 0. *)
Theorem gate_passes_iff_no_total_exceeds f t :
  totals_of f = Ok t ->
  let failures := check_thresholds t in
  let summary := make_summary f t failures in
  (field ["passed"] summary = Some (PBool true) <-> failures = [])
  /\ (failures = [] <->
        critical t <= critical thresholds /\ high t <= high thresholds
        /\ medium t <= medium thresholds /\ low t <= low thresholds)
  /\ (failures = [] <-> Forall (fun b => exceeds b = false) (buckets t))
  /\ thresholds = Counts 0 0 0 0
  /\ Forall (fun '(name, total, threshold) =>
               In (failure_message name total threshold) failures
               <-> threshold < total)
            (buckets t)
  /\ (0 <= critical t -> 0 <= high t -> 0 <= medium t -> 0 <= low t ->
      (failures = [] <->
         critical t = 0 /\ high t = 0 /\ medium t = 0 /\ low t = 0)).
Proof.
  intros _ failures summary. subst failures summary.
  split; [|split; [|split; [|split; [|split]]]].
  - cbn. destruct (check_thresholds t); cbn; split; congruence.
  - apply check_thresholds_empty.
  - rewrite check_thresholds_empty. unfold buckets.
    cbn [thresholds critical high medium low].
    rewrite !List.Forall_cons_iff. cbn [exceeds].
    destruct (Z.gtb_spec (critical t) 0), (Z.gtb_spec (high t) 0),
      (Z.gtb_spec (medium t) 0), (Z.gtb_spec (low t) 0);
      split; intros X; repeat split; try lia; try apply List.Forall_nil;
      destruct X as (? & ? & ? & ? & ?); discriminate.
  - reflexivity.
  - unfold buckets, check_thresholds.
    cbn [thresholds critical high medium low].
    destruct (Z.gtb_spec (critical t) 0), (Z.gtb_spec (high t) 0),
      (Z.gtb_spec (medium t) 0), (Z.gtb_spec (low t) 0);
      cbn [app In];
      repeat (apply List.Forall_cons; [split|]); try apply List.Forall_nil;
      try (intros ?; lia);
      try (intros _; tauto);
      rewrite ?failure_message_head; intros X;
      repeat (destruct X as [X|X]; try discriminate X); try lia;
      try contradiction.
  - intros. rewrite check_thresholds_empty. lia.
Qed.

(** C1, as amended, on counts with three exceeded buckets. *)
Lemma gate_passes_iff_no_total_exceeds_witness :
  let f := Findings 1 0 (PInt 0) (PBool true) (PInt 0) (PInt 0) 0 0 2 0 in
  let t := Counts 1 1 2 0 in
  totals_of f = Ok t
  /\ check_thresholds t <> []
  /\ (check_thresholds t = [] <->
        critical t <= critical thresholds /\ high t <= high thresholds
        /\ medium t <= medium thresholds /\ low t <= low thresholds).
Proof.
  cbv zeta. split; [reflexivity|]. split; [discriminate|].
  apply (gate_passes_iff_no_total_exceeds
           (Findings 1 0 (PInt 0) (PBool true) (PInt 0) (PInt 0) 0 0 2 0)
           (Counts 1 1 2 0)).
  reflexivity.
Defined.

(** C1 as it was stated does not hold: here the gate passes and the total
    of critical findings is -1, not 0. *)
Lemma gate_passes_with_a_negative_total :
  let st := State {[ "sast-results/sast-critical.txt"%string := Text "-1" ]} [] in
  fst (script st) = 0
  /\ (summary_of st ≫= field ["total_critical"]) = Some (PInt (-1))
  /\ (summary_of st ≫= field ["passed"]) = Some (PBool true)
  /\ (summary_of st ≫= field ["failures"]) = Some (PList []).
Proof. cbv zeta. repeat split; vm_compute; reflexivity. Qed.

(** ** The ZAP report *)

Lemma add_counts_zero c : add_counts c zero_counts = c.
Proof. destruct c. unfold add_counts. cbn. f_equal; lia. Qed.

Lemma add_counts_zero_l c : add_counts zero_counts c = c.
Proof. destruct c. reflexivity. Qed.

Lemma add_counts_assoc a b c :
  add_counts (add_counts a b) c = add_counts a (add_counts b c).
Proof. unfold add_counts. cbn. f_equal; lia. Qed.

Lemma add_counts_comm a b : add_counts a b = add_counts b a.
Proof. unfold add_counts. f_equal; lia. Qed.

Lemma occurrences_app k a b :
  occurrences k (a ++ b) = occurrences k a + occurrences k b.
Proof.
  unfold occurrences. rewrite List.filter_app, List.length_app. lia.
Qed.

Lemma tally_app a b : tally (a ++ b) = add_counts (tally a) (tally b).
Proof. unfold tally, add_counts. cbn. now rewrite !occurrences_app. Qed.

Lemma for_each_app {A : Type} (body : A -> pyval -> result A) l1 l2 acc :
  for_each body (l1 ++ l2) acc = rbind (for_each body l1 acc) (for_each body l2).
Proof.
  revert acc. induction l1 as [|x l1 IH]; intros acc; [reflexivity|].
  cbn [app for_each]. destruct (body acc x); [apply IH|reflexivity].
Qed.

(** What one alert adds, by its risk code. *)
Lemma zap_alert_riskcode acc alert code :
  alert_with code alert ->
  zap_alert acc alert = Ok (add_counts acc (tally [code])).
Proof.
  intros (d & v & -> & L & R). unfold zap_alert. cbn [py_get]. rewrite L.
  cbn [rbind].
  assert (I : py_int v = Ok code) by (destruct R; [reflexivity|assumption|reflexivity]).
  rewrite I. cbn [rbind]. f_equal.
  unfold tally, occurrences. cbn [List.filter].
  destruct acc as [c h m l]. unfold add_counts. cbn [critical high medium low].
  destruct (Z.eqb_spec code 3) as [->|N3]; [cbn; f_equal; lia|].
  destruct (Z.eqb_spec code 2) as [->|N2]; [cbn; f_equal; lia|].
  destruct (Z.eqb_spec code 1) as [->|N1]; [cbn; f_equal; lia|].
  destruct (Z.eqb_spec code 0) as [->|N0]; [cbn; f_equal; lia|].
  destruct (Z.eqb_spec 3 code); [lia|].
  destruct (Z.eqb_spec 2 code); [lia|].
  destruct (Z.eqb_spec 1 code); [lia|].
  destruct (Z.eqb_spec 0 code); [lia|].
  cbn. f_equal; lia.
Qed.

Lemma zap_alerts_riskcodes codes alerts :
  Forall2 alert_with codes alerts ->
  forall acc, for_each zap_alert alerts acc = Ok (add_counts acc (tally codes)).
Proof.
  induction 1 as [|code alert codes alerts A F IH]; intros acc.
  - cbn. now rewrite add_counts_zero.
  - cbn [for_each]. rewrite (zap_alert_riskcode acc alert code A). cbn [rbind].
    rewrite IH, add_counts_assoc. f_equal. f_equal.
    change (code :: codes) with ([code] ++ codes). now rewrite tally_app.
Qed.

Lemma zap_site_riskcodes acc site codes :
  site_with codes site ->
  zap_site acc site = Ok (add_counts acc (tally codes)).
Proof.
  intros (d & alerts & -> & L & F). unfold zap_site. cbn [py_get]. rewrite L.
  cbn [rbind py_iter]. now apply zap_alerts_riskcodes.
Qed.

Lemma zap_sites_riskcodes codes sites :
  Forall2 site_with codes sites ->
  forall acc,
    for_each zap_site sites acc = Ok (add_counts acc (tally (concat codes))).
Proof.
  induction 1 as [|cs site codes sites S F IH]; intros acc.
  - cbn. now rewrite add_counts_zero.
  - cbn [for_each concat]. rewrite (zap_site_riskcodes acc site cs S).
    cbn [rbind]. now rewrite IH, add_counts_assoc, tally_app.
Qed.

(** *** An alert without a risk code *)

Lemma zap_alert_shift acc alert r delta :
  zap_alert acc alert = Ok r ->
  zap_alert (add_counts acc delta) alert = Ok (add_counts r delta).
Proof.
  unfold zap_alert.
  destruct (py_get alert "riskcode" (PInt 0)) as [rc|]; [|discriminate].
  cbn [rbind]. destruct (py_int rc) as [code|]; [|discriminate].
  cbn [rbind]. intros [= <-]. f_equal.
  destruct (code =? 3), (code =? 2), (code =? 1), (code =? 0);
    unfold add_counts; cbn [critical high medium low]; f_equal; lia.
Qed.

Lemma for_each_shift (body : counts Z -> pyval -> result (counts Z)) :
  (forall acc x r delta,
     body acc x = Ok r -> body (add_counts acc delta) x = Ok (add_counts r delta)) ->
  forall items acc r delta,
    for_each body items acc = Ok r ->
    for_each body items (add_counts acc delta) = Ok (add_counts r delta).
Proof.
  intros B. induction items as [|x items IH]; intros acc r delta.
  - cbn. now intros [= <-].
  - cbn [for_each]. destruct (body acc x) as [r1|] eqn:E; [|discriminate].
    cbn [rbind]. intros R. rewrite (B _ _ _ delta E). cbn [rbind]. now apply IH.
Qed.

Lemma zap_site_shift acc site r delta :
  zap_site acc site = Ok r ->
  zap_site (add_counts acc delta) site = Ok (add_counts r delta).
Proof.
  unfold zap_site.
  destruct (py_get site "alerts" (PList [])) as [alerts|]; [|discriminate].
  cbn [rbind]. destruct (py_iter alerts) as [items|]; [|discriminate].
  cbn [rbind]. apply for_each_shift. exact zap_alert_shift.
Qed.

Lemma zap_alert_without_riskcode d acc :
  dict_lookup "riskcode" d = None ->
  zap_alert acc (PDict d) = Ok (add_counts acc one_low).
Proof.
  intros L. unfold zap_alert. cbn [py_get]. rewrite L. cbn.
  unfold add_counts. cbn. f_equal. f_equal; lia.
Qed.

Lemma for_each_insert (body : counts Z -> pyval -> result (counts Z)) x delta :
  (forall acc y r d,
     body acc y = Ok r -> body (add_counts acc d) y = Ok (add_counts r d)) ->
  (forall acc, body acc x = Ok (add_counts acc delta)) ->
  forall before after acc r,
    for_each body (before ++ after) acc = Ok r ->
    for_each body (before ++ x :: after) acc = Ok (add_counts r delta).
Proof.
  intros B X before after acc r. rewrite !for_each_app.
  destruct (for_each body before acc) as [r1|]; [|discriminate].
  cbn [rbind for_each]. intros R. rewrite X. cbn [rbind].
  now apply for_each_shift.
Qed.

(** C10: an alert that has no [riskcode] field is counted as a low
    finding: the loop adds one to [low] for it, and a report with such an
    alert has one more low finding, and nothing else changed, than the
    same report without that alert. *)
Theorem missing_riskcode_counts_as_low d :
  dict_lookup "riskcode" d = None ->
  (forall acc,
     zap_alert acc (PDict d)
     = Ok (Counts (critical acc) (high acc) (medium acc) (low acc + 1)))
  /\ (forall report report' site site'
             sites_before sites_after alerts_before alerts_after c,
        dict_lookup "site" report
          = Some (PList (sites_before ++ PDict site :: sites_after)) ->
        dict_lookup "alerts" site
          = Some (PList (alerts_before ++ PDict d :: alerts_after)) ->
        dict_lookup "site" report'
          = Some (PList (sites_before ++ PDict site' :: sites_after)) ->
        dict_lookup "alerts" site' = Some (PList (alerts_before ++ alerts_after)) ->
        zap_counts (PDict report') = Ok c ->
        zap_counts (PDict report)
        = Ok (Counts (critical c) (high c) (medium c) (low c + 1))).
Proof.
  intros L.
  assert (E : forall c,
            add_counts c one_low
            = Counts (critical c) (high c) (medium c) (low c + 1)).
  { intros c. unfold add_counts. cbn. f_equal; lia. }
  split.
  - intros acc. rewrite <- E. now apply zap_alert_without_riskcode.
  - intros report report' site site' sb sa ab aa c S A S' A'.
    unfold zap_counts. cbn [py_get]. rewrite S, S'. cbn [rbind py_iter].
    rewrite !for_each_app.
    destruct (for_each zap_site sb zero_counts) as [r1|]; [|discriminate].
    cbn [rbind for_each].
    destruct (zap_site r1 (PDict site')) as [r2|] eqn:Z'; [|discriminate].
    cbn [rbind]. intros R.
    assert (Z : zap_site r1 (PDict site) = Ok (add_counts r2 one_low)).
    { revert Z'. unfold zap_site. cbn [py_get]. rewrite A, A'.
      cbn [rbind py_iter]. apply for_each_insert.
      - exact zap_alert_shift.
      - intros acc. now apply zap_alert_without_riskcode. }
    rewrite Z. cbn [rbind]. rewrite <- E.
    apply for_each_shift; [exact zap_site_shift|exact R].
Qed.

(** C10 on an alert that only has a name. *)
Lemma missing_riskcode_counts_as_low_witness :
  let fs : gmap string file :=
    {[ "dast-results/zap-report.json"%string :=
         Text (json_text "{'site': [{'alerts': [{'riskcode': '2'}, {'name': 'x'}]}]}") ]} in
  dict_lookup "riskcode" [("name"%string, PStr "x")] = None
  /\ zap_alert (Counts 0 1 0 0) (PDict [("name"%string, PStr "x")])
     = Ok (Counts 0 1 0 1)
  /\ fst (parse_zap_results "dast-results/zap-report.json" (State fs []))
     = Ok (Counts 0 1 0 1).
Proof.
  cbv zeta. split; [reflexivity|]. split.
  - apply (missing_riskcode_counts_as_low [("name"%string, PStr "x")]).
    reflexivity.
  - vm_compute. reflexivity.
Defined.

(** ** The sign of the counts *)

Lemma count_if_nonneg cond items n : count_if cond items = Ok n -> 0 <= n.
Proof.
  revert n. induction items as [|x items IH]; intros n; cbn [count_if].
  - intros [= <-]. lia.
  - destruct (cond x) as [b|]; [|discriminate]. cbn [rbind].
    destruct (count_if cond items) as [m|]; [|discriminate]. cbn [rbind].
    intros [= <-]. specialize (IH m eq_refl). destruct b; lia.
Qed.

Lemma semgrep_counts_nonneg data c h :
  semgrep_counts data = Ok (c, h) -> 0 <= c /\ 0 <= h.
Proof.
  unfold semgrep_counts.
  destruct (py_get data "results" (PList [])) as [results|]; [|discriminate].
  cbn [rbind]. destruct (py_iter results) as [items|]; [|discriminate].
  cbn [rbind].
  destruct (count_if (severity_is "ERROR") items) as [c'|] eqn:C; [|discriminate].
  cbn [rbind].
  destruct (count_if (severity_is "WARNING") items) as [h'|] eqn:H; [|discriminate].
  cbn [rbind]. intros [= <- <-].
  split; eapply count_if_nonneg; eassumption.
Qed.

Lemma for_each_invariant {A : Type} (P : A -> Prop)
    (body : A -> pyval -> result A) :
  (forall acc x r, P acc -> body acc x = Ok r -> P r) ->
  forall items acc r, P acc -> for_each body items acc = Ok r -> P r.
Proof.
  intros B. induction items as [|x items IH]; intros acc r Pa; cbn [for_each].
  - now intros [= <-].
  - destruct (body acc x) as [r1|] eqn:E; [|discriminate]. cbn [rbind].
    apply IH. eapply B; eassumption.
Qed.

Lemma zap_alert_nonneg acc alert r :
  non_negative acc -> zap_alert acc alert = Ok r -> non_negative r.
Proof.
  unfold zap_alert, non_negative.
  destruct (py_get alert "riskcode" (PInt 0)) as [rc|]; [|discriminate].
  cbn [rbind]. destruct (py_int rc) as [code|]; [|discriminate].
  cbn [rbind]. intros N [= <-].
  destruct (code =? 3), (code =? 2), (code =? 1), (code =? 0);
    cbn [critical high medium low]; lia.
Qed.

Lemma zap_site_nonneg acc site r :
  non_negative acc -> zap_site acc site = Ok r -> non_negative r.
Proof.
  unfold zap_site.
  destruct (py_get site "alerts" (PList [])) as [alerts|]; [|discriminate].
  cbn [rbind]. destruct (py_iter alerts) as [items|]; [|discriminate].
  cbn [rbind]. intros N. apply for_each_invariant; [exact zap_alert_nonneg|exact N].
Qed.

Lemma zap_counts_nonneg data c : zap_counts data = Ok c -> non_negative c.
Proof.
  unfold zap_counts.
  destruct (py_get data "site" (PList [])) as [sites|]; [|discriminate].
  cbn [rbind]. destruct (py_iter sites) as [items|]; [|discriminate].
  cbn [rbind]. apply for_each_invariant; [exact zap_site_nonneg|].
  unfold non_negative. cbn. lia.
Qed.

Lemma rbind_ok {A B : Type} (r : result A) (k : A -> result B) b :
  rbind r k = Ok b -> exists a, r = Ok a /\ k a = Ok b.
Proof. destruct r as [a|]; [|discriminate]. cbn. eauto. Qed.

Lemma parse_semgrep_results_nonneg p fs tr c h st' :
  parse_semgrep_results p (State fs tr) = (Ok (c, h), st') -> 0 <= c /\ 0 <= h.
Proof.
  rewrite parse_semgrep_results_run.
  destruct (rbind (load fs p) semgrep_counts) as [[c' h']|] eqn:E.
  - intros [= <- <- _]. apply rbind_ok in E as (data & _ & E).
    now apply (semgrep_counts_nonneg data).
  - intros [= <- <- _]. lia.
Qed.

Lemma parse_zap_results_nonneg p fs tr c st' :
  parse_zap_results p (State fs tr) = (Ok c, st') -> non_negative c.
Proof.
  rewrite parse_zap_results_run.
  destruct (rbind (load fs p) zap_counts) as [c'|] eqn:E.
  - intros [= <- _]. apply rbind_ok in E as (data & _ & E).
    now apply (zap_counts_nonneg data).
  - intros [= <- _]. unfold non_negative. cbn. lia.
Qed.

Lemma py_strip_str_of_int n : py_strip (str_of_int n) = str_of_int n.
Proof.
  unfold py_strip. destruct n as [|p|p].
  - reflexivity.
  - now rewrite str_of_int_pos, lstrip_digits, rstrip_digits.
  - rewrite str_of_int_neg.
    change (lstrip (String "-" ?s)) with (String "-" s).
    cbn [rstrip]. rewrite rstrip_digits.
    pose proof (DecimalPos.Unsigned.to_uint_nonnil p).
    destruct (Pos.to_uint p); try congruence; reflexivity.
Qed.

Lemma str_of_int_nonempty n : str_of_int n <> EmptyString.
Proof.
  pose proof (str_of_int_head n EmptyString) as H. rewrite append_empty in H.
  now destruct (str_of_int n).
Qed.

Lemma count_of_str_of_int n d :
  count_of (str_of_int n) d = if fits n then Ok n else Raise ValueError.
Proof.
  unfold count_of. pose proof (int_of_str_str_of_int n) as I.
  pose proof (str_of_int_nonempty n). now destruct (str_of_int n).
Qed.

(** [read_count] gives the integer that the file holds, whatever its
    sign, when it has no more digits than the limit. *)
Lemma read_count_str_of_int p d fs tr n :
  fits n = true ->
  fs !! p = Some (Text (str_of_int n)) ->
  read_count p d (State fs tr) = (Ok n, State fs (tr ++ [Opened p])).
Proof.
  intros F E. rewrite read_count_run, E. cbn [open_read].
  now rewrite py_strip_str_of_int, count_of_str_of_int, F.
Qed.

(** Beyond the limit [int] raises, and [read_count] gives the default. *)
Lemma read_count_beyond_the_limit p d fs tr n :
  fits n = false ->
  fs !! p = Some (Text (str_of_int n)) ->
  read_count p d (State fs tr)
  = (Ok d, State fs (tr ++ [Opened p; Warning_invalid_content p ValueError])).
Proof.
  intros F E. rewrite read_count_run, E. cbn [open_read].
  now rewrite py_strip_str_of_int, count_of_str_of_int, F.
Qed.

(** What [collect] returns, category by category. *)
Lemma collect_run fs tr f st' :
  collect (State fs tr) = (Ok f, st') ->
  exists tr1 tr2 st3 sast sca dast,
    collect_sast (State fs tr) = (Ok sast, State fs tr1)
    /\ collect_sca (State fs tr1) = (Ok sca, State fs tr2)
    /\ collect_dast (State fs tr2) = (Ok dast, st3)
    /\ sast_critical f = fst sast /\ sast_high f = snd sast
    /\ dast_critical f = critical dast /\ dast_high f = high dast
    /\ dast_medium f = medium dast /\ dast_low f = low dast.
Proof.
  unfold collect, bind.
  assert (S : runs (fun _ => True) collect_sast).
  { intros fs0 tr0. rewrite collect_sast_run.
    destruct (fs0 !! "sast-results/sast-critical.txt").
    - eapply runs_weaken; [|apply (runs_sast_count_files "")]; easy.
    - destruct (fs0 !! "sast-results/semgrep-results.json");
        [apply runs_parser|apply runs_ret]. }
  assert (C : runs (fun _ => True) collect_sca).
  { intros fs0 tr0. rewrite collect_sca_run.
    destruct (fs0 !! "sca-results/sca-critical.txt").
    - eapply runs_weaken; [|apply (runs_sca_count_files "")]; easy.
    - destruct (fs0 !! "sca-results/npm-audit-results.json");
        [apply runs_parser|apply runs_ret]. }
  destruct (S fs tr) as (sast & e1 & Es & _).
  destruct (C fs (tr ++ e1)) as (sca & e2 & Ec & _).
  rewrite Es, Ec.
  destruct (collect_dast (State fs ((tr ++ e1) ++ e2))) as [[dast|e] st3] eqn:D;
    [|discriminate].
  cbn [ret]. intros [= <- <-].
  exists (tr ++ e1), ((tr ++ e1) ++ e2), st3, sast, sca, dast.
  repeat split; assumption.
Qed.

(** C8, as amended: the counts that the Semgrep and ZAP parsers return are
    non-negative, and so are the SAST and DAST counts of a run in which
    the category has no critical count file.  A count file gives the
    integer written in it, whatever its sign, when the integer has no more
    digits than the limit of [int]; beyond the limit it gives the default
    and a warning.  In a run that reaches the totals the four SCA counts
    are numbers. *)
Theorem parser_counts_are_non_negative :
  (forall p fs tr c h st',
     parse_semgrep_results p (State fs tr) = (Ok (c, h), st') -> 0 <= c /\ 0 <= h)
  /\ (forall p fs tr c st',
        parse_zap_results p (State fs tr) = (Ok c, st') -> non_negative c)
  /\ (forall fs tr f st',
        collect (State fs tr) = (Ok f, st') ->
        (fs !! "sast-results/sast-critical.txt" = None ->
         0 <= sast_critical f /\ 0 <= sast_high f)
        /\ (fs !! "dast-results/dast-critical.txt" = None ->
            0 <= dast_critical f /\ 0 <= dast_high f
            /\ 0 <= dast_medium f /\ 0 <= dast_low f))
  /\ (forall p d fs tr n,
        fits n = true ->
        fs !! p = Some (Text (str_of_int n)) ->
        read_count p d (State fs tr) = (Ok n, State fs (tr ++ [Opened p])))
  /\ (forall p d fs tr n,
        fits n = false ->
        fs !! p = Some (Text (str_of_int n)) ->
        read_count p d (State fs tr)
        = (Ok d, State fs (tr ++ [Opened p; Warning_invalid_content p ValueError])))
  /\ (forall st f t,
        computed st = Some (f, t) ->
        is_Some (int_value (sca_critical f)) /\ is_Some (int_value (sca_high f))
        /\ is_Some (int_value (sca_medium f)) /\ is_Some (int_value (sca_low f))).
Proof.
  split; [|split; [|split; [|split; [|split]]]].
  - exact parse_semgrep_results_nonneg.
  - exact parse_zap_results_nonneg.
  - intros fs tr f st' C.
    destruct (collect_run fs tr f st' C)
      as (tr1 & tr2 & st3 & sast & sca & dast & S & _ & D
          & -> & -> & -> & -> & -> & ->).
    split.
    + intros N. rewrite collect_sast_run, N in S.
      destruct (fs !! "sast-results/semgrep-results.json").
      * destruct sast as [c h]. now apply parse_semgrep_results_nonneg in S.
      * injection S as <- _. cbn. lia.
    + intros N. rewrite collect_dast_run, N in D.
      destruct (fs !! "dast-results/zap-report.json").
      * now apply parse_zap_results_nonneg in D.
      * injection D as <- _. cbn. lia.
  - exact read_count_str_of_int.
  - exact read_count_beyond_the_limit.
  - intros st f t C. unfold computed in C.
    destruct (collect st) as [[f'|] st1]; [|discriminate].
    destruct (totals_of f') as [t'|] eqn:T; [|discriminate].
    injection C as -> ->.
    destruct (totals_of_ok f t T) as (c & h & m & l & -> & -> & -> & -> & _).
    repeat split; eauto.
Qed.

(** C8 as it was stated does not hold: here a count file holds a negative
    integer, and the DAST count and the total of low findings are -4. *)
Lemma count_file_with_a_negative_integer :
  let st :=
    State {[ "dast-results/dast-critical.txt"%string := Text "0";
             "dast-results/dast-low.txt"%string := Text "-4" ]} [] in
  fst (script st) = 0
  /\ (summary_of st ≫= field ["dast"; "low"]) = Some (PInt (-4))
  /\ (summary_of st ≫= field ["total_low"]) = Some (PInt (-4)).
Proof. cbv zeta. repeat split; vm_compute; reflexivity. Qed.

(** ** The fuel of the JSON scanner

    The scanner never runs out of fuel: what it returns for a text does
    not change when it is given more than twice the length of the text. *)

Lemma skip_ws_length s : (String.length (skip_ws s) <= String.length s)%nat.
Proof.
  induction s as [|c s IH]; [reflexivity|]. cbn [skip_ws].
  destruct (json_isspace c); cbn [String.length]; lia.
Qed.

Lemma expect_length c s r :
  expect c s = Some r -> String.length s = S (String.length r).
Proof.
  destruct s as [|c' s]; [discriminate|]. cbn [expect].
  destruct (Ascii.eqb c' c); [|discriminate]. now intros [= <-].
Qed.

Lemma scan_string_length_below n :
  forall s t r,
    (String.length s <= n)%nat ->
    scan_string s = Some (t, r) -> (String.length r < String.length s)%nat.
Proof.
  induction n as [|n IHn]; intros s t r B.
  { destruct s; [discriminate|cbn in B; lia]. }
  assert (IH : forall s' t' r',
            (String.length s' < String.length s)%nat ->
            scan_string s' = Some (t', r') ->
            (String.length r' < String.length s')%nat).
  { intros s' t' r' L. apply IHn. lia. }
  clear IHn B.
  destruct s as [|c s]; [discriminate|]. cbn [scan_string].
  destruct (Ascii.eqb c dquote); [intros [= <- <-]; cbn; lia|].
  destruct (Ascii.eqb c backslash).
  - destruct s as [|e s]; [discriminate|].
    assert (Simple :
      match simple_escape e, scan_string s with
      | Some c', Some (t0, rest) => Some (String c' t0, rest)
      | _, _ => None
      end = Some (t, r) -> (String.length r < String.length (String c (String e s)))%nat).
    { destruct (simple_escape e); [|discriminate].
      destruct (scan_string s) as [[t0 r0]|] eqn:E; [|discriminate].
      intros [= <- <-]. apply IH in E; cbn [String.length] in *; lia. }
    destruct (Ascii.eqb e "u") eqn:U.
    + apply Ascii.eqb_eq in U. subst e.
      destruct s as [|h1 [|h2 [|h3 [|h4 s]]]]; try exact Simple.
      destruct (unicode_escape h1 h2 h3 h4); [|discriminate].
      destruct (scan_string s) as [[t0 r0]|] eqn:E; [|discriminate].
      intros [= <- <-]. apply IH in E; cbn [String.length] in *; lia.
    + destruct e as [[] [] [] [] [] [] [] []]; try discriminate U; exact Simple.
  - destruct (nat_of_ascii c <? 32)%nat; [discriminate|].
    destruct (scan_string s) as [[t0 r0]|] eqn:E; [|discriminate].
    intros [= <- <-]. apply IH in E; cbn [String.length] in *; lia.
Qed.

Lemma scan_string_length s t r :
  scan_string s = Some (t, r) -> (String.length r < String.length s)%nat.
Proof. now apply (scan_string_length_below (String.length s)). Qed.

Lemma string_literal_length s t r :
  string_literal s = Some (Some (t, r)) ->
  (String.length r + 2 <= String.length s)%nat.
Proof.
  destruct s as [|c s]; [discriminate|]. cbn [string_literal].
  destruct (Ascii.eqb c dquote); [|discriminate].
  intros [= E]. apply scan_string_length in E. cbn [String.length]. lia.
Qed.

Lemma scan_digits_length s :
  (String.length (snd (scan_digits s)) <= String.length s)%nat.
Proof.
  induction s as [|c s IH]; [reflexivity|]. cbn [scan_digits].
  destruct (digit_cons c); [|reflexivity].
  destruct (scan_digits s) as [ds rest]. cbn [snd String.length] in *. lia.
Qed.

Lemma scan_digits_nil s : fst (scan_digits s) = Decimal.Nil -> snd (scan_digits s) = s.
Proof.
  destruct s as [|c s]; [reflexivity|]. cbn [scan_digits].
  destruct (digit_cons c) as [d|] eqn:D; [|reflexivity].
  destruct (scan_digits s) as [ds rest]. cbn [fst].
  destruct c as [[] [] [] [] [] [] [] []]; cbn in D; try discriminate D;
    injection D as <-; discriminate.
Qed.

Lemma scan_number_length s n r :
  scan_number s = Some (n, r) -> (String.length r < String.length s)%nat.
Proof.
  unfold scan_number.
  assert (D : forall t ds rest,
            match t with
            | String "0" r0 => (Decimal.D0 Decimal.Nil, r0)
            | _ => scan_digits t
            end = (ds, rest) ->
            ds <> Decimal.Nil ->
            (String.length rest < String.length t)%nat).
  { intros t ds rest E N.
    assert (G : scan_digits t = (ds, rest) ->
                (String.length rest < String.length t)%nat).
    { intros G. pose proof (scan_digits_length t) as L.
      pose proof (scan_digits_nil t) as Z. rewrite G in L, Z. cbn [fst snd] in L, Z.
      destruct t as [|c t]; [cbn in G; congruence|].
      cbn [scan_digits] in G. destruct (digit_cons c).
      - destruct (scan_digits t) as [ds' rest'] eqn:E'.
        injection G as <- <-. pose proof (scan_digits_length t) as L'.
        rewrite E' in L'. cbn [snd String.length] in *. lia.
      - congruence. }
    destruct t as [|c t]; [exact (G E)|].
    destruct c as [[] [] [] [] [] [] [] []]; try exact (G E).
    injection E as <- <-. cbn. lia. }
  destruct (match s with String "-" r0 => (true, r0) | _ => (false, s) end)
    as [neg t] eqn:Sg.
  assert (T : (String.length t <= String.length s)%nat).
  { destruct s as [|c s]; [injection Sg as <- <-; reflexivity|].
    destruct c as [[] [] [] [] [] [] [] []]; injection Sg as <- <-;
      cbn [String.length]; lia. }
  destruct (match t with
            | String "0" r0 => (Decimal.D0 Decimal.Nil, r0)
            | _ => scan_digits t
            end) as [ds rest] eqn:E.
  destruct ds; try discriminate;
    (destruct (float_follows rest); [discriminate|]);
    (destruct (_ <=? max_str_digits)%nat; [|discriminate]);
    intros [= <- <-];
    (eapply Nat.lt_le_trans; [eapply D; [exact E|discriminate]|exact T]).
Qed.

Lemma literal_length w s r :
  literal w s = Some r -> (String.length r <= String.length s)%nat.
Proof.
  revert s. induction w as [|c w IH]; intros s; cbn [literal].
  - now intros [= <-].
  - destruct (expect c s) as [r0|] eqn:E; [|discriminate].
    intros L. apply IH in L. apply expect_length in E. lia.
Qed.

Lemma literal_shorter c w s r :
  literal (String c w) s = Some r -> (String.length r < String.length s)%nat.
Proof.
  cbn [literal]. destruct (expect c s) as [r0|] eqn:E; [|discriminate].
  intros L. apply literal_length in L. apply expect_length in E. lia.
Qed.

(** One step of [parse_value]. *)
Lemma parse_value_step f s :
  parse_value (S f) s =
    match string_literal s, expect "{" s, expect "[" s with
    | Some (Some (t, rest)), _, _ => Some (PStr t, rest)
    | Some None, _, _ => None
    | None, Some r, _ =>
        match expect "}" (skip_ws r) with
        | Some rest => Some (PDict [], rest)
        | None =>
            match parse_members f (skip_ws r) with
            | Some (kvs, rest) => Some (PDict kvs, rest)
            | None => None
            end
        end
    | None, None, Some r =>
        match expect "]" (skip_ws r) with
        | Some rest => Some (PList [], rest)
        | None =>
            match parse_elements f (skip_ws r) with
            | Some (vs, rest) => Some (PList vs, rest)
            | None => None
            end
        end
    | None, None, None =>
        match literal "null" s, literal "true" s, literal "false" s with
        | Some rest, _, _ => Some (PNone, rest)
        | None, Some rest, _ => Some (PBool true, rest)
        | None, None, Some rest => Some (PBool false, rest)
        | None, None, None =>
            match scan_number s with
            | Some (n, rest) => Some (PInt n, rest)
            | None => None
            end
        end
    end.
Proof. reflexivity. Qed.

(** What the scanner leaves is shorter than what it was given. *)
Lemma parse_length f :
  (forall s v r, parse_value f s = Some (v, r) ->
                 (String.length r < String.length s)%nat)
  /\ (forall s vs r, parse_elements f s = Some (vs, r) ->
                     (String.length r < String.length s)%nat)
  /\ (forall s kvs r, parse_members f s = Some (kvs, r) ->
                      (String.length r < String.length s)%nat).
Proof.
  induction f as [|f (IHv & IHe & IHm)]; [repeat split; discriminate|].
  split; [|split].
  - intros s v r. rewrite parse_value_step.
    destruct (string_literal s) as [[[t rest]|]|] eqn:L.
    { intros [= <- <-]. apply string_literal_length in L. lia. }
    { discriminate. }
    destruct (expect "{" s) as [r0|] eqn:O.
    { apply expect_length in O. pose proof (skip_ws_length r0) as W.
      destruct (expect "}" (skip_ws r0)) as [rest|] eqn:C.
      - intros [= <- <-]. apply expect_length in C. lia.
      - destruct (parse_members f (skip_ws r0)) as [[kvs rest]|] eqn:M; [|discriminate].
        intros [= <- <-]. apply IHm in M. lia. }
    destruct (expect "[" s) as [r0|] eqn:A.
    { apply expect_length in A. pose proof (skip_ws_length r0) as W.
      destruct (expect "]" (skip_ws r0)) as [rest|] eqn:C.
      - intros [= <- <-]. apply expect_length in C. lia.
      - destruct (parse_elements f (skip_ws r0)) as [[vs rest]|] eqn:M; [|discriminate].
        intros [= <- <-]. apply IHe in M. lia. }
    destruct (literal "null" s) as [rest|] eqn:N.
    { intros [= <- <-]. now apply literal_shorter in N. }
    destruct (literal "true" s) as [rest|] eqn:T.
    { intros [= <- <-]. now apply literal_shorter in T. }
    destruct (literal "false" s) as [rest|] eqn:F.
    { intros [= <- <-]. now apply literal_shorter in F. }
    destruct (scan_number s) as [[n rest]|] eqn:Nb; [|discriminate].
    intros [= <- <-]. now apply scan_number_length in Nb.
  - intros s vs r. rewrite parse_elements_step.
    destruct (parse_value f s) as [[v r0]|] eqn:V; [|discriminate].
    apply IHv in V. pose proof (skip_ws_length r0) as W.
    destruct (expect "]" (skip_ws r0)) as [rest|] eqn:C.
    { intros [= <- <-]. apply expect_length in C. lia. }
    destruct (expect "," (skip_ws r0)) as [r1|] eqn:K; [|discriminate].
    apply expect_length in K. pose proof (skip_ws_length r1) as W1.
    destruct (parse_elements f (skip_ws r1)) as [[vs' rest]|] eqn:E; [|discriminate].
    intros [= <- <-]. apply IHe in E. lia.
  - intros s kvs r. rewrite parse_members_step.
    destruct (string_literal s) as [[[k r1]|]|] eqn:L; try discriminate.
    apply string_literal_length in L. pose proof (skip_ws_length r1) as W1.
    destruct (expect ":" (skip_ws r1)) as [r2|] eqn:K; [|discriminate].
    apply expect_length in K. pose proof (skip_ws_length r2) as W2.
    destruct (parse_value f (skip_ws r2)) as [[v r3]|] eqn:V; [|discriminate].
    apply IHv in V. pose proof (skip_ws_length r3) as W3.
    destruct (expect "}" (skip_ws r3)) as [rest|] eqn:C.
    { intros [= <- <-]. apply expect_length in C. lia. }
    destruct (expect "," (skip_ws r3)) as [r4|] eqn:K4; [|discriminate].
    apply expect_length in K4. pose proof (skip_ws_length r4) as W4.
    destruct (parse_members f (skip_ws r4)) as [[kvs' rest]|] eqn:E; [|discriminate].
    intros [= <- <-]. apply IHm in E. lia.
Qed.

(** More fuel than twice the length of the text changes nothing. *)
Lemma parse_fuel f :
  (forall s f', (2 * String.length s + 1 <= f)%nat -> (f <= f')%nat ->
                parse_value f' s = parse_value f s)
  /\ (forall s f', (2 * String.length s + 2 <= f)%nat -> (f <= f')%nat ->
                   parse_elements f' s = parse_elements f s)
  /\ (forall s f', (2 * String.length s + 2 <= f)%nat -> (f <= f')%nat ->
                   parse_members f' s = parse_members f s).
Proof.
  induction f as [|f (IHv & IHe & IHm)]; [repeat split; intros; lia|].
  split; [|split]; intros s [|f'] B L; try lia.
  - rewrite !parse_value_step.
    destruct (string_literal s) as [[[t rest]|]|]; try reflexivity.
    destruct (expect "{" s) as [r0|] eqn:O.
    { apply expect_length in O. pose proof (skip_ws_length r0) as W.
      rewrite (IHm (skip_ws r0) f') by lia. reflexivity. }
    destruct (expect "[" s) as [r0|] eqn:A; [|reflexivity].
    apply expect_length in A. pose proof (skip_ws_length r0) as W.
    rewrite (IHe (skip_ws r0) f') by lia. reflexivity.
  - rewrite !parse_elements_step. rewrite (IHv s f') by lia.
    destruct (parse_value f s) as [[v r0]|] eqn:V; [|reflexivity].
    apply (proj1 (parse_length f)) in V. pose proof (skip_ws_length r0) as W.
    destruct (expect "]" (skip_ws r0)); [reflexivity|].
    destruct (expect "," (skip_ws r0)) as [r1|] eqn:K; [|reflexivity].
    apply expect_length in K. pose proof (skip_ws_length r1) as W1.
    rewrite (IHe (skip_ws r1) f') by lia. reflexivity.
  - rewrite !parse_members_step.
    destruct (string_literal s) as [[[k r1]|]|] eqn:Lt; try reflexivity.
    apply string_literal_length in Lt. pose proof (skip_ws_length r1) as W1.
    destruct (expect ":" (skip_ws r1)) as [r2|] eqn:K; [|reflexivity].
    apply expect_length in K. pose proof (skip_ws_length r2) as W2.
    rewrite (IHv (skip_ws r2) f') by lia.
    destruct (parse_value f (skip_ws r2)) as [[v r3]|] eqn:V; [|reflexivity].
    apply (proj1 (parse_length f)) in V. pose proof (skip_ws_length r3) as W3.
    destruct (expect "}" (skip_ws r3)); [reflexivity|].
    destruct (expect "," (skip_ws r3)) as [r4|] eqn:K4; [|reflexivity].
    apply expect_length in K4. pose proof (skip_ws_length r4) as W4.
    rewrite (IHm (skip_ws r4) f') by lia. reflexivity.
Qed.

(** [json_loads] would return the same with any larger amount of fuel. *)
Lemma json_loads_fuel s f :
  (2 * String.length s + 2 <= f)%nat ->
  parse_value f (skip_ws s) = parse_value (2 * String.length s + 2) (skip_ws s).
Proof.
  intros B. pose proof (skip_ws_length s) as W.
  apply (proj1 (parse_fuel (2 * String.length s + 2))); lia.
Qed.

(** ** Texts that [json.load] refuses

    What [json_loads] reads, the scanner of the decoder accepts: a text
    that the decoder refuses is none that [json_loads] reads. *)

Lemma check_string_scan_below n :
  forall s t r,
    (String.length s <= n)%nat ->
    scan_string s = Some (t, r) -> check_string s = Some r.
Proof.
  induction n as [|n IHn]; intros s t r B.
  { destruct s; [discriminate|cbn in B; lia]. }
  assert (IH : forall s' t' r',
            (String.length s' < String.length s)%nat ->
            scan_string s' = Some (t', r') -> check_string s' = Some r').
  { intros s' t' r' L. apply IHn. lia. }
  clear IHn B.
  destruct s as [|c s]; [discriminate|]. cbn [scan_string check_string].
  destruct (Ascii.eqb c dquote); [now intros [= <- <-]|].
  destruct (Ascii.eqb c backslash).
  - destruct s as [|e s]; [discriminate|].
    assert (Simple :
      match simple_escape e, scan_string s with
      | Some c', Some (t0, rest) => Some (String c' t0, rest)
      | _, _ => None
      end = Some (t, r) ->
      match simple_escape e with
      | Some _ => check_string s
      | None => None
      end = Some r).
    { destruct (simple_escape e); [|discriminate].
      destruct (scan_string s) as [[t0 r0]|] eqn:E; [|discriminate].
      intros [= <- <-]. apply IH in E; [exact E|cbn [String.length]; lia]. }
    destruct (Ascii.eqb e "u") eqn:U.
    + apply Ascii.eqb_eq in U. subst e.
      destruct s as [|h1 [|h2 [|h3 [|h4 s]]]]; try exact Simple.
      unfold unicode_escape.
      destruct (hex_value h1), (hex_value h2), (hex_value h3), (hex_value h4);
        try discriminate.
      destruct ((_ =? 0) && (_ =? 0))%nat; [|discriminate].
      destruct (scan_string s) as [[t0 r0]|] eqn:E; [|discriminate].
      intros [= <- <-]. apply IH in E; [exact E|cbn [String.length]; lia].
    + destruct e as [[] [] [] [] [] [] [] []]; try discriminate U; exact Simple.
  - destruct (nat_of_ascii c <? 32)%nat; [discriminate|].
    destruct (scan_string s) as [[t0 r0]|] eqn:E; [|discriminate].
    intros [= <- <-]. apply IH in E; [exact E|cbn [String.length]; lia].
Qed.

Lemma check_string_literal s t r :
  string_literal s = Some (Some (t, r)) ->
  exists r0, expect dquote s = Some r0 /\ check_string r0 = Some r.
Proof.
  destruct s as [|c s]; [discriminate|]. cbn [string_literal expect].
  destruct (Ascii.eqb c dquote); [|discriminate].
  intros [= E]. exists s. split; [reflexivity|].
  now apply (check_string_scan_below (String.length s) s t r).
Qed.

Lemma expect_no_string_literal s :
  string_literal s = None -> expect dquote s = None.
Proof.
  destruct s as [|c s]; [reflexivity|]. cbn [string_literal expect].
  now destruct (Ascii.eqb c dquote).
Qed.

Lemma no_float_follows rest :
  float_follows rest = false ->
  check_fraction rest = None /\ check_exponent rest = None.
Proof.
  destruct rest as [|c rest]; [now split|]. cbn [float_follows check_fraction
    check_exponent].
  destruct (Ascii.eqb c "."); [discriminate|].
  destruct (Ascii.eqb c "e"); [discriminate|].
  destruct (Ascii.eqb c "E"); [discriminate|]. now split.
Qed.

Lemma check_number_scan s n r :
  scan_number s = Some (n, r) -> check_number s = Some (Accepted r).
Proof.
  unfold scan_number, check_number.
  destruct (match s with String "-" r0 => (true, r0) | _ => (false, s) end)
    as [neg t].
  destruct (match t with
            | String "0" r0 => (Decimal.D0 Decimal.Nil, r0)
            | _ => scan_digits t
            end) as [ds rest].
  destruct ds; try discriminate;
    (destruct (float_follows rest) eqn:F; [discriminate|]);
    (destruct (_ <=? max_str_digits)%nat; [|discriminate]);
    intros [= <- <-];
    destruct (no_float_follows rest F) as [-> ->]; reflexivity.
Qed.

Lemma scan_number_no_name s n r :
  scan_number s = Some (n, r) ->
  any_literal ["NaN"; "Infinity"; "-Infinity"]%string s = None.
Proof.
  destruct s as [|c s]; [discriminate|].
  destruct c as [[] [] [] [] [] [] [] []]; intros H; try reflexivity;
    try (cbn in H; discriminate H).
  destruct s as [|c s]; [reflexivity|].
  destruct c as [[] [] [] [] [] [] [] []]; try reflexivity.
  cbn in H. discriminate H.
Qed.

Lemma check_value_step f s :
  check_value (S f) s =
    match expect dquote s, expect "{" s, expect "[" s with
    | Some r, _, _ =>
        match check_string r with
        | Some rest => Accepted rest
        | None => Refused JSONDecodeError
        end
    | None, Some r, _ =>
        match expect "}" (skip_ws r) with
        | Some rest => Accepted rest
        | None => check_members f (skip_ws r)
        end
    | None, None, Some r =>
        match expect "]" (skip_ws r) with
        | Some rest => Accepted rest
        | None => check_elements f (skip_ws r)
        end
    | None, None, None =>
        match any_literal ["null"; "true"; "false"; "NaN"; "Infinity";
                           "-Infinity"]%string s with
        | Some rest => Accepted rest
        | None =>
            match check_number s with
            | Some v => v
            | None => Refused JSONDecodeError
            end
        end
    end.
Proof. reflexivity. Qed.

Lemma check_elements_step f s :
  check_elements (S f) s =
    match check_value f s with
    | Refused e => Refused e
    | Accepted r =>
        match expect "]" (skip_ws r), expect "," (skip_ws r) with
        | Some rest, _ => Accepted rest
        | None, Some r'' => check_elements f (skip_ws r'')
        | None, None => Refused JSONDecodeError
        end
    end.
Proof. reflexivity. Qed.

Lemma check_members_step f s :
  check_members (S f) s =
    match expect dquote s with
    | Some r0 =>
        match check_string r0 with
        | Some r1 =>
            match expect ":" (skip_ws r1) with
            | Some r2 =>
                match check_value f (skip_ws r2) with
                | Refused e => Refused e
                | Accepted r3 =>
                    match expect "}" (skip_ws r3), expect "," (skip_ws r3) with
                    | Some rest, _ => Accepted rest
                    | None, Some r4 => check_members f (skip_ws r4)
                    | None, None => Refused JSONDecodeError
                    end
                end
            | None => Refused JSONDecodeError
            end
        | None => Refused JSONDecodeError
        end
    | None => Refused JSONDecodeError
    end.
Proof. reflexivity. Qed.

(** The scanner of the decoder accepts what [parse_value] reads, and
    leaves the same. *)
Lemma parse_check f :
  (forall s v r, parse_value f s = Some (v, r) -> check_value f s = Accepted r)
  /\ (forall s vs r, parse_elements f s = Some (vs, r) ->
                     check_elements f s = Accepted r)
  /\ (forall s kvs r, parse_members f s = Some (kvs, r) ->
                      check_members f s = Accepted r).
Proof.
  induction f as [|f (IHv & IHe & IHm)]; [repeat split; discriminate|].
  split; [|split].
  - intros s v r. rewrite parse_value_step, check_value_step.
    destruct (string_literal s) as [[[t rest]|]|] eqn:L.
    { intros [= <- <-]. destruct (check_string_literal s t rest L) as (r0 & -> & ->).
      reflexivity. }
    { discriminate. }
    rewrite (expect_no_string_literal s L).
    destruct (expect "{" s) as [r0|].
    { destruct (expect "}" (skip_ws r0)) as [rest|]; [now intros [= <- <-]|].
      destruct (parse_members f (skip_ws r0)) as [[kvs rest]|] eqn:M; [|discriminate].
      intros [= <- <-]. now apply IHm in M. }
    destruct (expect "[" s) as [r0|].
    { destruct (expect "]" (skip_ws r0)) as [rest|]; [now intros [= <- <-]|].
      destruct (parse_elements f (skip_ws r0)) as [[vs rest]|] eqn:M; [|discriminate].
      intros [= <- <-]. now apply IHe in M. }
    cbn [any_literal].
    destruct (literal "null" s) as [rest|]; [now intros [= <- <-]|].
    destruct (literal "true" s) as [rest|]; [now intros [= <- <-]|].
    destruct (literal "false" s) as [rest|]; [now intros [= <- <-]|].
    destruct (scan_number s) as [[n rest]|] eqn:Nb; [|discriminate].
    intros [= <- <-]. pose proof (scan_number_no_name s n rest Nb) as X.
    cbn [any_literal] in X. rewrite X.
    now rewrite (check_number_scan s n rest Nb).
  - intros s vs r. rewrite parse_elements_step, check_elements_step.
    destruct (parse_value f s) as [[v r0]|] eqn:V; [|discriminate].
    rewrite (IHv s v r0 V).
    destruct (expect "]" (skip_ws r0)) as [rest|]; [now intros [= <- <-]|].
    destruct (expect "," (skip_ws r0)) as [r1|]; [|discriminate].
    destruct (parse_elements f (skip_ws r1)) as [[vs' rest]|] eqn:E; [|discriminate].
    intros [= <- <-]. now apply IHe in E.
  - intros s kvs r. rewrite parse_members_step, check_members_step.
    destruct (string_literal s) as [[[k r1]|]|] eqn:L; try discriminate.
    destruct (check_string_literal s k r1 L) as (r0 & -> & ->).
    destruct (expect ":" (skip_ws r1)) as [r2|]; [|discriminate].
    destruct (parse_value f (skip_ws r2)) as [[v r3]|] eqn:V; [|discriminate].
    rewrite (IHv _ v r3 V).
    destruct (expect "}" (skip_ws r3)) as [rest|]; [now intros [= <- <-]|].
    destruct (expect "," (skip_ws r3)) as [r4|]; [|discriminate].
    destruct (parse_members f (skip_ws r4)) as [[kvs' rest]|] eqn:E; [|discriminate].
    intros [= <- <-]. now apply IHm in E.
Qed.

Lemma json_loads_check s v :
  json_loads s = Some v ->
  json_check (2 * String.length s + 2) s = Accepted EmptyString.
Proof.
  unfold json_loads, json_check.
  destruct (parse_value _ (skip_ws s)) as [[v' rest]|] eqn:P; [|discriminate].
  rewrite (proj1 (parse_check _) _ _ _ P).
  now destruct (skip_ws rest).
Qed.

Lemma refused_json_loads s : refused s -> json_loads s = None.
Proof.
  intros R. destruct (json_loads s) as [v|] eqn:E; [|reflexivity].
  apply json_loads_check in E. destruct (R (2 * String.length s + 2)%nat) as [e X].
  congruence.
Qed.

(** What loading gives when it fails, and what the parser of a report
    makes of a failure. *)
Lemma load_fails_load fs p e : load_fails fs p e -> load fs p = Raise e.
Proof.
  unfold load. intros [E|E|E|content E R]; rewrite E; try reflexivity.
  cbn [open_read rbind]. unfold json_decode. now rewrite (refused_json_loads _ R).
Qed.

Lemma parser_fails_load {A : Type} (counts_of : pyval -> result A) fs p e :
  parser_fails counts_of fs p e -> rbind (load fs p) counts_of = Raise e.
Proof.
  intros [e' L|content doc e' E J C].
  - now rewrite (load_fails_load fs p e' L).
  - unfold load, json_decode. rewrite E. cbn [open_read rbind]. now rewrite J.
Qed.

(** ** Recoverable errors, and one that is not recovered *)

Lemma totals_of_no_number f :
  int_value (sca_critical f) = None \/ int_value (sca_high f) = None
  \/ int_value (sca_medium f) = None \/ int_value (sca_low f) = None ->
  totals_of f = Raise TypeError.
Proof.
  intros N. destruct (totals_of f) as [t|e] eqn:T.
  - destruct (totals_of_ok f t T) as (c & h & m & l & Ec & Eh & Em & El & _).
    destruct N as [N|[N|[N|N]]]; congruence.
  - unfold totals_of in T.
    destruct (sca_critical f), (sca_high f), (sca_medium f), (sca_low f);
      cbn in T; congruence.
Qed.

(** C4, as amended: reading an input file never raises.  [read_count] and
    the three report parsers always return and leave the files as they
    are; a missing file, a file that cannot be opened or decoded, a count
    that [int] refuses, a text that [json.load] refuses and a document on
    which counting raises each give the default, zero, and one warning,
    and the collection of the counts of the three categories always runs
    to its end.  A count of the npm audit report that is no number is not
    such an error: the parser passes it on, and the sums of lines 156-159
    raise a [TypeError] that ends the run. *)
Theorem recoverable_errors_never_abort :
  (forall p d, runs (about p) (read_count p d))
  /\ (forall p d fs tr, fs !! p = None ->
        recovers (read_count p d) fs tr p d (Warning_file_not_found p))
  /\ (forall p d fs tr content e,
        fs !! p = Some (Text content) ->
        count_of (py_strip content) d = Raise e ->
        recovers (read_count p d) fs tr p d (Warning_invalid_content p ValueError))
  /\ (forall p d fs tr, fs !! p = Some Undecodable ->
        recovers (read_count p d) fs tr p d
          (Warning_invalid_content p UnicodeDecodeError))
  /\ (forall p d fs tr, fs !! p = Some Unreadable ->
        recovers (read_count p d) fs tr p d (Warning_error_reading p OSError))
  /\ (forall p, runs (fun _ => True) (parse_semgrep_results p))
  /\ (forall p, runs (fun _ => True) (parse_npm_audit_results p))
  /\ (forall p, runs (fun _ => True) (parse_zap_results p))
  /\ (forall p fs tr e,
        parser_fails semgrep_counts fs p e ->
        recovers (parse_semgrep_results p) fs tr p (0, 0) (Could_not_parse Semgrep e))
  /\ (forall p fs tr e,
        parser_fails npm_counts fs p e ->
        recovers (parse_npm_audit_results p) fs tr p
          (Counts (PInt 0) (PInt 0) (PInt 0) (PInt 0)) (Could_not_parse NpmAudit e))
  /\ (forall p fs tr e,
        parser_fails zap_counts fs p e ->
        recovers (parse_zap_results p) fs tr p zero_counts (Could_not_parse ZAP e))
  /\ runs (fun _ => True) collect
  /\ (forall fs tr f evs,
        collect (State fs tr) = (Ok f, State fs (tr ++ evs)) ->
        int_value (sca_critical f) = None \/ int_value (sca_high f) = None
        \/ int_value (sca_medium f) = None \/ int_value (sca_low f) = None ->
        main (State fs tr) = (Raise TypeError, State fs (tr ++ evs))).
Proof.
  repeat match goal with |- _ /\ _ => split end.
  - apply runs_read_count.
  - intros p d fs tr E. unfold recovers. now rewrite read_count_run, E.
  - intros p d fs tr content e E C. unfold recovers.
    rewrite read_count_run, E. cbn. now rewrite C.
  - intros p d fs tr E. unfold recovers. now rewrite read_count_run, E.
  - intros p d fs tr E. unfold recovers. now rewrite read_count_run, E.
  - intros p. apply runs_parser.
  - intros p. apply runs_parser.
  - intros p. apply runs_parser.
  - intros p fs tr e E. unfold recovers.
    now rewrite parse_semgrep_results_run, (parser_fails_load _ _ _ _ E).
  - intros p fs tr e E. unfold recovers.
    now rewrite parse_npm_audit_results_run, (parser_fails_load _ _ _ _ E).
  - intros p fs tr e E. unfold recovers.
    now rewrite parse_zap_results_run, (parser_fails_load _ _ _ _ E).
  - apply runs_collect.
  - intros fs tr f evs C N.
    now rewrite (main_run fs tr f evs C), (totals_of_no_number f N).
Qed.

(** C4 as it was stated does not hold for content that is no integer
    inside a report: here the npm audit report gives its critical count
    as a string.  The parser passes it on without a warning, the sum of
    line 156 raises, and the run ends with status 1 and no summary. *)
Lemma npm_count_that_is_a_string :
  let st :=
    State {[ "sca-results/npm-audit-results.json"%string :=
               Text (json_text "{'metadata': {'vulnerabilities': {'critical': '1'}}}") ]} [] in
  script st
  = (1, State (files st) [Opened "sca-results/npm-audit-results.json";
                          Fatal_error TypeError])
  /\ written_summary (snd (script st)) = None.
Proof. cbv zeta. split; vm_compute; reflexivity. Qed.

(** ** What a run looks at and what it changes *)

Lemma looks_at_ret {A : Type} paths (a : A) : looks_at paths (ret a).
Proof.
  intros fs fs' tr tr' _. exists a, []. rewrite !app_nil_r.
  repeat split; constructor.
Qed.

Lemma looks_at_bind {A B : Type} paths (m : M A) (k : A -> M B) :
  looks_at paths m -> (forall a, looks_at paths (k a)) -> looks_at paths (bind m k).
Proof.
  intros Hm Hk fs fs' tr tr' G.
  destruct (Hm fs fs' tr tr' G) as (a & e1 & E1 & E1' & F1).
  destruct (Hk a fs fs' (tr ++ e1) (tr' ++ e1) G) as (b & e2 & E2 & E2' & F2).
  exists b, (e1 ++ e2). unfold bind. rewrite E1, E1', E2, E2', !app_assoc.
  repeat split. now apply Forall_app.
Qed.

Lemma looks_at_read_count paths p d : In p paths -> looks_at paths (read_count p d).
Proof.
  intros I fs fs' tr tr' G. rewrite !read_count_run, <- (G p I).
  assert (O : within paths (Opened p)) by (intros q [= <-]; exact I).
  destruct (open_read (fs !! p)) as [content|e].
  - destruct (count_of (py_strip content) d); eexists _, _;
      (split; [reflexivity|split; [reflexivity|]]);
      repeat (apply List.Forall_cons; [first [exact O|intros q; discriminate]|]);
      apply List.Forall_nil.
  - destruct e; cbn; eexists _, _;
      (split; [reflexivity|split; [reflexivity|]]);
      repeat (apply List.Forall_cons; [first [exact O|intros q; discriminate]|]);
      apply List.Forall_nil.
Qed.

Lemma looks_at_parser {A : Type} paths (counts_of : pyval -> result A)
    (zero : A) t p :
  In p paths ->
  looks_at paths
    (try_except (let* data := json_load p in lift (counts_of data))
                (fun e => let* _ := log (Could_not_parse t e) in ret zero)).
Proof.
  intros I fs fs' tr tr' G. rewrite !parser_run. unfold load. rewrite <- (G p I).
  assert (O : within paths (Opened p)) by (intros q [= <-]; exact I).
  destruct (rbind (rbind (open_read (fs !! p)) json_decode) counts_of);
    eexists _, _; (split; [reflexivity|split; [reflexivity|]]);
    repeat (apply List.Forall_cons; [first [exact O|intros q; discriminate]|]);
    apply List.Forall_nil.
Qed.

Lemma looks_at_path_exists paths p : In p paths -> looks_at paths (path_exists p).
Proof.
  intros I fs fs' tr tr' G. unfold path_exists. cbn [files].
  rewrite <- (G p I). eexists _, []. rewrite !app_nil_r.
  repeat split; constructor.
Qed.

Ltac known_path := cbn; repeat first [left; reflexivity | right].

Lemma looks_at_collect : looks_at input_paths collect.
Proof.
  unfold collect, collect_sast, collect_sca, collect_dast,
    sast_count_files, sca_count_files, dast_count_files,
    parse_semgrep_results, parse_npm_audit_results, parse_zap_results.
  repeat first
    [ apply looks_at_ret
    | apply looks_at_read_count; known_path
    | apply looks_at_path_exists; known_path
    | apply looks_at_parser; known_path
    | apply looks_at_bind; [|intros ?]
    | match goal with |- looks_at _ (if ?b then _ else _) => destruct b end ].
Qed.

Lemma output_file_is_no_input : ~ In output_file input_paths.
Proof. cbn. intros H. repeat (destruct H as [H|H]; [discriminate H|]). exact H. Qed.

Lemma agree_refl paths fs : agree paths fs fs.
Proof. intros p _. reflexivity. Qed.

(** What the script does once the counts are collected. *)
Lemma script_run fs tr f evs :
  collect (State fs tr) = (Ok f, State fs (tr ++ evs)) ->
  script (State fs tr) =
    match formatted_totals f with
    | Raise e => (1, State fs ((tr ++ evs) ++ [Fatal_error e]))
    | Ok t =>
        match fs !! output_file with
        | Some Unreadable => (1, State fs ((tr ++ evs) ++ [Fatal_error OSError]))
        | _ =>
            (match check_thresholds t with [] => 0 | _ :: _ => 1 end,
             State (<[output_file :=
                        Text (json_dumps 0 (make_summary f t (check_thresholds t)))]> fs)
                   (tr ++ evs))
        end
    end.
Proof.
  intros C. unfold script, formatted_totals. rewrite (main_run fs tr f evs C).
  destruct (totals_of f) as [t|e]; [|reflexivity]. cbn [rbind].
  destruct (tables f t); [|reflexivity]. cbn [rbind].
  destruct (fs !! output_file) as [[]|]; reflexivity.
Qed.

(** X1: a run opens for reading none but the thirteen input paths, and
    the only file it can change is the summary: whatever else the
    directory holds is as it was. *)
Theorem run_touches_the_summary_only (fs : gmap string file) :
  Forall (within input_paths) (trace (snd (run fs)))
  /\ forall p, p <> output_file -> files (snd (run fs)) !! p = fs !! p.
Proof.
  unfold run.
  destruct (looks_at_collect fs fs [] [] (agree_refl _ _)) as (f & evs & C & _ & F).
  rewrite (script_run fs [] f evs C). cbn [app] in *.
  assert (F' : forall e, Forall (within input_paths) (evs ++ [Fatal_error e])).
  { intros e. apply Forall_app. split; [exact F|].
    apply List.Forall_cons; [intros q; discriminate|apply List.Forall_nil]. }
  destruct (formatted_totals f) as [t|e]; [|split; [apply F'|reflexivity]].
  destruct (fs !! output_file) as [[]|] eqn:O; cbn [snd files trace];
    (split; [first [exact F|apply F']|]); intros p N;
    try reflexivity; now rewrite lookup_insert_ne.
Qed.

(** X2: the exit status, what is printed and the summary file depend on
    nothing but the thirteen input paths and the summary path: two
    directories that hold the same there give the same. *)
Theorem run_depends_on_its_inputs_only (fs fs' : gmap string file) :
  agree (output_file :: input_paths) fs fs' ->
  fst (run fs) = fst (run fs')
  /\ trace (snd (run fs)) = trace (snd (run fs'))
  /\ files (snd (run fs)) !! output_file = files (snd (run fs')) !! output_file.
Proof.
  intros G. unfold run.
  assert (G' : agree input_paths fs fs') by (intros p I; apply G; now right).
  assert (O : fs !! output_file = fs' !! output_file) by (apply G; now left).
  destruct (looks_at_collect fs fs' [] [] G') as (f & evs & C & C' & _).
  rewrite (script_run fs [] f evs C), (script_run fs' [] f evs C'), <- O.
  destruct (formatted_totals f) as [t|e]; [|now repeat split].
  destruct (fs !! output_file) as [[]|] eqn:E; cbn [fst snd files trace];
    repeat split; rewrite ?lookup_insert_eq; congruence.
Qed.

Lemma run_depends_on_its_inputs_only_witness :
  let fs : gmap string file :=
    {[ "dast-results/dast-critical.txt" := Text "2" ]} in
  let fs' : gmap string file :=
    {[ "dast-results/dast-critical.txt" := Text "2"; "README.md" := Text "x" ]} in
  fst (run fs) = fst (run fs')
  /\ trace (snd (run fs)) = trace (snd (run fs'))
  /\ files (snd (run fs)) !! output_file = files (snd (run fs')) !! output_file.
Proof.
  intros fs fs'. apply (run_depends_on_its_inputs_only fs fs').
  intros p I. cbn in I.
  repeat (destruct I as [<-|I]; [vm_compute; reflexivity|]). destruct I.
Defined.

(** X3: running the script again in the directory that a run left gives
    the same exit status, prints the same and leaves the directory as it
    is: the summary of an earlier run is no input of the next. *)
Theorem second_run_gives_the_same (fs : gmap string file) :
  run (files (snd (run fs))) = run fs.
Proof.
  unfold run.
  destruct (looks_at_collect fs fs [] [] (agree_refl _ _)) as (f & evs & C & _ & _).
  rewrite (script_run fs [] f evs C).
  destruct (formatted_totals f) as [t|e] eqn:T; cbn [snd files].
  2:{ rewrite (script_run fs [] f evs C), T. reflexivity. }
  destruct (fs !! output_file) as [[]|] eqn:O; cbn [snd files].
  3:{ rewrite (script_run fs [] f evs C), T, O. reflexivity. }
  all: match goal with |- script (State ?fs1 _) = _ =>
         assert (G : agree input_paths fs fs1)
           by (intros p I; rewrite lookup_insert_ne;
               [reflexivity|intros <-; now apply output_file_is_no_input]);
         destruct (looks_at_collect fs fs1 [] [] G) as (f' & evs' & C1 & C2 & _);
         rewrite C in C1; injection C1 as <- <-;
         rewrite (script_run fs1 [] f evs C2), T, lookup_insert_eq, insert_insert_eq
       end; reflexivity.
Qed.

(** ** The ways a run is cut short *)

(** What [collect] returns, with the three categories named. *)
Lemma collect_parts fs tr f st' :
  collect (State fs tr) = (Ok f, st') ->
  exists sast sca dast tr1 tr2,
    collect_sast (State fs tr) = (Ok sast, State fs tr1)
    /\ collect_sca (State fs tr1) = (Ok sca, State fs tr2)
    /\ collect_dast (State fs tr2) = (Ok dast, st')
    /\ f = {| sast_critical := fst sast; sast_high := snd sast;
              sca_critical := critical sca; sca_high := high sca;
              sca_medium := medium sca; sca_low := low sca;
              dast_critical := critical dast; dast_high := high dast;
              dast_medium := medium dast; dast_low := low dast |}.
Proof.
  intros C.
  destruct (collect_run fs tr f st' C)
    as (tr1 & tr2 & st3 & sast & sca & dast & S & A & D & _).
  exists sast, sca, dast, tr1, tr2.
  unfold collect, bind in C. rewrite S, A, D in C. cbn [ret] in C.
  injection C as <- <-. repeat split; assumption.
Qed.

(** Without an npm audit report to parse, the four SCA counts are
    integers. *)
Lemma collect_sca_integers fs tr sca st' :
  collect_sca (State fs tr) = (Ok sca, st') ->
  is_Some (fs !! "sca-results/sca-critical.txt")
  \/ fs !! "sca-results/npm-audit-results.json" = None ->
  exists c h m l, sca = Counts (PInt c) (PInt h) (PInt m) (PInt l).
Proof.
  rewrite collect_sca_run. intros C H.
  destruct (fs !! "sca-results/sca-critical.txt") as [x|] eqn:T.
  - unfold sca_count_files, bind in C.
    destruct (read_count_total "sca-results/sca-critical.txt" 0 (State fs tr))
      as (c & e1 & -> & _) in C. cbn [files trace] in C.
    destruct (read_count_total "sca-results/sca-high.txt" 0 (State fs (tr ++ e1)))
      as (h & e2 & -> & _) in C. cbn [files trace] in C.
    destruct (read_count_total "sca-results/sca-medium.txt" 0
                (State fs ((tr ++ e1) ++ e2)))
      as (m & e3 & -> & _) in C. cbn [files trace] in C.
    destruct (read_count_total "sca-results/sca-low.txt" 0
                (State fs (((tr ++ e1) ++ e2) ++ e3)))
      as (l & e4 & -> & _) in C.
    injection C as <- _. eauto.
  - destruct H as [[y Y]|N]; [discriminate Y|]. rewrite N in C.
    injection C as <- _. eauto.
Qed.

Lemma totals_of_raise f e :
  totals_of f = Raise e ->
  e = TypeError
  /\ ~ exists c h m l,
         sca_critical f = PInt c /\ sca_high f = PInt h
         /\ sca_medium f = PInt m /\ sca_low f = PInt l.
Proof.
  unfold totals_of. intros T. split.
  - destruct (sca_critical f), (sca_high f), (sca_medium f), (sca_low f);
      cbn in T; congruence.
  - intros (c & h & m & l & Ec & Eh & Em & El).
    rewrite Ec, Eh, Em, El in T. discriminate T.
Qed.

(** The first table is printed when every number it formats is within the
    limit. *)
Lemma breakdown_fits f t counts :
  all_counts f = Some counts ->
  forallb fits (table_numbers t counts) = true ->
  exists lines, breakdown f t = Ok lines /\ length lines = 11%nat.
Proof.
  unfold all_counts, table_numbers, breakdown, breakdown_row.
  destruct f as [sc sh cc ch cm cl dc dh dm dl].
  cbn [sast_critical sast_high sca_critical sca_high sca_medium sca_low
       dast_critical dast_high dast_medium dast_low].
  destruct cc as [|b1|n1| | |]; try discriminate;
    destruct ch as [|b2|n2| | |]; try discriminate;
    destruct cm as [|b3|n3| | |]; try discriminate;
    destruct cl as [|b4|n4| | |]; try discriminate;
    cbn [int_value]; intros [= <-]; cbn [app forallb]; intros F;
    repeat (apply andb_prop in F; destruct F as [? F]);
    cbn [py_format];
    rewrite !format_int_fits by assumption;
    cbn [rbind]; eexists; split; reflexivity.
Qed.

(** X4: a run is cut short in three ways only: by the [TypeError] of a
    sum of lines 156-159, which takes a count of the npm audit report (so
    the SCA critical count file is missing and the report exists); by the
    [ValueError] of a number with more digits than the limit, which the
    first table cannot format; or by the [OSError] of a summary that
    cannot be opened for writing.  In each case no file was changed: a
    summary left by an earlier run stays.  The reports are taken to be
    within the model. *)
Theorem fatal_errors (st : state) e st' :
  as_modelled (files st) ->
  main st = (Raise e, st') ->
  files st' = files st
  /\ ((e = TypeError
       /\ files st !! "sca-results/sca-critical.txt" = None
       /\ is_Some (files st !! "sca-results/npm-audit-results.json"))
      \/ (e = ValueError
          /\ exists f t counts,
               computed st = Some (f, t) /\ all_counts f = Some counts
               /\ forallb fits (table_numbers t counts) = false)
      \/ (e = OSError /\ files st !! output_file = Some Unreadable)).
Proof.
  destruct st as [fs tr]. intros _ R. cbn [files].
  destruct (collect_total fs tr) as (f & evs & C).
  rewrite (main_run fs tr f evs C) in R.
  destruct (totals_of f) as [t|e'] eqn:T; [destruct (tables f t) as [?|e'] eqn:B|].
  - destruct (fs !! output_file) as [[]|] eqn:O; try discriminate R.
    injection R as <- <-. split; [reflexivity|]. right. right. now split.
  - injection R as <- <-. split; [reflexivity|]. right. left.
    destruct (tables_run f t T) as (E & S & V). rewrite E in B.
    destruct (breakdown f t) as [first|e0] eqn:D.
    { destruct (S first eq_refl) as [second X]. rewrite X in B. discriminate B. }
    injection B as <-. split; [now apply V|].
    destruct (totals_of_ok f t T) as (c & h & m & l & Ec & Eh & Em & El & _).
    assert (A : exists counts, all_counts f = Some counts)
      by (unfold all_counts; rewrite Ec, Eh, Em, El; eauto).
    destruct A as [counts A]. exists f, t, counts.
    split; [unfold computed; now rewrite C, T|]. split; [exact A|].
    destruct (forallb fits (table_numbers t counts)) eqn:F; [|reflexivity].
    destruct (breakdown_fits f t counts A F) as (lines & X & _). congruence.
  - injection R as <- <-. split; [reflexivity|]. left.
    destruct (totals_of_raise f e' T) as [-> N]. split; [reflexivity|].
    destruct (collect_parts fs tr f _ C)
      as (sast & sca & dast & tr1 & tr2 & _ & A & _ & F).
    destruct (fs !! "sca-results/sca-critical.txt") as [x|] eqn:X.
    + exfalso. apply N.
      destruct (collect_sca_integers fs tr1 sca _ A) as (c & h & m & l & ->).
      { left. rewrite X. eauto. }
      subst f. cbn. eauto 10.
    + split; [reflexivity|].
      destruct (fs !! "sca-results/npm-audit-results.json") as [y|] eqn:Y; [eauto|].
      exfalso. apply N.
      destruct (collect_sca_integers fs tr1 sca _ A) as (c & h & m & l & ->).
      { now right. }
      subst f. cbn. eauto 10.
Qed.

Lemma fatal_errors_witness :
  let st :=
    State {[ "sca-results/npm-audit-results.json"%string :=
               Text (json_text "{'metadata': {'vulnerabilities': {'high': '1'}}}");
             "quality-gate-summary.json"%string := Text "stale" ]} [] in
  main st = (Raise TypeError, snd (main st))
  /\ files (snd (main st)) = files st
  /\ files (snd (main st)) !! output_file = Some (Text "stale").
Proof.
  cbv zeta.
  match goal with |- main ?st = _ /\ _ =>
    assert (R : main st = (Raise TypeError, snd (main st)))
      by (vm_compute; reflexivity);
    assert (A : as_modelled (files st));
    [|destruct (fatal_errors st _ _ A R) as [F _]]
  end.
  - intros path content I E. right. cbn in I.
    destruct I as [<-|[<-|[<-|[]]]]; vm_compute in E; try discriminate E.
    injection E as <-. eexists. vm_compute. reflexivity.
  - split; [exact R|]. split; [exact F|]. rewrite F. vm_compute. reflexivity.
Defined.

(** X5: the exit status and the summary file never disagree: when [main]
    returns, the file holds a summary whose [passed] is true exactly when
    the status is 0, and whose [failures] are empty exactly then. *)
Theorem exit_status_agrees_with_summary_file (st : state) code st' :
  main st = (Ok code, st') ->
  exists summary failures,
    written_summary st' = Some summary
    /\ field ["passed"] summary = Some (PBool (code =? 0))
    /\ field ["failures"] summary = Some (PList (map PStr failures))
    /\ (code = 0 <-> failures = [])
    /\ (code = 1 <-> failures <> []).
Proof.
  intros R. destruct (main_returns st code st' R) as (f & t & _ & -> & W & B).
  exists (make_summary f t (check_thresholds t)), (check_thresholds t).
  split; [unfold written_summary; rewrite W; now apply json_loads_dumps|].
  destruct (check_thresholds t); cbn; repeat split; congruence.
Qed.

Lemma exit_status_agrees_with_summary_file_witness :
  let st := State {[ "sast-results/sast-critical.txt"%string := Text "1" ]} [] in
  main st = (Ok 1, snd (main st))
  /\ exists summary,
       written_summary (snd (main st)) = Some summary
       /\ field ["passed"] summary = Some (PBool false).
Proof.
  cbv zeta.
  match goal with |- main ?st = _ /\ _ =>
    assert (R : main st = (Ok 1, snd (main st))) by (vm_compute; reflexivity);
    destruct (exit_status_agrees_with_summary_file st _ _ R)
      as (summary & failures & W & P & _)
  end.
  split; [exact R|]. exists summary. split; [exact W|exact P].
Defined.

(** ** The Semgrep report *)

Lemma severity_is_carried label r s :
  carries r s -> severity_is label r = Ok (py_eq_str s label).
Proof.
  unfold severity_is. intros [d e s' X S|d e X S|d X]; cbn [py_get];
    rewrite X; cbn [rbind py_get]; rewrite ?S; reflexivity.
Qed.

Lemma count_if_carried label results severities :
  Forall2 carries results severities ->
  count_if (severity_is label) results = Ok (labelled label severities).
Proof.
  unfold labelled. induction 1 as [|r s results severities C F IH]; [reflexivity|].
  cbn [count_if List.filter]. rewrite (severity_is_carried label r s C), IH.
  cbn [rbind]. f_equal. destruct (py_eq_str s label); cbn [length]; lia.
Qed.

(** X6: for a Semgrep report whose [results] are objects with an [extra]
    object (or none), the critical count is the number of results whose
    severity is the string ERROR and the high count the number of those
    whose severity is WARNING; a result with any other severity, or with
    none, is counted nowhere. *)
Theorem semgrep_counts_by_severity p fs tr content d results severities :
  fs !! p = Some (Text content) ->
  json_loads content = Some (PDict d) ->
  dict_lookup "results" d = Some (PList results) ->
  Forall2 carries results severities ->
  parse_semgrep_results p (State fs tr)
    = (Ok (labelled "ERROR" severities, labelled "WARNING" severities),
       State fs (tr ++ [Opened p])).
Proof.
  intros F L R C. rewrite parse_semgrep_results_run. unfold load, json_decode.
  rewrite F. cbn [open_read rbind]. rewrite L. cbn [rbind].
  unfold semgrep_counts. cbn [py_get]. rewrite R. cbn [rbind py_iter].
  now rewrite !(count_if_carried _ results severities C).
Qed.

Lemma semgrep_counts_by_severity_witness :
  let content :=
    json_text "{'results': [{'extra': {'severity': 'ERROR'}}, {'extra': {'severity': 'INFO'}}, {'check_id': 'x'}, {'extra': {'severity': 'WARNING'}}, {'extra': {'severity': 'error'}}, {'extra': {}}]}" in
  let fs : gmap string file :=
    {[ "sast-results/semgrep-results.json"%string := Text content ]} in
  parse_semgrep_results "sast-results/semgrep-results.json" (State fs [])
    = (Ok (1, 1), State fs [Opened "sast-results/semgrep-results.json"]).
Proof.
  cbv zeta.
  rewrite (semgrep_counts_by_severity
    "sast-results/semgrep-results.json"
    {[ "sast-results/semgrep-results.json"%string := Text (json_text "{'results': [{'extra': {'severity': 'ERROR'}}, {'extra': {'severity': 'INFO'}}, {'check_id': 'x'}, {'extra': {'severity': 'WARNING'}}, {'extra': {'severity': 'error'}}, {'extra': {}}]}") ]}
    []
    (json_text "{'results': [{'extra': {'severity': 'ERROR'}}, {'extra': {'severity': 'INFO'}}, {'check_id': 'x'}, {'extra': {'severity': 'WARNING'}}, {'extra': {'severity': 'error'}}, {'extra': {}}]}")
    [("results"%string, PList [
        PDict [("extra"%string, PDict [("severity"%string, PStr "ERROR")])];
        PDict [("extra"%string, PDict [("severity"%string, PStr "INFO")])];
        PDict [("check_id"%string, PStr "x")];
        PDict [("extra"%string, PDict [("severity"%string, PStr "WARNING")])];
        PDict [("extra"%string, PDict [("severity"%string, PStr "error")])];
        PDict [("extra"%string, PDict [])]])]
    [PDict [("extra"%string, PDict [("severity"%string, PStr "ERROR")])];
     PDict [("extra"%string, PDict [("severity"%string, PStr "INFO")])];
     PDict [("check_id"%string, PStr "x")];
     PDict [("extra"%string, PDict [("severity"%string, PStr "WARNING")])];
     PDict [("extra"%string, PDict [("severity"%string, PStr "error")])];
     PDict [("extra"%string, PDict [])]]
    [PStr "ERROR"; PStr "INFO"; PNone; PStr "WARNING"; PStr "error"; PNone]).
  - reflexivity.
  - vm_compute. reflexivity.
  - vm_compute. reflexivity.
  - reflexivity.
  - repeat first
      [ apply List.Forall2_nil
      | apply List.Forall2_cons
      | eapply carries_severity; reflexivity
      | eapply carries_no_severity; reflexivity
      | apply carries_no_extra; reflexivity ].
Defined.

Lemma severity_is_raise label r e :
  severity_is label r = Raise e -> e = AttributeError.
Proof.
  unfold severity_is. destruct r as [| | | | |d]; cbn; try congruence.
  destruct (dict_lookup "extra" d) as [[| | | | |x]|]; cbn; try congruence;
    destruct (dict_lookup "severity" _); cbn; congruence.
Qed.

Lemma severity_is_malformed label r :
  malformed_result r -> severity_is label r = Raise AttributeError.
Proof.
  unfold severity_is. intros [r' N|d v X N].
  - destruct r'; try reflexivity. now destruct (N d).
  - cbn [py_get]. rewrite X. cbn [rbind].
    destruct v; try reflexivity. now destruct (N d0).
Qed.

Lemma count_if_malformed label results r :
  In r results -> malformed_result r ->
  count_if (severity_is label) results = Raise AttributeError.
Proof.
  intros I B. induction results as [|x rest IH]; [destruct I|].
  cbn [count_if]. destruct (severity_is label x) as [b|e] eqn:X.
  - destruct I as [->|I].
    + rewrite (severity_is_malformed label r B) in X. discriminate X.
    + cbn [rbind]. now rewrite (IH I).
  - apply severity_is_raise in X. now subst e.
Qed.

(** X7: one result that is no object, or whose [extra] is no object,
    voids the whole Semgrep report: both counts are 0, whatever the other
    results are, and the warning names an [AttributeError]. *)
Theorem one_malformed_result_voids_semgrep p fs tr content d results r :
  fs !! p = Some (Text content) ->
  json_loads content = Some (PDict d) ->
  dict_lookup "results" d = Some (PList results) ->
  In r results ->
  malformed_result r ->
  parse_semgrep_results p (State fs tr)
    = (Ok (0, 0),
       State fs (tr ++ [Opened p; Could_not_parse Semgrep AttributeError])).
Proof.
  intros F L R I B. rewrite parse_semgrep_results_run. unfold load, json_decode.
  rewrite F. cbn [open_read rbind]. rewrite L. cbn [rbind].
  unfold semgrep_counts. cbn [py_get]. rewrite R. cbn [rbind py_iter].
  now rewrite (count_if_malformed "ERROR" results r I B).
Qed.

Lemma one_malformed_result_voids_semgrep_witness :
  let content :=
    json_text "{'results': [{'extra': {'severity': 'ERROR'}}, {'extra': 'none'}]}" in
  let fs : gmap string file :=
    {[ "sast-results/semgrep-results.json"%string := Text content ]} in
  parse_semgrep_results "sast-results/semgrep-results.json" (State fs [])
    = (Ok (0, 0),
       State fs [Opened "sast-results/semgrep-results.json";
                 Could_not_parse Semgrep AttributeError]).
Proof.
  cbv zeta.
  apply (one_malformed_result_voids_semgrep
    "sast-results/semgrep-results.json"
    {[ "sast-results/semgrep-results.json"%string := Text (json_text "{'results': [{'extra': {'severity': 'ERROR'}}, {'extra': 'none'}]}") ]}
    []
    (json_text "{'results': [{'extra': {'severity': 'ERROR'}}, {'extra': 'none'}]}")
    [("results"%string, PList [
        PDict [("extra"%string, PDict [("severity"%string, PStr "ERROR")])];
        PDict [("extra"%string, PStr "none")]])]
    [PDict [("extra"%string, PDict [("severity"%string, PStr "ERROR")])];
     PDict [("extra"%string, PStr "none")]]
    (PDict [("extra"%string, PStr "none")])).
  - reflexivity.
  - vm_compute. reflexivity.
  - vm_compute. reflexivity.
  - right. left. reflexivity.
  - apply (extra_is_no_object _ (PStr "none")); [reflexivity|discriminate].
Defined.

(** ** A ZAP report that is not as expected *)

Lemma for_each_raises {A : Type} (body : A -> pyval -> result A) items x :
  In x items ->
  (forall acc, exists e, body acc x = Raise e) ->
  forall acc, exists e, for_each body items acc = Raise e.
Proof.
  intros I B. induction items as [|y rest IH]; [destruct I|]. intros acc.
  cbn [for_each]. destruct (body acc y) as [acc'|e] eqn:Y; [|cbn; eauto].
  destruct I as [->|I].
  - destruct (B acc) as [e E]. congruence.
  - cbn [rbind]. apply (IH I).
Qed.

Lemma zap_alert_malformed alert acc :
  malformed_alert alert -> exists e, zap_alert acc alert = Raise e.
Proof.
  unfold zap_alert. intros [a N|d v X NB NR].
  - destruct a; cbn; eauto. now destruct (N d).
  - cbn [py_get]. rewrite X. cbn [rbind].
    destruct v as [|b|n|s|l|d']; cbn; eauto.
    + now destruct (NB b).
    + destruct (NR n). constructor.
    + destruct (int_of_str s) as [n|e] eqn:E; cbn; eauto.
      destruct (NR n). now constructor.
Qed.

Lemma zap_counts_malformed doc :
  has_malformed_alert doc -> exists e, zap_counts doc = Raise e.
Proof.
  intros (d & sites & s & alerts & alert & -> & S & IS & A & IA & B).
  unfold zap_counts. cbn [py_get]. rewrite S. cbn [rbind py_iter].
  apply (for_each_raises zap_site sites (PDict s) IS). intros acc.
  unfold zap_site. cbn [py_get]. rewrite A. cbn [rbind py_iter].
  apply (for_each_raises zap_alert alerts alert IA).
  intros acc'. now apply zap_alert_malformed.
Qed.

(** C5, as amended: for a ZAP report whose sites hold alerts with a risk
    code that is an integer, a [bool] or a string that [int] reads, the
    parser counts the alerts of all sites by risk code: 3 is critical, 2
    is high, 1 is medium, 0 is low, and an alert with any other such code
    is counted nowhere.  A risk code that [int] cannot read is not
    ignored: one such alert makes counting raise, and whenever the parser
    fails, in loading the report or in counting, it returns four zeros and
    prints a warning. *)
Theorem zap_counts_by_riskcode p fs tr content doc codes :
  fs !! p = Some (Text content) ->
  json_loads content = Some doc ->
  zap_document codes doc ->
  parse_zap_results p (State fs tr)
    = (Ok (Counts (occurrences 3 (concat codes)) (occurrences 2 (concat codes))
                  (occurrences 1 (concat codes)) (occurrences 0 (concat codes))),
       State fs (tr ++ [Opened p]))
  /\ (forall acc alert code,
        alert_with code alert ->
        code <> 3 -> code <> 2 -> code <> 1 -> code <> 0 ->
        zap_alert acc alert = Ok acc)
  /\ (forall doc', has_malformed_alert doc' -> exists e, zap_counts doc' = Raise e)
  /\ (forall fs' tr' e,
        parser_fails zap_counts fs' p e ->
        recovers (parse_zap_results p) fs' tr' p zero_counts
          (Could_not_parse ZAP e)).
Proof.
  intros F L (d & sites & -> & S & D). split; [|split; [|split]].
  - rewrite parse_zap_results_run. unfold load, json_decode. rewrite F. cbn [open_read rbind].
    rewrite L. cbn [rbind]. unfold zap_counts. cbn [py_get]. rewrite S.
    cbn [rbind py_iter]. rewrite (zap_sites_riskcodes codes sites D).
    now rewrite add_counts_zero_l.
  - intros acc alert code A N3 N2 N1 N0.
    rewrite (zap_alert_riskcode acc alert code A). f_equal.
    unfold tally, occurrences. cbn [List.filter].
    destruct (Z.eqb_spec 3 code); [lia|].
    destruct (Z.eqb_spec 2 code); [lia|].
    destruct (Z.eqb_spec 1 code); [lia|].
    destruct (Z.eqb_spec 0 code); [lia|].
    apply add_counts_zero.
  - exact zap_counts_malformed.
  - intros fs' tr' e E. unfold recovers.
    now rewrite parse_zap_results_run, (parser_fails_load _ _ _ _ E).
Qed.

(** C5 on a report with two sites and seven alerts, two of them critical,
    one with the unknown risk code 7 and one with the risk code [true]. *)
Lemma zap_counts_by_riskcode_witness :
  let content :=
    json_text "{'site': [{'alerts': [{'riskcode': '3'}, {'riskcode': 2}, {'riskcode': '7'}]}, {'alerts': [{'riskcode': '0'}, {'riskcode': 1}, {'riskcode': '3'}, {'riskcode': true}]}]}" in
  let fs : gmap string file := {[ "dast-results/zap-report.json"%string := Text content ]} in
  parse_zap_results "dast-results/zap-report.json" (State fs [])
    = (Ok (Counts 2 1 2 1), State fs [Opened "dast-results/zap-report.json"]).
Proof.
  cbv zeta.
  destruct (zap_counts_by_riskcode
    "dast-results/zap-report.json"
    {[ "dast-results/zap-report.json"%string := Text (json_text "{'site': [{'alerts': [{'riskcode': '3'}, {'riskcode': 2}, {'riskcode': '7'}]}, {'alerts': [{'riskcode': '0'}, {'riskcode': 1}, {'riskcode': '3'}, {'riskcode': true}]}]}") ]}
    []
    (json_text "{'site': [{'alerts': [{'riskcode': '3'}, {'riskcode': 2}, {'riskcode': '7'}]}, {'alerts': [{'riskcode': '0'}, {'riskcode': 1}, {'riskcode': '3'}, {'riskcode': true}]}]}")
    (PDict [("site"%string, PList [
       PDict [("alerts"%string, PList [PDict [("riskcode"%string, PStr "3")];
                                       PDict [("riskcode"%string, PInt 2)];
                                       PDict [("riskcode"%string, PStr "7")]])];
       PDict [("alerts"%string, PList [PDict [("riskcode"%string, PStr "0")];
                                       PDict [("riskcode"%string, PInt 1)];
                                       PDict [("riskcode"%string, PStr "3")];
                                       PDict [("riskcode"%string, PBool true)]])]])])
    [[3; 2; 7]; [0; 1; 3; 1]]) as [E _].
  - vm_compute. reflexivity.
  - vm_compute. reflexivity.
  - repeat first
      [ apply List.Forall2_nil
      | apply List.Forall2_cons
      | apply riskcode_numeric
      | apply riskcode_stringified; reflexivity
      | apply (riskcode_boolean true)
      | eexists _, _; split; [reflexivity|]; split; [reflexivity|] ].
  - rewrite E. reflexivity.
Defined.

(** C5 as it was stated does not hold: a risk code that is no number is
    not ignored.  Here the report holds a critical alert and an alert
    whose risk code is the word high; [int] raises on the word, and the
    critical alert is lost with it: the four counts are 0 and the gate
    passes. *)
Lemma riskcode_that_is_no_number :
  let st :=
    State {[ "dast-results/zap-report.json"%string :=
               Text (json_text "{'site': [{'alerts': [{'riskcode': '3'}, {'riskcode': 'high'}]}]}") ]} [] in
  fst (script st) = 0
  /\ trace (snd (script st))
     = [Opened "dast-results/zap-report.json"; Could_not_parse ZAP ValueError]
  /\ (summary_of st ≫= field ["dast"; "critical"]) = Some (PInt 0).
Proof. cbv zeta. repeat split; vm_compute; reflexivity. Qed.

(** X8: one alert whose risk code cannot be read voids the whole ZAP
    report: the four counts are 0, whatever the other alerts are, and a
    warning is printed. *)
Theorem one_malformed_alert_voids_zap p fs tr content d sites s alerts alert :
  fs !! p = Some (Text content) ->
  json_loads content = Some (PDict d) ->
  dict_lookup "site" d = Some (PList sites) ->
  In (PDict s) sites ->
  dict_lookup "alerts" s = Some (PList alerts) ->
  In alert alerts ->
  malformed_alert alert ->
  exists e,
    parse_zap_results p (State fs tr)
      = (Ok zero_counts, State fs (tr ++ [Opened p; Could_not_parse ZAP e])).
Proof.
  intros F L S IS A IA B.
  assert (R : exists e, zap_counts (PDict d) = Raise e).
  { apply zap_counts_malformed. now exists d, sites, s, alerts, alert. }
  destruct R as [e R]. exists e.
  rewrite parse_zap_results_run. unfold load, json_decode.
  rewrite F. cbn [open_read rbind]. rewrite L. cbn [rbind]. now rewrite R.
Qed.

Lemma one_malformed_alert_voids_zap_witness :
  let content :=
    json_text "{'site': [{'alerts': [{'riskcode': '3'}, {'riskcode': null}]}]}" in
  let fs : gmap string file :=
    {[ "dast-results/zap-report.json"%string := Text content ]} in
  exists e,
    parse_zap_results "dast-results/zap-report.json" (State fs [])
      = (Ok zero_counts,
         State fs ([] ++ [Opened "dast-results/zap-report.json";
                          Could_not_parse ZAP e])).
Proof.
  cbv zeta.
  apply (one_malformed_alert_voids_zap
    "dast-results/zap-report.json"
    {[ "dast-results/zap-report.json"%string := Text (json_text "{'site': [{'alerts': [{'riskcode': '3'}, {'riskcode': null}]}]}") ]}
    []
    (json_text "{'site': [{'alerts': [{'riskcode': '3'}, {'riskcode': null}]}]}")
    [("site"%string, PList [
        PDict [("alerts"%string, PList [PDict [("riskcode"%string, PStr "3")];
                                        PDict [("riskcode"%string, PNone)]])]])]
    [PDict [("alerts"%string, PList [PDict [("riskcode"%string, PStr "3")];
                                     PDict [("riskcode"%string, PNone)]])]]
    [("alerts"%string, PList [PDict [("riskcode"%string, PStr "3")];
                              PDict [("riskcode"%string, PNone)]])]
    [PDict [("riskcode"%string, PStr "3")]; PDict [("riskcode"%string, PNone)]]
    (PDict [("riskcode"%string, PNone)])).
  - reflexivity.
  - vm_compute. reflexivity.
  - vm_compute. reflexivity.
  - left. reflexivity.
  - vm_compute. reflexivity.
  - right. left. reflexivity.
  - apply (riskcode_is_no_number _ PNone); [reflexivity|discriminate|].
    intros n R. inversion R.
Defined.

Lemma dict_keys_nonempty k v d :
  exists x rest, map PStr (dict_keys ((k, v) :: d) []) = PStr x :: rest.
Proof. cbn. eauto. Qed.

(** X9: only a list of sites is counted.  When the [site] of a ZAP report
    is anything else (an object, as for a report with a single site, a
    string, a number, null), the four counts are 0; a warning is printed
    unless [site] is an empty object or an empty string. *)
Theorem zap_site_must_be_a_list p fs tr content d v :
  fs !! p = Some (Text content) ->
  json_loads content = Some (PDict d) ->
  dict_lookup "site" d = Some v ->
  (forall sites, v <> PList sites) ->
  (v = PDict [] \/ v = PStr "" ->
     parse_zap_results p (State fs tr)
       = (Ok zero_counts, State fs (tr ++ [Opened p])))
  /\ (v <> PDict [] -> v <> PStr "" ->
      exists e,
        parse_zap_results p (State fs tr)
          = (Ok zero_counts, State fs (tr ++ [Opened p; Could_not_parse ZAP e]))).
Proof.
  intros F L S N.
  rewrite parse_zap_results_run. unfold load, json_decode.
  rewrite F. cbn [open_read rbind]. rewrite L. cbn [rbind].
  unfold zap_counts. cbn [py_get]. rewrite S. cbn [rbind]. split.
  - intros [->| ->]; reflexivity.
  - intros ND NS. destruct v as [|b|n|s|l|d']; cbn [py_iter rbind]; eauto.
    + destruct s as [|c s]; [congruence|]. cbn. eauto.
    + now destruct (N l).
    + destruct d' as [|[k x] d']; [congruence|]. cbn. eauto.
Qed.

Lemma zap_site_must_be_a_list_witness :
  let content :=
    json_text "{'site': {'alerts': [{'riskcode': '3'}]}}" in
  let fs : gmap string file :=
    {[ "dast-results/zap-report.json"%string := Text content ]} in
  exists e,
    parse_zap_results "dast-results/zap-report.json" (State fs [])
      = (Ok zero_counts,
         State fs ([] ++ [Opened "dast-results/zap-report.json";
                          Could_not_parse ZAP e])).
Proof.
  cbv zeta.
  apply (zap_site_must_be_a_list
    "dast-results/zap-report.json"
    {[ "dast-results/zap-report.json"%string := Text (json_text "{'site': {'alerts': [{'riskcode': '3'}]}}") ]}
    []
    (json_text "{'site': {'alerts': [{'riskcode': '3'}]}}")
    [("site"%string, PDict [("alerts"%string,
                             PList [PDict [("riskcode"%string, PStr "3")]])])]
    (PDict [("alerts"%string, PList [PDict [("riskcode"%string, PStr "3")]])])).
  - reflexivity.
  - vm_compute. reflexivity.
  - vm_compute. reflexivity.
  - discriminate.
  - discriminate.
  - discriminate.
Defined.

(** ** The npm audit report *)

(** X10: the counts of the npm audit report are the members [critical],
    [high], [moderate] and [low] of [metadata.vulnerabilities], passed on
    as they are, and 0 for a member that is missing; [moderate] is the
    medium count, and no other member is looked at.  A report without
    [metadata], or whose [metadata] has no [vulnerabilities], gives four
    zeros and no warning. *)
Theorem npm_counts_are_passed_on p fs tr content d :
  fs !! p = Some (Text content) ->
  json_loads content = Some (PDict d) ->
  let zeros := Counts (PInt 0) (PInt 0) (PInt 0) (PInt 0) in
  (dict_lookup "metadata" d = None ->
     parse_npm_audit_results p (State fs tr)
       = (Ok zeros, State fs (tr ++ [Opened p])))
  /\ (forall m,
        dict_lookup "metadata" d = Some (PDict m) ->
        dict_lookup "vulnerabilities" m = None ->
        parse_npm_audit_results p (State fs tr)
          = (Ok zeros, State fs (tr ++ [Opened p])))
  /\ (forall m v,
        dict_lookup "metadata" d = Some (PDict m) ->
        dict_lookup "vulnerabilities" m = Some (PDict v) ->
        parse_npm_audit_results p (State fs tr)
          = (Ok (Counts (member_or_zero "critical" v) (member_or_zero "high" v)
                        (member_or_zero "moderate" v) (member_or_zero "low" v)),
             State fs (tr ++ [Opened p]))).
Proof.
  intros F L zeros. unfold zeros.
  rewrite parse_npm_audit_results_run. unfold load, json_decode.
  rewrite F. cbn [open_read rbind]. rewrite L. cbn [rbind].
  unfold npm_counts. cbn [py_get]. split; [|split].
  - intros ->. reflexivity.
  - intros m -> V. cbn [rbind py_get]. rewrite V. reflexivity.
  - intros m v -> V. cbn [rbind py_get]. rewrite V. cbn [rbind py_get].
    unfold member_or_zero.
    destruct (dict_lookup "critical" v), (dict_lookup "high" v),
      (dict_lookup "moderate" v), (dict_lookup "low" v); reflexivity.
Qed.

Lemma npm_counts_are_passed_on_witness :
  let content :=
    json_text "{'metadata': {'vulnerabilities': {'info': 9, 'low': 1, 'moderate': 4, 'medium': 7, 'total': 14}}}" in
  let fs : gmap string file :=
    {[ "sca-results/npm-audit-results.json"%string := Text content ]} in
  parse_npm_audit_results "sca-results/npm-audit-results.json" (State fs [])
    = (Ok (Counts (PInt 0) (PInt 0) (PInt 4) (PInt 1)),
       State fs [Opened "sca-results/npm-audit-results.json"]).
Proof.
  cbv zeta.
  destruct (npm_counts_are_passed_on
    "sca-results/npm-audit-results.json"
    {[ "sca-results/npm-audit-results.json"%string := Text (json_text "{'metadata': {'vulnerabilities': {'info': 9, 'low': 1, 'moderate': 4, 'medium': 7, 'total': 14}}}") ]}
    []
    (json_text "{'metadata': {'vulnerabilities': {'info': 9, 'low': 1, 'moderate': 4, 'medium': 7, 'total': 14}}}")
    [("metadata"%string, PDict [("vulnerabilities"%string, PDict [
        ("info"%string, PInt 9); ("low"%string, PInt 1); ("moderate"%string, PInt 4);
        ("medium"%string, PInt 7); ("total"%string, PInt 14)])])])
    as (_ & _ & E).
  - reflexivity.
  - vm_compute. reflexivity.
  - rewrite (E _ _ eq_refl eq_refl). reflexivity.
Defined.

(** ** What a count file may hold *)

Lemma lstrip_spaces b s : all_space b = true -> lstrip (b +:+ s) = lstrip s.
Proof.
  induction b as [|c b IH]; [now rewrite append_nil|].
  cbn [all_space]. intros [C B]%andb_prop. rewrite append_cons. cbn [lstrip].
  rewrite C. now apply IH.
Qed.

Lemma rstrip_all_space a : all_space a = true -> rstrip a = EmptyString.
Proof.
  induction a as [|c a IH]; [reflexivity|].
  cbn [all_space rstrip]. intros [C A]%andb_prop. now rewrite (IH A), C.
Qed.

Lemma rstrip_spaces s a : all_space a = true -> rstrip (s +:+ a) = rstrip s.
Proof.
  intros A. induction s as [|c s IH].
  - rewrite append_nil. now apply rstrip_all_space.
  - rewrite append_cons. cbn [rstrip]. now rewrite IH.
Qed.

Lemma digit_is_no_space c d : digit_cons c = Some d -> py_isspace c = false.
Proof.
  destruct c as [[] [] [] [] [] [] [] []]; cbn; intros E;
    first [discriminate E|reflexivity].
Qed.

Lemma lstrip_str_of_int n rest :
  lstrip (str_of_int n +:+ rest) = str_of_int n +:+ rest.
Proof.
  pose proof (str_of_int_head n rest) as H.
  destruct (str_of_int n +:+ rest) as [|c s]; [reflexivity|].
  cbn [lstrip]. destruct (digit_cons c) as [d|] eqn:D.
  - now rewrite (digit_is_no_space c d D).
  - apply Ascii.eqb_eq in H. now subst c.
Qed.

Lemma py_strip_surrounded before n after :
  all_space before = true -> all_space after = true ->
  py_strip (before +:+ str_of_int n +:+ after) = str_of_int n.
Proof.
  intros B A. unfold py_strip.
  rewrite (lstrip_spaces before _ B), lstrip_str_of_int, (rstrip_spaces _ after A).
  pose proof (py_strip_str_of_int n) as P. unfold py_strip in P.
  pose proof (lstrip_str_of_int n EmptyString) as Q.
  rewrite append_empty in Q. now rewrite Q in P.
Qed.

(** X11: the spaces and line breaks around the number of a count file do
    not matter: a file that holds an integer of no more digits than the
    limit of [int], with spaces before and after it, gives that integer,
    and no warning. *)
Theorem read_count_ignores_surrounding_space p default fs tr before n after :
  fits n = true ->
  all_space before = true ->
  all_space after = true ->
  fs !! p = Some (Text (before +:+ str_of_int n +:+ after)) ->
  read_count p default (State fs tr) = (Ok n, State fs (tr ++ [Opened p])).
Proof.
  intros L B A F. rewrite read_count_run, F. cbn [open_read].
  now rewrite (py_strip_surrounded before n after B A), count_of_str_of_int, L.
Qed.

Lemma read_count_ignores_surrounding_space_witness :
  let fs : gmap string file :=
    {[ "sast-results/sast-high.txt"%string :=
         Text (String " " (String "1" (String "2" (String "010" EmptyString)))) ]} in
  read_count "sast-results/sast-high.txt" 0 (State fs [])
    = (Ok 12, State fs [Opened "sast-results/sast-high.txt"]).
Proof.
  cbv zeta.
  apply (read_count_ignores_surrounding_space
    "sast-results/sast-high.txt" 0
    {[ "sast-results/sast-high.txt"%string :=
         Text (String " " (String "1" (String "2" (String "010" EmptyString)))) ]}
    [] " " 12 (String "010" EmptyString)); reflexivity.
Defined.

(** X12: a count file that is empty, or holds nothing but spaces and line
    breaks, counts as the default, and no warning is printed. *)
Theorem blank_count_file_gives_the_default p default fs tr content :
  all_space content = true ->
  fs !! p = Some (Text content) ->
  read_count p default (State fs tr) = (Ok default, State fs (tr ++ [Opened p])).
Proof.
  intros B F. rewrite read_count_run, F. cbn [open_read].
  assert (S : py_strip content = EmptyString).
  { unfold py_strip. rewrite <- (append_empty content), (lstrip_spaces content _ B).
    reflexivity. }
  now rewrite S.
Qed.

Lemma blank_count_file_gives_the_default_witness :
  let fs : gmap string file :=
    {[ "dast-results/dast-critical.txt"%string := Text (String "010" EmptyString) ]} in
  read_count "dast-results/dast-critical.txt" 0 (State fs [])
    = (Ok 0, State fs [Opened "dast-results/dast-critical.txt"]).
Proof.
  cbv zeta.
  apply (blank_count_file_gives_the_default
    "dast-results/dast-critical.txt" 0
    {[ "dast-results/dast-critical.txt"%string := Text (String "010" EmptyString) ]}
    [] (String "010" EmptyString)); reflexivity.
Defined.

(** ** The tables of the report *)

Lemma breakdown_ok_fits f t counts lines :
  all_counts f = Some counts ->
  breakdown f t = Ok lines ->
  forallb fits (table_numbers t counts) = true.
Proof.
  intros A B. pose proof (breakdown_bounded f t lines [] B) as S.
  unfold all_counts in A. unfold table_numbers.
  destruct f as [sc sh cc ch cm cl dc dh dm dl].
  cbn [make_summary bounded forallb snd sast_critical sast_high sca_critical
       sca_high sca_medium sca_low dast_critical dast_high dast_medium
       dast_low] in A, S.
  destruct cc as [|b1|n1| | |]; try discriminate;
    destruct ch as [|b2|n2| | |]; try discriminate;
    destruct cm as [|b3|n3| | |]; try discriminate;
    destruct cl as [|b4|n4| | |]; try discriminate;
    cbn [int_value] in A; injection A as <-; cbn [app forallb bounded] in *;
    repeat match goal with
           | H : (_ && _)%bool = true |- _ => apply andb_prop in H; destruct H
           end;
    repeat match goal with
           | H : fits ?x = true |- context [fits ?x] => rewrite H
           end;
    repeat match goal with
           | |- context [fits (if ?b then 1 else 0)] =>
               replace (fits (if b then 1 else 0)) with true
                 by (now destruct b)
           end;
    reflexivity.
Qed.

(** X13: once the totals are computed, the eleven lines of the first
    table are printed when no number that it formats (a total, the sum of
    the totals, a count) has more digits than the limit; when one has,
    formatting raises a [ValueError], and the run ends there. *)
Theorem first_table_and_the_digit_limit (f : findings) (t : counts Z) counts :
  totals_of f = Ok t ->
  all_counts f = Some counts ->
  (forallb fits (table_numbers t counts) = true ->
     exists lines, breakdown f t = Ok lines /\ length lines = 11%nat)
  /\ (forallb fits (table_numbers t counts) = false ->
      breakdown f t = Raise ValueError
      /\ forall st, fst (lift (tables f t) st) = Raise ValueError).
Proof.
  intros T A. split; [now apply breakdown_fits|]. intros F.
  destruct (tables_run f t T) as (E & _ & V).
  destruct (breakdown f t) as [lines|e] eqn:B.
  - rewrite (breakdown_ok_fits f t counts lines A B) in F. discriminate F.
  - rewrite (V e eq_refl) in *. split; [reflexivity|].
    intros st. unfold lift. cbn [fst]. exact E.
Qed.

Lemma first_table_and_the_digit_limit_witness :
  let f := {| sast_critical := 2; sast_high := 0;
              sca_critical := PBool true; sca_high := PInt 0;
              sca_medium := PInt 123456789; sca_low := PInt (-1);
              dast_critical := 0; dast_high := 0;
              dast_medium := 0; dast_low := 0 |} in
  exists lines,
    breakdown f (Counts 3 0 123456789 (-1)) = Ok lines
    /\ nth 4 lines EmptyString
       = "Critical (CVSS ≥9.0)             3        2        1        0"
    /\ nth 6 lines EmptyString
       = "Medium (CVSS 4.0-6.9)     123456789        - 123456789        0".
Proof.
  cbv zeta.
  destruct (first_table_and_the_digit_limit
    {| sast_critical := 2; sast_high := 0;
       sca_critical := PBool true; sca_high := PInt 0;
       sca_medium := PInt 123456789; sca_low := PInt (-1);
       dast_critical := 0; dast_high := 0;
       dast_medium := 0; dast_low := 0 |}
    (Counts 3 0 123456789 (-1))
    [2; 0; 1; 0; 123456789; -1; 0; 0; 0; 0] eq_refl eq_refl) as [P _].
  destruct (P eq_refl) as (lines & E & _).
  exists lines. split; [exact E|].
  vm_compute in E. injection E as <-. split; reflexivity.
Defined.

Lemma append_inj (a a' b b' : string) :
  String.length a = String.length a' -> a +:+ b = a' +:+ b' -> a = a' /\ b = b'.
Proof.
  revert a'. induction a as [|c a IH]; intros [|c' a'] L E; try discriminate L.
  - now rewrite !append_nil in E.
  - rewrite !append_cons in E. injection E as -> E. injection L as L.
    destruct (IH a' L E) as [-> ->]. now split.
Qed.

Lemma ends_with_one_mark body body' :
  body +:+ "✅ PASS" <> body' +:+ "❌ FAIL".
Proof.
  intros E.
  assert (L : String.length body = String.length body').
  { apply (f_equal String.length) in E. rewrite !length_append in E.
    cbn in E. lia. }
  destruct (append_inj _ _ _ _ L E) as [_ X]. discriminate X.
Qed.

Lemma threshold_row_mark label total threshold row :
  threshold_row label total threshold = Ok row ->
  if total >? threshold then ends_with "❌ FAIL" row
  else ends_with "✅ PASS" row.
Proof.
  unfold threshold_row, ends_with.
  destruct (format_int 3 total) as [a|]; [|discriminate].
  destruct (format_int 3 threshold) as [b|]; [|discriminate].
  cbn [rbind]. intros [= <-].
  destruct (Z.gtb_spec total threshold), (Z.leb_spec total threshold); try lia;
    eexists; rewrite <- !append_assoc; reflexivity.
Qed.

(** X14: when the totals are integers, as they are in this model, the
    second table and the list of failures agree: the row of a bucket
    ends with the FAIL mark exactly when the total of the bucket exceeds
    its threshold, which is when the bucket has its entry in the failures,
    and with the PASS mark otherwise; so all four rows end with the PASS
    mark exactly when there is no failure. *)
Theorem threshold_table_agrees_with_failures (t : counts Z) rows :
  threshold_rows t = Ok rows ->
  Forall2 (fun row b =>
             if exceeds b then ends_with "❌ FAIL" row
             else ends_with "✅ PASS" row)
          rows (buckets t)
  /\ (Forall (ends_with "✅ PASS") rows <-> check_thresholds t = []).
Proof.
  unfold threshold_rows. cbn [thresholds critical high medium low].
  destruct (threshold_row _ (critical t) 0) as [r1|] eqn:R1; [|discriminate].
  destruct (threshold_row _ (high t) 0) as [r2|] eqn:R2; [|discriminate].
  destruct (threshold_row _ (medium t) 0) as [r3|] eqn:R3; [|discriminate].
  destruct (threshold_row _ (low t) 0) as [r4|] eqn:R4; [|discriminate].
  cbn [rbind]. intros [= <-].
  apply threshold_row_mark in R1, R2, R3, R4.
  split.
  - unfold buckets. cbn [thresholds critical high medium low exceeds].
    repeat (apply List.Forall2_cons; [assumption|]). apply List.Forall2_nil.
  - rewrite check_thresholds_empty. split.
    + intros F.
      inversion F as [|? ? H1 F1]; subst.
      inversion F1 as [|? ? H2 F2]; subst.
      inversion F2 as [|? ? H3 F3]; subst.
      inversion F3 as [|? ? H4 F4]; subst.
      assert (X : forall row total,
                 ends_with "✅ PASS" row ->
                 (if total >? 0 then ends_with "❌ FAIL" row
                  else ends_with "✅ PASS" row) ->
                 total <= 0).
      { intros row total [b ->] M. destruct (Z.gtb_spec total 0); [|lia].
        destruct M as [b' E]. now apply ends_with_one_mark in E. }
      split; [exact (X _ _ H1 R1)|]. split; [exact (X _ _ H2 R2)|].
      split; [exact (X _ _ H3 R3)|exact (X _ _ H4 R4)].
    + intros (H1 & H2 & H3 & H4).
      destruct (Z.gtb_spec (critical t) 0); [lia|].
      destruct (Z.gtb_spec (high t) 0); [lia|].
      destruct (Z.gtb_spec (medium t) 0); [lia|].
      destruct (Z.gtb_spec (low t) 0); [lia|].
      repeat (apply List.Forall_cons; [assumption|]). apply List.Forall_nil.
Qed.

Lemma threshold_table_agrees_with_failures_witness :
  exists rows,
    threshold_rows (Counts 3 0 0 (-1)) = Ok rows
    /\ Forall2 (fun row b =>
                  if exceeds b then ends_with "❌ FAIL" row
                  else ends_with "✅ PASS" row)
               rows (buckets (Counts 3 0 0 (-1)))
    /\ nth 0 rows EmptyString = "Critical:    3 /   0 allowed  ❌ FAIL".
Proof.
  eexists. split; [vm_compute; reflexivity|].
  split; [|reflexivity].
  apply (threshold_table_agrees_with_failures (Counts 3 0 0 (-1))).
  vm_compute. reflexivity.
Defined.

(** ** When the gate passes and when it cannot *)

Lemma parser_cannot_load {A : Type} (counts_of : pyval -> result A) (zero : A)
    t p fs tr :
  cannot_load fs p ->
  exists evs,
    try_except (let* data := json_load p in lift (counts_of data))
               (fun e => let* _ := log (Could_not_parse t e) in ret zero)
               (State fs tr)
    = (Ok zero, State fs (tr ++ evs)).
Proof.
  intros [e E]. apply load_fails_load in E. rewrite parser_run, E.
  cbn [rbind]. eauto.
Qed.

(** X15: the gate fails open.  When no category has its critical count
    file and none of the three reports can be loaded (it is missing, it
    cannot be opened, its bytes are no text, or [json.load] refuses its
    text), every count is 0: the run writes a summary that passed and
    exits with 0. *)
Theorem gate_passes_when_no_report_can_be_loaded (fs : gmap string file) :
  fs !! "sast-results/sast-critical.txt" = None ->
  fs !! "sca-results/sca-critical.txt" = None ->
  fs !! "dast-results/dast-critical.txt" = None ->
  cannot_load fs "sast-results/semgrep-results.json" ->
  cannot_load fs "sca-results/npm-audit-results.json" ->
  cannot_load fs "dast-results/zap-report.json" ->
  fs !! output_file <> Some Unreadable ->
  fst (run fs) = 0
  /\ (written_summary (snd (run fs)) ≫= field ["passed"]) = Some (PBool true)
  /\ (written_summary (snd (run fs)) ≫= field ["total"]) = Some (PInt 0).
Proof.
  intros S1 S2 S3 L1 L2 L3 W.
  assert (C : exists evs,
             collect (State fs [])
             = (Ok {| sast_critical := 0; sast_high := 0;
                      sca_critical := PInt 0; sca_high := PInt 0;
                      sca_medium := PInt 0; sca_low := PInt 0;
                      dast_critical := 0; dast_high := 0;
                      dast_medium := 0; dast_low := 0 |},
                State fs ([] ++ evs))).
  { assert (A : forall tr, exists evs,
               collect_sast (State fs tr) = (Ok (0, 0), State fs (tr ++ evs))).
    { intros tr. rewrite collect_sast_run, S1.
      destruct (fs !! "sast-results/semgrep-results.json");
        [now apply parser_cannot_load|exists []; now rewrite app_nil_r]. }
    assert (B : forall tr, exists evs,
               collect_sca (State fs tr)
               = (Ok (Counts (PInt 0) (PInt 0) (PInt 0) (PInt 0)),
                  State fs (tr ++ evs))).
    { intros tr. rewrite collect_sca_run, S2.
      destruct (fs !! "sca-results/npm-audit-results.json");
        [now apply parser_cannot_load|exists []; now rewrite app_nil_r]. }
    assert (D : forall tr, exists evs,
               collect_dast (State fs tr) = (Ok zero_counts, State fs (tr ++ evs))).
    { intros tr. rewrite collect_dast_run, S3.
      destruct (fs !! "dast-results/zap-report.json");
        [now apply parser_cannot_load|exists []; now rewrite app_nil_r]. }
    destruct (A []) as [e1 E1]. destruct (B ([] ++ e1)) as [e2 E2].
    destruct (D (([] ++ e1) ++ e2)) as [e3 E3].
    exists ((e1 ++ e2) ++ e3). unfold collect, bind.
    rewrite E1, E2, E3. cbn [ret fst snd critical high medium low zero_counts].
    now rewrite !app_assoc. }
  destruct C as [evs C]. unfold run. rewrite (script_run fs [] _ evs C).
  change (formatted_totals _) with (Ok (Counts 0 0 0 0)).
  change (check_thresholds (Counts 0 0 0 0)) with (@nil string).
  assert (R : forall st : state,
            files st !! output_file
            = Some (Text (json_dumps 0 (make_summary
                {| sast_critical := 0; sast_high := 0;
                   sca_critical := PInt 0; sca_high := PInt 0;
                   sca_medium := PInt 0; sca_low := PInt 0;
                   dast_critical := 0; dast_high := 0;
                   dast_medium := 0; dast_low := 0 |}
                (Counts 0 0 0 0) []))) ->
            (written_summary st ≫= field ["passed"]) = Some (PBool true)
            /\ (written_summary st ≫= field ["total"]) = Some (PInt 0)).
  { intros st E. unfold written_summary.
    rewrite E, json_loads_dumps by reflexivity. split; reflexivity. }
  destruct (fs !! output_file) as [[]|] eqn:O; try congruence;
    (split; [reflexivity|]); apply R; cbn [snd files]; apply lookup_insert_eq.
Qed.

Lemma gate_passes_when_no_report_can_be_loaded_witness :
  let fs : gmap string file :=
    {[ "sast-results/semgrep-results.json"%string := Text "Segmentation fault";
       "sast-results/sast-high.txt"%string := Text "7";
       "dast-results/zap-report.json"%string := Unreadable ]} in
  fst (run fs) = 0
  /\ (written_summary (snd (run fs)) ≫= field ["passed"]) = Some (PBool true)
  /\ (written_summary (snd (run fs)) ≫= field ["total"]) = Some (PInt 0).
Proof.
  cbv zeta.
  apply (gate_passes_when_no_report_can_be_loaded
    {[ "sast-results/semgrep-results.json"%string := Text "Segmentation fault";
       "sast-results/sast-high.txt"%string := Text "7";
       "dast-results/zap-report.json"%string := Unreadable ]}).
  - vm_compute. reflexivity.
  - vm_compute. reflexivity.
  - vm_compute. reflexivity.
  - eexists. apply (report_refused _ _ "Segmentation fault").
    + vm_compute. reflexivity.
    + intros [|fuel]; eexists; reflexivity.
  - eexists. apply report_missing. vm_compute. reflexivity.
  - eexists. apply report_unreadable. vm_compute. reflexivity.
  - vm_compute. discriminate.
Defined.

(** X16: zero tolerance.  In a directory whose reports are within the
    model, when no count of a run is negative, one finding of any category
    and any severity is enough for the exit status 1. *)
Theorem one_finding_fails_the_gate (st : state) f t counts :
  as_modelled (files st) ->
  computed st = Some (f, t) ->
  all_counts f = Some counts ->
  Forall (fun n => 0 <= n) counts ->
  Exists (fun n => 0 < n) counts ->
  fst (script st) = 1.
Proof.
  destruct st as [fs tr]. intros _. unfold computed.
  destruct (collect_total fs tr) as (f' & evs & C). rewrite C.
  destruct (totals_of f') as [t'|] eqn:T; [|discriminate].
  intros [= -> ->] A N P.
  rewrite (script_run fs tr f evs C). unfold formatted_totals. rewrite T.
  cbn [rbind]. destruct (tables f t); [|reflexivity]. cbn [rbind].
  assert (F : check_thresholds t <> []).
  { rewrite check_thresholds_empty.
    destruct (totals_of_ok f t T) as (c & h & m & l & Ec & Eh & Em & El & ->).
    unfold all_counts in A. rewrite Ec, Eh, Em, El in A. injection A as <-.
    cbn [critical high medium low].
    repeat match goal with
           | H : Forall _ (_ :: _) |- _ =>
               apply List.Forall_cons_iff in H; destruct H as [? H]
           end.
    repeat match goal with
           | H : Exists _ (_ :: _) |- _ =>
               apply List.Exists_cons in H; destruct H as [H|H]
           | H : Exists _ [] |- _ => apply List.Exists_nil in H; destruct H
           end; lia. }
  destruct (fs !! output_file) as [[]|]; destruct (check_thresholds t);
    try reflexivity; congruence.
Qed.

Lemma one_finding_fails_the_gate_witness :
  fst (script (State {[ "sca-results/npm-audit-results.json"%string :=
                          Text (json_text "{'metadata': {'vulnerabilities': {'low': 1}}}") ]}
                     [])) = 1.
Proof.
  apply (one_finding_fails_the_gate
    (State {[ "sca-results/npm-audit-results.json"%string :=
                Text (json_text "{'metadata': {'vulnerabilities': {'low': 1}}}") ]} [])
    {| sast_critical := 0; sast_high := 0;
       sca_critical := PInt 0; sca_high := PInt 0;
       sca_medium := PInt 0; sca_low := PInt 1;
       dast_critical := 0; dast_high := 0;
       dast_medium := 0; dast_low := 0 |}
    (Counts 0 0 0 1) [0; 0; 0; 0; 0; 1; 0; 0; 0; 0]).
  - intros path content I E. right. cbn in I.
    destruct I as [<-|[<-|[<-|[]]]]; vm_compute in E; try discriminate E.
    injection E as <-. eexists. vm_compute. reflexivity.
  - vm_compute. reflexivity.
  - reflexivity.
  - repeat (apply List.Forall_cons; [lia|]). apply List.Forall_nil.
  - do 5 apply List.Exists_cons_tl. apply List.Exists_cons_hd. lia.
Defined.

(** ** The top level of a report *)

(** X17: a report must be a JSON object.  A report that is anything else
    (a list, a string, a number, null) gives zero counts and the warning
    with an [AttributeError], in each of the three parsers; a report that
    is an object without [results] (Semgrep) or without [site] (ZAP)
    gives zero counts and no warning. *)
Theorem report_must_be_an_object p fs tr content doc :
  fs !! p = Some (Text content) ->
  json_loads content = Some doc ->
  ((forall d, doc <> PDict d) ->
     parse_semgrep_results p (State fs tr)
       = (Ok (0, 0),
          State fs (tr ++ [Opened p; Could_not_parse Semgrep AttributeError]))
     /\ parse_npm_audit_results p (State fs tr)
        = (Ok (Counts (PInt 0) (PInt 0) (PInt 0) (PInt 0)),
           State fs (tr ++ [Opened p; Could_not_parse NpmAudit AttributeError]))
     /\ parse_zap_results p (State fs tr)
        = (Ok zero_counts,
           State fs (tr ++ [Opened p; Could_not_parse ZAP AttributeError])))
  /\ (forall d, doc = PDict d -> dict_lookup "results" d = None ->
        parse_semgrep_results p (State fs tr)
          = (Ok (0, 0), State fs (tr ++ [Opened p])))
  /\ (forall d, doc = PDict d -> dict_lookup "site" d = None ->
        parse_zap_results p (State fs tr)
          = (Ok zero_counts, State fs (tr ++ [Opened p]))).
Proof.
  intros F L.
  rewrite parse_semgrep_results_run, parse_npm_audit_results_run,
    parse_zap_results_run.
  unfold load, json_decode. rewrite F. cbn [open_read rbind]. rewrite L.
  cbn [rbind]. split; [|split].
  - intros N. destruct doc as [| | | | |d]; try (repeat split; reflexivity).
    now destruct (N d).
  - intros d -> R. unfold semgrep_counts. cbn [py_get]. now rewrite R.
  - intros d -> S. unfold zap_counts. cbn [py_get]. now rewrite S.
Qed.

Lemma report_must_be_an_object_witness :
  let fs : gmap string file :=
    {[ "dast-results/zap-report.json"%string := Text "[]" ]} in
  parse_zap_results "dast-results/zap-report.json" (State fs [])
    = (Ok zero_counts,
       State fs ([] ++ [Opened "dast-results/zap-report.json";
                        Could_not_parse ZAP AttributeError])).
Proof.
  cbv zeta.
  destruct (report_must_be_an_object
    "dast-results/zap-report.json"
    {[ "dast-results/zap-report.json"%string := Text "[]" ]}
    [] "[]" (PList [])) as [E _].
  - reflexivity.
  - vm_compute. reflexivity.
  - destruct E as (_ & _ & Z); [discriminate|exact Z].
Defined.

(** ** Runs on concrete directories *)

(** The example of the specification: no SAST count file, a Semgrep report
    with two [ERROR] results and one [WARNING] result, nothing else. *)
Example semgrep_report_only :
  let st :=
    State {[ "sast-results/semgrep-results.json"%string :=
               Text (json_text "{'results': [{'extra': {'severity': 'ERROR'}}, {'extra': {'severity': 'WARNING'}}, {'extra': {'severity': 'ERROR'}}]}") ]} [] in
  fst (script st) = 1
  /\ (summary_of st ≫= field ["sast"; "critical"]) = Some (PInt 2)
  /\ (summary_of st ≫= field ["sast"; "high"]) = Some (PInt 1)
  /\ (summary_of st ≫= field ["total_critical"]) = Some (PInt 2)
  /\ (summary_of st ≫= field ["total_high"]) = Some (PInt 1)
  /\ (summary_of st ≫= field ["passed"]) = Some (PBool false)
  /\ (summary_of st ≫= field ["failures"])
     = Some (PList [PStr "Critical vulnerabilities: 2 exceeds threshold of 0";
                    PStr "High vulnerabilities: 1 exceeds threshold of 0"]).
Proof. cbv zeta. repeat split; vm_compute; reflexivity. Qed.

(** The other example of the specification: an empty directory. *)
Example no_input_at_all :
  fst (run ∅) = 0
  /\ trace (snd (run ∅)) = []
  /\ (written_summary (snd (run ∅)) ≫= field ["total"]) = Some (PInt 0)
  /\ (written_summary (snd (run ∅)) ≫= field ["passed"]) = Some (PBool true)
  /\ (written_summary (snd (run ∅)) ≫= field ["failures"]) = Some (PList []).
Proof. repeat split; vm_compute; reflexivity. Qed.

(** A summary file that cannot be written is fatal as well. *)
Example summary_cannot_be_written :
  let st := State {[ "quality-gate-summary.json"%string := Unreadable ]} [] in
  script st = (1, State (files st) [Fatal_error OSError]).
Proof. vm_compute. reflexivity. Qed.

(** Malformed JSON gives zero counts and a warning, and the run goes on. *)
Example malformed_zap_report :
  let st :=
    State {[ "dast-results/zap-report.json"%string := Text "{site: [" ]} [] in
  fst (script st) = 0
  /\ trace (snd (script st))
     = [Opened "dast-results/zap-report.json"; Could_not_parse ZAP JSONDecodeError].
Proof. cbv zeta. split; vm_compute; reflexivity. Qed.

(** A count with more digits than [int] takes is invalid content: the
    count is the default, and here the gate passes. *)
Example count_file_beyond_the_limit :
  let st :=
    State {[ "dast-results/dast-critical.txt"%string := Text (py_mul "1" 4301) ]} [] in
  fst (script st) = 0
  /\ hd_error (tl (trace (snd (script st))))
     = Some (Warning_invalid_content "dast-results/dast-critical.txt" ValueError)
  /\ (summary_of st ≫= field ["dast"; "critical"]) = Some (PInt 0).
Proof.
  cbv zeta. split; [vm_compute; reflexivity|].
  split; vm_compute; reflexivity.
Qed.

(** Two counts within the limit whose sum is beyond it: the first table
    cannot format the total, and the run ends with status 1 and no
    summary. *)
Example total_beyond_the_limit :
  let st :=
    State {[ "sast-results/sast-critical.txt"%string := Text (py_mul "9" 4300);
             "dast-results/dast-critical.txt"%string := Text "1" ]} [] in
  fst (script st) = 1
  /\ last (trace (snd (script st))) = Some (Fatal_error ValueError)
  /\ written_summary (snd (script st)) = None.
Proof.
  cbv zeta. split; [vm_compute; reflexivity|].
  split; vm_compute; reflexivity.
Qed.

(** An integer of a report with more digits than the limit: [json.load]
    raises the [ValueError] of [int], and the report counts for nothing. *)
Example report_integer_beyond_the_limit :
  let st :=
    State {[ "sca-results/npm-audit-results.json"%string :=
               Text (json_text "{'metadata': {'vulnerabilities': {'critical': "
                     +:+ py_mul "1" 4301 +:+ "}}}") ]} [] in
  fst (script st) = 0
  /\ trace (snd (script st))
     = [Opened "sca-results/npm-audit-results.json";
        Could_not_parse NpmAudit ValueError].
Proof. cbv zeta. split; vm_compute; reflexivity. Qed.
